(** * DMI forecast ingestor: a shallow embedding and its verified properties

    The development follows [src/dmi_ingestor/ingestor.py] (the
    multi-parameter pipeline) and, for the timestamp key, also
    [src/dmi_ingester/ingester.py] (the legacy single-parameter pipeline,
    whose key derivation is textually the same).

    Python strings are Rocq strings whose characters are code points below
    256.  The external collaborators (HTTP client, xarray, rioxarray, GDAL,
    s3fs) are modelled at their interface: what they return is either
    supplied by an environment record or described symbolically. *)

From Stdlib Require Import ZArith Ascii String Lia.
From stdpp Require Import gmap strings list fin_maps.

Local Open Scope Z_scope.

(** ** Python string methods used by the program *)

Module PyStr.

(** [s.startswith(p)] *)
Definition startswith (s p : string) : bool := String.prefix p s.

(** Does character [c] occur in [s]?  ([c in s] for a one-character [c].) *)
Fixpoint occurs (c : ascii) (s : string) : bool :=
  match s with
  | EmptyString => false
  | String x r => if Ascii.eqb c x then true else occurs c r
  end.

(** [s.replace(old, new)] for a non-empty [old]: left to right,
    non-overlapping.  [skip] counts the characters of a matched [old]
    that are still to be dropped. *)
Fixpoint replace_from (old new : string) (skip : nat) (s : string) : string :=
  match s with
  | EmptyString => EmptyString
  | String c r =>
      match skip with
      | S k => replace_from old new k r
      | O =>
          if String.prefix old s
          then new +:+ replace_from old new (String.length old - 1) r
          else String c (replace_from old new 0 r)
      end
  end.

Definition replace (s old new : string) : string := replace_from old new 0 s.

(** [s.split(sep)] for a non-empty [sep]; the result is never empty and is
    returned as its first piece and the remaining pieces. *)
Fixpoint split_from (sep : string) (skip : nat) (s : string) : string * list string :=
  match s with
  | EmptyString => (EmptyString, [])
  | String c r =>
      match skip with
      | S k => split_from sep k r
      | O =>
          if String.prefix sep s
          then let '(p, ps) := split_from sep (String.length sep - 1) r in
               (EmptyString, p :: ps)
          else let '(p, ps) := split_from sep 0 r in
               (String c p, ps)
      end
  end.

Definition split (s sep : string) : list string :=
  let '(p, ps) := split_from sep 0 s in p :: ps.

(** [l[0]] on the result of [split], which always has an element. *)
Definition item0 (l : list string) : string :=
  match l with
  | [] => EmptyString
  | x :: _ => x
  end.

(** [s.lstrip(chars)]: [chars] is a set of characters, not a prefix. *)
Fixpoint lstrip (s chars : string) : string :=
  match s with
  | EmptyString => EmptyString
  | String c r => if occurs c chars then lstrip r chars else s
  end.

(** [sep.join(l)] *)
Fixpoint join (sep : string) (l : list string) : string :=
  match l with
  | [] => EmptyString
  | [x] => x
  | x :: r => x +:+ sep +:+ join sep r
  end.

(** [os.path.basename(p)] (posix): what follows the last slash.  [acc] is
    what follows the last slash seen so far. *)
Fixpoint basename_from (acc s : string) : string :=
  match s with
  | EmptyString => acc
  | String c r => if Ascii.eqb c "/" then basename_from r r else basename_from acc r
  end.

Definition basename (p : string) : string := basename_from p p.

Fixpoint last_char (s : string) : option ascii :=
  match s with
  | EmptyString => None
  | String c EmptyString => Some c
  | String _ r => last_char r
  end.

(** [os.path.join(a, b)] (posix, two arguments) *)
Definition path_join (a b : string) : string :=
  if startswith b "/" then b
  else match last_char a with
       | None => b
       | Some c => if Ascii.eqb c "/" then a +:+ b else a +:+ "/" +:+ b
       end.

(** [str(n)] for a natural number; [fuel] bounds the number of digits. *)
Definition digit (d : Z) : ascii := ascii_of_nat (48 + Z.to_nat d).

Fixpoint decimal_from (fuel : nat) (n : Z) (acc : string) : string :=
  match fuel with
  | O => acc
  | S f =>
      let acc' := String (digit (n mod 10)) acc in
      if n / 10 =? 0 then acc' else decimal_from f (n / 10) acc'
  end.

Definition str_nat (n : nat) : string :=
  decimal_from (S n) (Z.of_nat n) EmptyString.

(** [f"{x}"] for a value that may be [None] (an unset environment
    variable). *)
Definition fmt (x : option string) : string :=
  match x with
  | Some s => s
  | None => "None"
  end.

End PyStr.

(** ** numpy [datetime64[ns]] and its [str] *)

Module Numpy.

(** A [datetime64[ns]] scalar: nanoseconds since 1970-01-01T00:00:00, a
    signed 64-bit integer whose least value is NaT. *)
Definition datetime64 := Z.

Definition NaT : datetime64 := - 2 ^ 63.

Definition ns_per_second : Z := 1000000000.
Definition ns_per_day : Z := 86400 * ns_per_second.

Record civil := { year : Z; month : Z; day : Z }.

(** Proleptic Gregorian date of a day count since 1970-01-01. *)
Definition civil_from_days (days : Z) : civil :=
  let z := days + 719468 in
  let era := z / 146097 in
  let doe := z - era * 146097 in
  let yoe := (doe - doe / 1460 + doe / 36524 - doe / 146096) / 365 in
  let doy := doe - (365 * yoe + yoe / 4 - yoe / 100) in
  let mp := (5 * doy + 2) / 153 in
  let d := doy - (153 * mp + 2) / 5 + 1 in
  let m := if mp <? 10 then mp + 3 else mp - 9 in
  let y := yoe + era * 400 + (if m <=? 2 then 1 else 0) in
  {| year := y; month := m; day := d |}.

(** [k] decimal digits of [n], zero padded. *)
Fixpoint pad (k : nat) (n : Z) : string :=
  match k with
  | O => EmptyString
  | S k' => pad k' (n / 10) +:+ String (PyStr.digit (n mod 10)) EmptyString
  end.

Definition date_of (t : datetime64) : civil := civil_from_days (t / ns_per_day).
Definition second_of_day (t : datetime64) : Z := (t mod ns_per_day) / ns_per_second.
Definition hour (t : datetime64) : Z := second_of_day t / 3600.
Definition minute (t : datetime64) : Z := (second_of_day t / 60) mod 60.
Definition second (t : datetime64) : Z := second_of_day t mod 60.
Definition nanosecond (t : datetime64) : Z := t mod ns_per_second.

(** The part of the rendering up to whole seconds,
    [YYYY-MM-DDTHH:MM:SS].  Within the 64-bit range the year has four
    digits (1677 to 2262). *)
Definition iso_seconds (t : datetime64) : string :=
  pad 4 (year (date_of t)) +:+ "-" +:+ pad 2 (month (date_of t)) +:+ "-"
    +:+ pad 2 (day (date_of t)) +:+ "T" +:+ pad 2 (hour t) +:+ ":"
    +:+ pad 2 (minute t) +:+ ":" +:+ pad 2 (second t).

(** [str(t)]: ISO 8601 with nine fractional digits, or [NaT]. *)
Definition str (t : datetime64) : string :=
  if t =? NaT then "NaT"
  else iso_seconds t +:+ "." +:+ pad 9 (nanosecond t).

End Numpy.

(** ** The timestamp key (both pipelines)

    [time_str = str(t).split('.')[0].replace("-", "").replace(":", "")] *)

Definition time_str (t : Numpy.datetime64) : string :=
  PyStr.replace
    (PyStr.replace (PyStr.item0 (PyStr.split (Numpy.str t) ".")) "-" "")
    ":" "".

(** The digits of the key that the date and the time of day contribute. *)
Definition date_digits (t : Numpy.datetime64) : string :=
  Numpy.pad 4 (Numpy.year (Numpy.date_of t))
    +:+ Numpy.pad 2 (Numpy.month (Numpy.date_of t))
    +:+ Numpy.pad 2 (Numpy.day (Numpy.date_of t)).

Definition clock_digits (t : Numpy.datetime64) : string :=
  Numpy.pad 2 (Numpy.hour t) +:+ Numpy.pad 2 (Numpy.minute t)
    +:+ Numpy.pad 2 (Numpy.second t).

(** 2024-03-01T12:00:00.5 as nanoseconds since the epoch. *)
Definition t_2024_03_01_12_00_00_5 : Numpy.datetime64 := 1709294400500000000.

(** ** Values exchanged with the external collaborators *)

(** The exceptions that can reach the program. *)
Inductive Exn : Type :=
| HTTPError (status_code : Z) (url : string)
| ConnectionError (msg : string)
| FileNotFoundError (path : string)
| OSError (msg : string)
| ValueError (msg : string)
| MissingCRS
| RuntimeError (msg : string).

Inductive Result (A : Type) : Type :=
| Ok (a : A)
| Raise (e : Exn).

Arguments Ok {A} a.
Arguments Raise {A} e.

(** A [requests.Response], as far as the program looks at it. *)
Record Response := { status_code : Z; content : string }.

(** A [pyproj.CRS], by the text it was made from. *)
Inductive CRS : Type :=
| CRS_from_wkt (wkt : string)
| CRS_from_user_input (s : string).

(** The grid values of a dataset: as decoded from a payload, or the result
    of warping another grid between two reference systems. *)
Inductive Grid : Type :=
| GridDecoded (payload : string)
| GridReprojected (src dst : CRS) (g : Grid).

(** An [xarray.Dataset] with dimensions (time, y, x): its time coordinate,
    the spatial reference rioxarray sees on it, and its values. *)
Record Dataset := {
  ds_time : list Numpy.datetime64;
  ds_crs : option CRS;
  ds_grid : Grid
}.

(** The keyword arguments of [gdal.Translate] / [gdal.TranslateOptions]. *)
Record TranslateOptions := {
  format : option string;
  creationOptions : list string;
  outputSRS : option string;
  bandList : option (list nat);
  options : list string
}.

(** The content of a file or of a stored object. *)
Inductive Blob : Type :=
| NetCDF (ds : Dataset)
| Translated (src : Blob) (opts : TranslateOptions)
| Text (s : string).

(** The number of raster bands GDAL sees: one per timestep of the array
    file, or as many as were selected. *)
Fixpoint band_count (b : Blob) : option nat :=
  match b with
  | NetCDF ds => Some (length (ds_time ds))
  | Translated src opts =>
      match bandList opts with
      | Some l => Some (length l)
      | None => band_count src
      end
  | Text _ => None
  end.

(** A Python [dict] from [str] to [str], in insertion order. *)
Definition dict := list (string * string).

(** [d[k] = v] *)
Fixpoint dict_set (d : dict) (k v : string) : dict :=
  match d with
  | [] => [(k, v)]
  | (k', v') :: r =>
      if String.eqb k' k then (k', v) :: r else (k', v') :: dict_set r k v
  end.

(** ** [json.dump(data, fp, indent=4)] for a [dict] of strings *)

Module Json.

Definition dq : ascii := "034"%char.
Definition nl : string := String "010"%char EmptyString.

Definition hex_digit (n : nat) : ascii :=
  match String.get n "0123456789abcdef" with
  | Some c => c
  | None => "0"%char
  end.

(** The default encoder ([ensure_ascii=True]). *)
Definition escape_char (c : ascii) : string :=
  let n := nat_of_ascii c in
  if (n =? 34)%nat then String "\" (String dq EmptyString)
  else if (n =? 92)%nat then "\\"
  else if (n =? 10)%nat then "\n"
  else if (n =? 13)%nat then "\r"
  else if (n =? 9)%nat then "\t"
  else if (n =? 8)%nat then "\b"
  else if (n =? 12)%nat then "\f"
  else if ((32 <=? n) && (n <=? 126))%nat then String c EmptyString
  else "\u00" +:+ String (hex_digit (n / 16)) (String (hex_digit (n mod 16)) EmptyString).

Fixpoint escape (s : string) : string :=
  match s with
  | EmptyString => EmptyString
  | String c r => escape_char c +:+ escape r
  end.

Definition dumps_str (s : string) : string :=
  String dq (escape s) +:+ String dq EmptyString.

Definition dumps_item (kv : string * string) : string :=
  "    " +:+ dumps_str (fst kv) +:+ ": " +:+ dumps_str (snd kv).

Definition dumps (d : dict) : string :=
  match d with
  | [] => "{}"
  | _ => "{" +:+ nl +:+ PyStr.join ("," +:+ nl) (map dumps_item d) +:+ nl +:+ "}"
  end.

End Json.

(** ** [urllib.parse]: [urlencode] and [urlunsplit] *)

Module Url.

Definition HEX (n : nat) : ascii :=
  match String.get n "0123456789ABCDEF" with
  | Some c => c
  | None => "0"%char
  end.

Definition percent (n : nat) : string :=
  String "%" (String (HEX (n / 16)) (String (HEX (n mod 16)) EmptyString)).

Definition unreserved (n : nat) : bool :=
  (((48 <=? n) && (n <=? 57)) || ((65 <=? n) && (n <=? 90))
   || ((97 <=? n) && (n <=? 122))
   || (n =? 95) || (n =? 46) || (n =? 45) || (n =? 126))%nat.

(** [quote_plus] of one character: the UTF-8 bytes of a code point below
    256, percent encoded unless unreserved; a space becomes a plus. *)
Definition quote_plus_char (c : ascii) : string :=
  let n := nat_of_ascii c in
  if (n =? 32)%nat then "+"
  else if unreserved n then String c EmptyString
  else if (n <? 128)%nat then percent n
  else if (n <? 192)%nat then percent 194 +:+ percent n
  else percent 195 +:+ percent (n - 64).

Fixpoint quote_plus (s : string) : string :=
  match s with
  | EmptyString => EmptyString
  | String c r => quote_plus_char c +:+ quote_plus r
  end.

Definition urlencode (query : list (string * string)) : string :=
  PyStr.join "&" (map (fun kv => quote_plus (fst kv) +:+ "=" +:+ quote_plus (snd kv)) query).

(** [urlunsplit] for a non-empty network location, which is what the
    program passes. *)
Definition urlunsplit (scheme netloc path query fragment : string) : string :=
  let url := if negb (String.eqb path "") && negb (PyStr.startswith path "/")
             then "/" +:+ path else path in
  let url := "//" +:+ netloc +:+ url in
  let url := if String.eqb scheme "" then url else scheme +:+ ":" +:+ url in
  let url := if String.eqb query "" then url else url +:+ "?" +:+ query in
  if String.eqb fragment "" then url else url +:+ "#" +:+ fragment.

End Url.

(** ** The world the program acts on *)

Inductive Level : Type := DEBUG | INFO | WARNING | ERROR.

Inductive LogMsg : Type :=
| Msg (s : string)
| MsgExn (e : Exn).

(** The calls made to the upstream API and to the object store, in order,
    whether or not they succeeded. *)
Inductive Call : Type :=
| CallGet (url : string)
| CallRm (path : string)
| CallPut (bucket_file : string) (b : Blob).

(** One object store (the endpoint and the credentials select it and do not
    change in a run), the local files, the calls made and the records handed
    to the logger. *)
Record World := mkWorld {
  s3_store : gmap string Blob;
  files : gmap string Blob;
  calls : list Call;
  log : list (Level * LogMsg)
}.

(** What the collaborators answer: the response to a GET, the decoding of a
    payload, whether the write to [bucket_file] that follows [n] earlier
    calls fails, and whether rioxarray refuses to warp a dataset to a
    reference system (a grid of a single cell, spatial dimensions it does
    not find). *)
Record Env := {
  requests_get_result : string -> Result Response;
  xarray_open_dataset : string -> Result Dataset;
  s3_write_error : nat -> string -> option Exn;
  rio_reproject_error : Dataset -> CRS -> option Exn
}.

(** Computations that act on the world and may raise. *)
Definition M (A : Type) : Type := World -> Result A * World.

Definition ret {A} (a : A) : M A := fun w => (Ok a, w).

Definition raise {A} (e : Exn) : M A := fun w => (Raise e, w).

Definition bind {A B} (m : M A) (k : A -> M B) : M B :=
  fun w =>
    match m w with
    | (Ok a, w') => k a w'
    | (Raise e, w') => (Raise e, w')
    end.

Declare Scope py_scope.
Delimit Scope py_scope with py.
Notation "'let*' x ':=' m 'in' k" := (bind m (fun x => k))
  (at level 10, x name, m at level 200, k at level 200) : py_scope.
Notation "m ';;;' k" := (bind m (fun _ => k))
  (at level 200, right associativity) : py_scope.
Local Open Scope py_scope.

(** [try: m  except <those e with handler e = Some h>: h] *)
Definition try_except {A} (m : M A) (handler : Exn -> option (M A)) : M A :=
  fun w =>
    match m w with
    | (Ok a, w') => (Ok a, w')
    | (Raise e, w') =>
        match handler e with
        | Some h => h w'
        | None => (Raise e, w')
        end
    end.

(** [for x in l: body(x)] *)
Fixpoint for_each {A} (l : list A) (body : A -> M unit) : M unit :=
  match l with
  | [] => ret tt
  | x :: r => body x ;;; for_each r body
  end.

Definition logger (lvl : Level) (m : LogMsg) : M unit :=
  fun w => (Ok tt, mkWorld (s3_store w) (files w) (calls w) (log w ++ [(lvl, m)])).

Definition record_call (c : Call) : M unit :=
  fun w => (Ok tt, mkWorld (s3_store w) (files w) (calls w ++ [c]) (log w)).

(** *** Local files *)

(** [open(path, 'rb').read()], [gdal.Open(path)] *)
Definition read_file (path : string) : M Blob :=
  fun w =>
    match files w !! path with
    | Some b => (Ok b, w)
    | None => (Raise (FileNotFoundError path), w)
    end.

Definition write_file (path : string) (b : Blob) : M unit :=
  fun w => (Ok tt, mkWorld (s3_store w) (<[path := b]> (files w)) (calls w) (log w)).

(** [os.remove(path)] *)
Definition os_remove (path : string) : M unit :=
  fun w =>
    match files w !! path with
    | Some _ => (Ok tt, mkWorld (s3_store w) (delete path (files w)) (calls w) (log w))
    | None => (Raise (FileNotFoundError path), w)
    end.

(** *** The object store (s3fs) *)

(** s3fs strips the slashes that end a path. *)
Fixpoint rstrip_slash (s : string) : string :=
  match s with
  | EmptyString => EmptyString
  | String c r =>
      match rstrip_slash r with
      | EmptyString => if Ascii.eqb c "/" then EmptyString else String c EmptyString
      | r' => String c r'
      end
  end.

(** The keys that [rm(path, recursive=True)] removes: the object at [path]
    and every object below it. *)
Definition under (path key : string) : bool :=
  String.eqb key (rstrip_slash path) || String.prefix (rstrip_slash path +:+ "/") key.

Definition delete_prefix (path : string) (store : gmap string Blob) : gmap string Blob :=
  filter (fun kv => under path (fst kv) = false) store.

(** [s3.rm(path, recursive=True)]: raises when there is nothing to remove. *)
Definition s3_rm (path : string) : M unit :=
  record_call (CallRm path) ;;;
  fun w =>
    if decide (filter (fun kv => under path (fst kv) = true) (s3_store w) = ∅)
    then (Raise (FileNotFoundError path), w)
    else (Ok tt, mkWorld (delete_prefix path (s3_store w)) (files w) (calls w) (log w)).

(** Writing [b] to [bucket_file] and closing the object, which commits it
    or fails and leaves the store as it was. *)
Definition s3_write (env : Env) (bucket_file : string) (b : Blob) : M unit :=
  fun w =>
    let w1 := mkWorld (s3_store w) (files w) (calls w ++ [CallPut bucket_file b]) (log w) in
    match s3_write_error env (length (calls w)) bucket_file with
    | Some e => (Raise e, w1)
    | None =>
        (Ok tt, mkWorld (<[bucket_file := b]> (s3_store w)) (files w) (calls w1) (log w))
    end.

(** *** The upstream API (requests) *)

Definition requests_get (env : Env) (url : string) : M Response :=
  record_call (CallGet url) ;;;
  fun w => (requests_get_result env url, w).

(** [response.raise_for_status()]: the client and server error statuses
    raise. *)
Definition raise_for_status (url : string) (r : Response) : M unit :=
  if (400 <=? status_code r) && (status_code r <? 600)
  then raise (HTTPError (status_code r) url)
  else ret tt.

(** *** GDAL *)

Definition bands_exist (src : Blob) (opts : TranslateOptions) : bool :=
  match band_count src, bandList opts with
  | None, _ => false
  | Some _, None => true
  | Some n, Some l => forallb (fun b => (1 <=? b)%nat && (b <=? n)%nat) l
  end.

(** [gdal.Translate(dst, src, ...)] *)
Definition gdal_Translate (dst : string) (src : Blob) (opts : TranslateOptions) : M unit :=
  if bands_exist src opts
  then write_file dst (Translated src opts)
  else raise (RuntimeError "gdal.Translate").

(** *** rioxarray *)

Definition rio_write_crs (ds : Dataset) (crs : CRS) : Dataset :=
  {| ds_time := ds_time ds; ds_crs := Some crs; ds_grid := ds_grid ds |}.

(** [ds.rio.reproject(dst)]: raises without a reference system on the
    dataset, and when the grid cannot be warped. *)
Definition rio_reproject (env : Env) (ds : Dataset) (dst : CRS) : Result Dataset :=
  match ds_crs ds with
  | None => Raise MissingCRS
  | Some src =>
      match rio_reproject_error env ds dst with
      | Some e => Raise e
      | None =>
          Ok {| ds_time := ds_time ds; ds_crs := Some dst;
                ds_grid := GridReprojected src dst (ds_grid ds) |}
      end
  end.

(** ** The program: [src/dmi_ingestor/ingestor.py] *)

(** The projection of the HARMONIE DINI grid.  The text is the source's,
    with an apostrophe written for each double quote and put back by
    [replace]. *)
Definition LCC_DMI_WKT : string :=
  Eval vm_compute in
    PyStr.replace
"PROJCRS['DMI HARMONIE DINI lambert projection',
BASEGEOGCRS['DMI HARMONIE DINI lambert CRS',
    DATUM['DMI HARMONIE DINI lambert datum',
        ELLIPSOID['Sphere',6371229,0,
            LENGTHUNIT['metre',1,
                ID['EPSG',9001]]]],
    PRIMEM['Greenwich',0,
        ANGLEUNIT['degree',0.0174532925199433,
            ID['EPSG',9122]]]],
CONVERSION['Lambert Conic Conformal (2SP)',
    METHOD['Lambert Conic Conformal (2SP)',
        ID['EPSG',9802]],
    PARAMETER['Latitude of false origin',55.5,
        ANGLEUNIT['degree',0.0174532925199433],
        ID['EPSG',8821]],
    PARAMETER['Longitude of false origin',-8,
        ANGLEUNIT['degree',0.0174532925199433],
        ID['EPSG',8822]],
    PARAMETER['Latitude of 1st standard parallel',55.5,
        ANGLEUNIT['degree',0.0174532925199433],
        ID['EPSG',8823]],
    PARAMETER['Latitude of 2nd standard parallel',55.5,
        ANGLEUNIT['degree',0.0174532925199433],
        ID['EPSG',8824]],
    PARAMETER['Easting at false origin',0,
        LENGTHUNIT['metre',1],
        ID['EPSG',8826]],
    PARAMETER['Northing at false origin',0,
        LENGTHUNIT['metre',1],
        ID['EPSG',8827]]],
CS[Cartesian,2],
    AXIS['(E)',east,
        ORDER[1],
        LENGTHUNIT['Metre',1]],
    AXIS['(N)',north,
        ORDER[2],
        LENGTHUNIT['Metre',1]]]"
      "'" (String Json.dq EmptyString).

(** The configurable parameters, as read from the environment: a variable
    without a default is [None] when it is not set. *)
Record Config := {
  dmi_api_key : option string;
  bucket_endpoint : string;
  bucket_name : option string;
  bucket_base_path : string;
  bucket_key : option string;
  bucket_secret : option string;
  upload : bool;
  collection : string;
  parameters : string;
  bbox : string
}.

(** The fixed parameters. *)
Definition netloc : string := "dmigw.govcloud.dk".
Definition url_base_path : string := "v1/forecastedr/collections".
Definition request_type : string := "cube".
Definition out_format : string := "NetCDF".
Definition base_data_dir : string := "/app/data".
Definition nc_filename : string := PyStr.path_join base_data_dir "temp.nc".
Definition cog_filename : string := PyStr.path_join base_data_dir "temp.tif".
Definition forecast_json_filename : string := PyStr.path_join base_data_dir "forecasts.json".

Definition delete_outdated_forecasts (bucket_path : string)
    (endpoint_url : string) (key secret : option string) : M unit :=
  logger DEBUG (Msg ("Delete path " +:+ bucket_path +:+ " recursively.")) ;;;
  try_except (s3_rm bucket_path)
    (fun err =>
       match err with
       | FileNotFoundError _ => Some (logger DEBUG (MsgExn err))
       | _ => None
       end).

(** [gdal.TranslateOptions(format="COG", creationOptions=["COMPRESS=LZW"],
    outputSRS="EPSG:4326")] *)
Definition cog_options : TranslateOptions :=
  {| format := Some "COG"; creationOptions := ["COMPRESS=LZW"];
     outputSRS := Some "EPSG:4326"; bandList := None; options := [] |}.

Definition netcdf_to_cog (input_file output_file : string) : M unit :=
  let* dataset := read_file input_file in
  gdal_Translate output_file dataset cog_options.

Definition reproject_from_lambert (env : Env) (xarray_dataset : Dataset) (crs_to : string) :
    Result Dataset :=
  let crs_from := CRS_from_wkt LCC_DMI_WKT in
  rio_reproject env (rio_write_crs xarray_dataset crs_from) (CRS_from_user_input crs_to).

(** The upload closes the local file and the object when the two [with]
    blocks end, after the last statement of their body. *)
Definition upload_to_bucket (env : Env) (local_file bucket_file : string)
    (endpoint_url : string) (key secret : option string) : M unit :=
  logger DEBUG (Msg ("Try to upload " +:+ local_file +:+ " to " +:+ bucket_file +:+ ".")) ;;;
  let* f := read_file local_file in
  logger DEBUG (Msg "Upload succeeded.") ;;;
  s3_write env bucket_file f.

(** The keyword arguments [bandList=[band+1], options=["BIGTIFF=YES"]]. *)
Definition band_options (band : nat) : TranslateOptions :=
  {| format := None; creationOptions := []; outputSRS := None;
     bandList := Some [(band + 1)%nat]; options := ["BIGTIFF=YES"] |}.

(** The name of the band file of a timestep, and its place in the store and
    its public address as the loop below computes them. *)
Definition band_output_file (folder_name : string) (t : Numpy.datetime64) : string :=
  PyStr.path_join folder_name (time_str t +:+ ".tif").

Definition band_bucket_file (bucket_name : option string) (bucket_path : string)
    (output_file : string) : string :=
  PyStr.fmt bucket_name +:+ "/" +:+ bucket_path +:+ "/" +:+ PyStr.basename output_file.

Definition band_public_url (bucket_name : option string) (bucket_path endpoint : string)
    (output_file : string) : string :=
  "https://" +:+ PyStr.fmt bucket_name +:+ "." +:+ PyStr.lstrip endpoint "https://"
    +:+ "/" +:+ bucket_path +:+ "/" +:+ PyStr.basename output_file.

(** The body of [for band, t in enumerate(times)], from index [band] on;
    [n_times] is [len(times)] and [forecasts] the mapping so far. *)
Fixpoint transform_loop (env : Env) (dataset : Blob) (folder_name : string)
    (n_times : nat) (bucket_name : option string) (bucket_path endpoint : string)
    (key secret : option string) (upload : bool)
    (band : nat) (times : list Numpy.datetime64) (forecasts : dict) : M dict :=
  match times with
  | [] => ret forecasts
  | t :: rest =>
      let output_file := band_output_file folder_name t in
      gdal_Translate output_file dataset (band_options band) ;;;
      let* forecasts' :=
        (if upload then
           upload_to_bucket env output_file
             (band_bucket_file bucket_name bucket_path output_file) endpoint key secret ;;;
           let forecasts' :=
             dict_set forecasts (time_str t)
               (band_public_url bucket_name bucket_path endpoint output_file) in
           (if (band mod 10 =? 0)%nat
            then logger INFO (Msg ("Uploaded " +:+ PyStr.str_nat band +:+ " of "
                                     +:+ PyStr.str_nat n_times +:+ " files."))
            else ret tt) ;;;
           ret forecasts'
         else ret forecasts) in
      transform_loop env dataset folder_name n_times bucket_name bucket_path endpoint
        key secret upload (S band) rest forecasts'
  end.

Definition transform_cog_to_single_bands_and_upload_to_bucket (env : Env)
    (cog_file folder_name : string) (times : list Numpy.datetime64)
    (bucket_name : option string) (bucket_path endpoint : string)
    (key secret : option string) (upload : bool) : M dict :=
  let* dataset := read_file cog_file in
  transform_loop env dataset folder_name (length times) bucket_name bucket_path endpoint
    key secret upload 0 times [].

(** *** The main block *)

Definition crs_of (collection : string) : string :=
  if PyStr.startswith collection "harmonie" then "native" else "crs84".

Definition query_params (cfg : Config) (parameter : string) : list (string * string) :=
  [("api-key", PyStr.fmt (dmi_api_key cfg));
   ("crs", crs_of (collection cfg));
   ("parameter-name", parameter);
   ("bbox", bbox cfg);
   ("f", out_format)].

Definition request_url (cfg : Config) (parameter : string) : string :=
  Url.urlunsplit "https" netloc
    (url_base_path +:+ "/" +:+ collection cfg +:+ "/" +:+ request_type)
    (Url.urlencode (query_params cfg parameter)) "".

Definition bucket_path_of (cfg : Config) (parameter : string) : string :=
  bucket_base_path cfg +:+ "/" +:+ collection cfg +:+ "/" +:+ parameter.

Definition bucket_path_full_of (cfg : Config) (parameter : string) : string :=
  PyStr.fmt (bucket_name cfg) +:+ "/" +:+ bucket_path_of cfg parameter.

Definition forecast_json_bucket_path_of (cfg : Config) (parameter : string) : string :=
  bucket_path_full_of cfg parameter +:+ "/forecasts.json".

Definition lift {A} (r : Result A) : M A := fun w => (r, w).

(** The dataset that is saved and converted: reprojected for the HARMONIE
    collections, as fetched otherwise. *)
Definition normalize (env : Env) (cfg : Config) (ds : Dataset) : Result Dataset :=
  if PyStr.startswith (collection cfg) "harmonie"
  then reproject_from_lambert env ds "epsg:4326"
  else Ok ds.

(** The [else] block of the fetch, from [ds.to_netcdf] on: the dataset is
    saved, converted, split and uploaded, the manifest is written and
    uploaded, and the local intermediate files are removed. *)
Definition convert_and_upload (env : Env) (cfg : Config) (parameter : string) (ds : Dataset) : M unit :=
  let bucket_path := bucket_path_of cfg parameter in
  logger INFO (Msg "Save data to NetCDF.") ;;;
  write_file nc_filename (NetCDF ds) ;;;
  logger INFO (Msg "Transform NetCDF to COG.") ;;;
  netcdf_to_cog nc_filename cog_filename ;;;
  logger INFO (Msg "Split COG into bands (time slices) and upload them to bucket.") ;;;
  let* data :=
    transform_cog_to_single_bands_and_upload_to_bucket env cog_filename base_data_dir
      (ds_time ds) (bucket_name cfg) bucket_path (bucket_endpoint cfg) (bucket_key cfg)
      (bucket_secret cfg) (upload cfg) in
  write_file forecast_json_filename (Text (Json.dumps data)) ;;;
  upload_to_bucket env forecast_json_filename (forecast_json_bucket_path_of cfg parameter)
    (bucket_endpoint cfg) (bucket_key cfg) (bucket_secret cfg) ;;;
  try_except
    (os_remove nc_filename ;;;
     os_remove cog_filename ;;;
     os_remove forecast_json_filename)
    (fun err => Some (logger WARNING (MsgExn err))).

(** The [else] block of the fetch: what follows a successful response. *)
Definition publish (env : Env) (cfg : Config) (parameter : string) (response : Response) : M unit :=
  delete_outdated_forecasts (bucket_path_full_of cfg parameter) (bucket_endpoint cfg)
    (bucket_key cfg) (bucket_secret cfg) ;;;
  let* ds := lift (xarray_open_dataset env (content response)) in
  let* ds := lift (normalize env cfg ds) in
  convert_and_upload env cfg parameter ds.

(** The fetch: [requests.get] followed by [raise_for_status]. *)
Definition fetch (env : Env) (url : string) : M Response :=
  logger INFO (Msg "Request data from DMI API.") ;;;
  let* response := requests_get env url in
  raise_for_status url response ;;;
  ret response.

(** One turn of [for parameter in parameters.split(",")].  The directory of
    the local files exists from the first turn on; directories are not
    modelled.  An [HTTPError] of the fetch is handled; the [else] block runs
    outside the handler. *)
Definition process_parameter (env : Env) (cfg : Config) (parameter : string) : M unit :=
  logger INFO (Msg ("Start ingesting data from collection '" +:+ collection cfg
                      +:+ "' for parameter '" +:+ parameter +:+ "'.")) ;;;
  let url := request_url cfg parameter in
  fun w =>
    match fetch env url w with
    | (Raise (HTTPError s u), w') => logger ERROR (MsgExn (HTTPError s u)) w'
    | (Raise e, w') => (Raise e, w')
    | (Ok response, w') => publish env cfg parameter response w'
    end.

Definition main (env : Env) (cfg : Config) : M unit :=
  logger INFO (Msg "Start ingesting DMI data.") ;;;
  for_each (PyStr.split (parameters cfg) ",") (process_parameter env cfg).

(** ** What the band loop leaves behind

    The local files, the stored objects, the calls, the log records and the
    mapping that the loop of
    [transform_cog_to_single_bands_and_upload_to_bucket] produces when every
    step succeeds, written as functions of the timesteps that remain. *)

Section BandLoopEffect.

Variable dataset : Blob.
Variable folder_name : string.
Variable n_times : nat.
Variable bucket_name : option string.
Variable bucket_path endpoint : string.

Definition bucket_file_of (t : Numpy.datetime64) : string :=
  band_bucket_file bucket_name bucket_path (band_output_file folder_name t).

Definition public_url_of (t : Numpy.datetime64) : string :=
  band_public_url bucket_name bucket_path endpoint (band_output_file folder_name t).

Definition band_blob (band : nat) : Blob := Translated dataset (band_options band).

Fixpoint band_files (band : nat) (times : list Numpy.datetime64)
    (f : gmap string Blob) : gmap string Blob :=
  match times with
  | [] => f
  | t :: rest =>
      band_files (S band) rest (<[band_output_file folder_name t := band_blob band]> f)
  end.

Fixpoint band_objects (band : nat) (times : list Numpy.datetime64)
    (s : gmap string Blob) : gmap string Blob :=
  match times with
  | [] => s
  | t :: rest => band_objects (S band) rest (<[bucket_file_of t := band_blob band]> s)
  end.

Fixpoint band_calls (band : nat) (times : list Numpy.datetime64) : list Call :=
  match times with
  | [] => []
  | t :: rest => CallPut (bucket_file_of t) (band_blob band) :: band_calls (S band) rest
  end.

Definition upload_log (local_file bucket_file : string) : list (Level * LogMsg) :=
  [(DEBUG, Msg ("Try to upload " +:+ local_file +:+ " to " +:+ bucket_file +:+ "."));
   (DEBUG, Msg "Upload succeeded.")].

Definition progress_log (band : nat) : list (Level * LogMsg) :=
  if (band mod 10 =? 0)%nat
  then [(INFO, Msg ("Uploaded " +:+ PyStr.str_nat band +:+ " of "
                      +:+ PyStr.str_nat n_times +:+ " files."))]
  else [].

Fixpoint band_log (band : nat) (times : list Numpy.datetime64) : list (Level * LogMsg) :=
  match times with
  | [] => []
  | t :: rest =>
      upload_log (band_output_file folder_name t) (bucket_file_of t)
        ++ progress_log band ++ band_log (S band) rest
  end.

Fixpoint band_entries (times : list Numpy.datetime64) (forecasts : dict) : dict :=
  match times with
  | [] => forecasts
  | t :: rest => band_entries rest (dict_set forecasts (time_str t) (public_url_of t))
  end.

End BandLoopEffect.

(** ** What a run for one parameter leaves behind *)

(** The records of [delete_outdated_forecasts]: the second one when there
    was nothing to delete. *)
Definition delete_log (path : string) (s : gmap string Blob) : list (Level * LogMsg) :=
  (DEBUG, Msg ("Delete path " +:+ path +:+ " recursively."))
    :: (if decide (filter (fun kv => under path (fst kv) = true) s = ∅)
        then [(DEBUG, MsgExn (FileNotFoundError path))]
        else []).

(** The records up to the request. *)
Definition fetch_log (cfg : Config) (parameter : string) : list (Level * LogMsg) :=
  [(INFO, Msg ("Start ingesting data from collection '" +:+ collection cfg
                 +:+ "' for parameter '" +:+ parameter +:+ "'."));
   (INFO, Msg "Request data from DMI API.")].

Definition convert_log : list (Level * LogMsg) :=
  [(INFO, Msg "Save data to NetCDF.");
   (INFO, Msg "Transform NetCDF to COG.");
   (INFO, Msg "Split COG into bands (time slices) and upload them to bucket.")].

(** The multi-band raster made from a dataset. *)
Definition cog_of (ds : Dataset) : Blob := Translated (NetCDF ds) cog_options.

(** The local files before the band loop, and after the clean-up. *)
Definition staged_files (ds : Dataset) (f : gmap string Blob) : gmap string Blob :=
  <[cog_filename := cog_of ds]> (<[nc_filename := NetCDF ds]> f).

Definition cleaned_files (manifest : string) (f : gmap string Blob) : gmap string Blob :=
  delete forecast_json_filename
    (delete cog_filename
       (delete nc_filename (<[forecast_json_filename := Text manifest]> f))).

(** The mapping a run hands to [json.dump]. *)
Definition forecasts_of (cfg : Config) (parameter : string) (ds : Dataset) : dict :=
  if upload cfg
  then band_entries base_data_dir (bucket_name cfg) (bucket_path_of cfg parameter)
         (bucket_endpoint cfg) (ds_time ds) []
  else [].

Definition manifest_of (cfg : Config) (parameter : string) (ds : Dataset) : string :=
  Json.dumps (forecasts_of cfg parameter ds).

(** The band uploads of a run, and all that a run that meets no refusal
    adds to the store, the local files, the calls and the log. *)
Definition band_uploads (cfg : Config) (parameter : string) (ds : Dataset) : list Call :=
  if upload cfg
  then band_calls (cog_of ds) base_data_dir (bucket_name cfg) (bucket_path_of cfg parameter)
         0 (ds_time ds)
  else [].

Definition manifest_upload (cfg : Config) (parameter : string) (ds : Dataset) : Call :=
  CallPut (forecast_json_bucket_path_of cfg parameter) (Text (manifest_of cfg parameter ds)).

Definition band_store (cfg : Config) (parameter : string) (ds : Dataset)
    (s : gmap string Blob) : gmap string Blob :=
  if upload cfg
  then band_objects (cog_of ds) base_data_dir (bucket_name cfg) (bucket_path_of cfg parameter)
         0 (ds_time ds) s
  else s.

Definition published_store (cfg : Config) (parameter : string) (ds : Dataset)
    (s : gmap string Blob) : gmap string Blob :=
  <[forecast_json_bucket_path_of cfg parameter := Text (manifest_of cfg parameter ds)]>
    (band_store cfg parameter ds s).

Definition band_local_files (ds : Dataset) (f : gmap string Blob) : gmap string Blob :=
  band_files (cog_of ds) base_data_dir 0 (ds_time ds) (staged_files ds f).

Definition published_log (cfg : Config) (parameter : string) (ds : Dataset) : list (Level * LogMsg) :=
  convert_log
    ++ (if upload cfg
        then band_log base_data_dir (length (ds_time ds)) (bucket_name cfg)
               (bucket_path_of cfg parameter) 0 (ds_time ds)
        else [])
    ++ upload_log forecast_json_filename (forecast_json_bucket_path_of cfg parameter).

(** Every band write of the run that starts after [n] calls is accepted. *)
Definition bands_accepted (env : Env) (cfg : Config) (parameter : string) (ds : Dataset)
    (n : nat) : Prop :=
  upload cfg = true ->
  forall i t, ds_time ds !! i = Some t ->
    s3_write_error env (n + i)
      (bucket_file_of base_data_dir (bucket_name cfg) (bucket_path_of cfg parameter) t) = None.

(** ** Digits *)

(** A decimal digit. *)
Definition is_digit (c : ascii) : bool :=
  ((48 <=? nat_of_ascii c) && (nat_of_ascii c <=? 57))%nat.

(** Every character of [s] is a decimal digit. *)
Fixpoint all_digits (s : string) : bool :=
  match s with
  | EmptyString => true
  | String c r => is_digit c && all_digits r
  end.

(** ** Character sets *)

(** Every character of [s] is one of [chars]. *)
Fixpoint all_chars_in (chars s : string) : bool :=
  match s with
  | EmptyString => true
  | String c r => PyStr.occurs c chars && all_chars_in chars r
  end.

(** The first character of [s], if there is one, is none of [chars]. *)
Definition starts_outside (chars s : string) : bool :=
  match s with
  | EmptyString => true
  | String c _ => negb (PyStr.occurs c chars)
  end.

(** ** Example data *)

(** 2024-03-01T00:00:00, 06:00:00 and 12:00:00. *)
Definition example_times : list Numpy.datetime64 :=
  [1709251200000000000; 1709272800000000000; 1709294400000000000].

(** 2024-03-01T12:00:00.0 and 2024-03-01T12:00:00.5: two timestamps of the
    same second. *)
Definition same_second_times : list Numpy.datetime64 :=
  [1709294400000000000; t_2024_03_01_12_00_00_5].

Definition example_dataset (times : list Numpy.datetime64) (payload : string) : Dataset :=
  {| ds_time := times; ds_crs := None; ds_grid := GridDecoded payload |}.

Definition example_cfg : Config :=
  {| dmi_api_key := Some "secret-api-key";
     bucket_endpoint := "https://obs.eu-de.otc.t-systems.com";
     bucket_name := Some "forecast-bucket";
     bucket_base_path := "data/dmi/forecasts";
     bucket_key := Some "key";
     bucket_secret := Some "secret";
     upload := true;
     collection := "dkss_if";
     parameters := "sea-mean-deviation";
     bbox := "11.5,55.5,12.2,56.1" |}.

Definition with_parameters (cfg : Config) (ps : string) : Config :=
  {| dmi_api_key := dmi_api_key cfg; bucket_endpoint := bucket_endpoint cfg;
     bucket_name := bucket_name cfg; bucket_base_path := bucket_base_path cfg;
     bucket_key := bucket_key cfg; bucket_secret := bucket_secret cfg;
     upload := upload cfg; collection := collection cfg;
     parameters := ps; bbox := bbox cfg |}.


Definition with_collection (cfg : Config) (c : string) : Config :=
  {| dmi_api_key := dmi_api_key cfg; bucket_endpoint := bucket_endpoint cfg;
     bucket_name := bucket_name cfg; bucket_base_path := bucket_base_path cfg;
     bucket_key := bucket_key cfg; bucket_secret := bucket_secret cfg;
     upload := upload cfg; collection := c;
     parameters := parameters cfg; bbox := bbox cfg |}.

Definition example_response : Response := {| status_code := 200; content := "payload" |}.

(** Every request is answered with three timesteps and every write is
    accepted. *)
Definition env_ok : Env :=
  {| requests_get_result := fun _ => Ok example_response;
     xarray_open_dataset := fun payload => Ok (example_dataset example_times payload);
     s3_write_error := fun _ _ => None;
     rio_reproject_error := fun _ _ => None |}.

(** Every request is answered with status 404. *)
Definition env_not_found : Env :=
  {| requests_get_result := fun _ => Ok {| status_code := 404; content := "" |};
     xarray_open_dataset := fun payload => Ok (example_dataset example_times payload);
     s3_write_error := fun _ _ => None;
     rio_reproject_error := fun _ _ => None |}.

(** The write that follows [n] calls is refused. *)
Definition env_refusing (n : nat) : Env :=
  {| requests_get_result := fun _ => Ok example_response;
     xarray_open_dataset := fun payload => Ok (example_dataset example_times payload);
     s3_write_error :=
       fun i _ => if (i =? n)%nat then Some (OSError "write refused") else None;
     rio_reproject_error := fun _ _ => None |}.

(** Every request is answered with status 304, a status that is no
    success and for which [raise_for_status] does not raise; its empty body
    is no dataset. *)
Definition env_not_modified : Env :=
  {| requests_get_result := fun _ => Ok {| status_code := 304; content := "" |};
     xarray_open_dataset := fun _ => Raise (ValueError "not a dataset");
     s3_write_error := fun _ _ => None;
     rio_reproject_error := fun _ _ => None |}.

(** Every request is answered with three timesteps on a grid that
    rioxarray refuses to warp. *)
Definition env_unwarpable : Env :=
  {| requests_get_result := fun _ => Ok example_response;
     xarray_open_dataset := fun payload => Ok (example_dataset example_times payload);
     s3_write_error := fun _ _ => None;
     rio_reproject_error := fun _ _ => Some (RuntimeError "OneDimensionalRaster") |}.

Definition empty_world : World := mkWorld ∅ ∅ [] [].

(** A store that holds a band of an earlier, larger forecast and the
    object of another parameter. *)
Definition stale_world : World :=
  mkWorld
    (<["forecast-bucket/data/dmi/forecasts/dkss_if/sea-mean-deviation/20240229T180000.tif"
         := Text "stale"]>
       (<["forecast-bucket/data/dmi/forecasts/dkss_if/salinity/forecasts.json"
            := Text "other"]> ∅))
    ∅ [] [].

(** ** Worlds and observations used in the statements *)

(** The world after the first record of [main]. *)
Definition started (w : World) : World :=
  mkWorld (s3_store w) (files w) (calls w)
    (log w ++ [(INFO, Msg "Start ingesting DMI data.")]).

(** The world after a run whose fetch was answered with an error status. *)
Definition fetch_failed (cfg : Config) (parameter : string) (response : Response)
    (w : World) : World :=
  mkWorld (s3_store w) (files w)
    (calls w ++ [CallGet (request_url cfg parameter)])
    (log w ++ fetch_log cfg parameter
       ++ [(ERROR, MsgExn (HTTPError (status_code response) (request_url cfg parameter)))]).

(** The world in which the conversion starts after a successful fetch: the
    prior publication is deleted, nothing else has changed. *)
Definition after_delete (cfg : Config) (parameter : string) (w : World) : World :=
  mkWorld (delete_prefix (bucket_path_full_of cfg parameter) (s3_store w)) (files w)
    (calls w ++ [CallGet (request_url cfg parameter);
                 CallRm (bucket_path_full_of cfg parameter)])
    (log w ++ fetch_log cfg parameter
       ++ delete_log (bucket_path_full_of cfg parameter) (s3_store w)).

(** The dataset tagged with the Lambert reference and reprojected to
    EPSG:4326. *)
Definition reprojected (ds : Dataset) : Dataset :=
  {| ds_time := ds_time ds;
     ds_crs := Some (CRS_from_user_input "epsg:4326");
     ds_grid := GridReprojected (CRS_from_wkt LCC_DMI_WKT)
                  (CRS_from_user_input "epsg:4326") (ds_grid ds) |}.

(** Was [url] requested among the calls? *)
Definition requested (url : string) (cs : list Call) : bool :=
  existsb (fun c => match c with
                    | CallGet u => String.eqb u url
                    | _ => false
                    end) cs.

(** Was a write to [bucket_file] attempted among the calls? *)
Definition write_attempted (bucket_file : string) (cs : list Call) : bool :=
  existsb (fun c => match c with
                    | CallPut k _ => String.eqb k bucket_file
                    | _ => false
                    end) cs.

Definition two_parameters : Config :=
  with_parameters example_cfg "sea-mean-deviation,salinity".

(** ** Relations that every step of a computation keeps *)

(** [m] keeps [R]: from any world, the world [m] leaves is related to it,
    whether [m] returns or raises. *)
Definition keeps {A} (R : World -> World -> Prop) (m : M A) : Prop :=
  forall w, R w (snd (m w)).

(** The objects outside [touch] are as before. *)
Definition store_frame (touch : string -> bool) (w w' : World) : Prop :=
  forall k, touch k = false -> s3_store w' !! k = s3_store w !! k.

(** The local files outside [touch] are as before. *)
Definition files_frame (touch : string -> bool) (w w' : World) : Prop :=
  forall p, touch p = false -> files w' !! p = files w !! p.

(** The requests among the calls. *)
Definition gets (cs : list Call) : list string :=
  omap (fun c => match c with
                 | CallGet u => Some u
                 | _ => None
                 end) cs.

(** No request was added. *)
Definition same_gets (w w' : World) : Prop := gets (calls w') = gets (calls w).

(** Is [k] below the target of one of the parameters? *)
Definition under_some_target (cfg : Config) (ps : list string) (k : string) : bool :=
  existsb (fun p => under (bucket_path_full_of cfg p) k) ps.

(** ** Reading a mapping, and the address of a key *)

(** [d.get(k)] *)
Fixpoint dict_get (d : dict) (k : string) : option string :=
  match d with
  | [] => None
  | (k', v) :: r => if String.eqb k' k then Some v else dict_get r k
  end.

(** The public address recorded for a key. *)
Definition url_of_key (bname : option string) (bpath endpoint key : string) : string :=
  "https://" +:+ PyStr.fmt bname +:+ "." +:+ PyStr.lstrip endpoint "https://"
    +:+ "/" +:+ bpath +:+ "/" +:+ key +:+ ".tif".

(** The number of whole seconds since the epoch. *)
Definition whole_seconds (t : Numpy.datetime64) : Z := t / Numpy.ns_per_second.

(** How often character [c] occurs in [s]. *)
Fixpoint count_char (c : ascii) (s : string) : nat :=
  match s with
  | EmptyString => O
  | String x r => ((if Ascii.eqb c x then 1 else 0) + count_char c r)%nat
  end.

(** ** The single-parameter pipeline: [src/dmi_ingester/ingester.py]

    Its [delete_outdated_forecasts], [netcdf_to_cog] and [upload_to_bucket]
    are, word for word, those of the multi-parameter pipeline, and so is its
    fetch. *)

Module Ingester.

Record Config := {
  dmi_api_key : option string;
  bucket_endpoint : string;
  bucket_name : option string;
  bucket_base_path : string;
  bucket_key : option string;
  bucket_secret : option string;
  upload : bool;
  collection : string;
  parameter : string;
  bbox : string
}.

(** [str(t).split('.')[0]], an entry of the manifest. *)
Definition iso_str (t : Numpy.datetime64) : string :=
  PyStr.item0 (PyStr.split (Numpy.str t) ".").

(** [json.dump({"available_forecasts": entries}, fp, indent=4)] *)
Definition dumps_list (entries : list string) : string :=
  match entries with
  | [] => "[]"
  | _ => "[" +:+ Json.nl
           +:+ PyStr.join ("," +:+ Json.nl)
                 (map (fun s => "        " +:+ Json.dumps_str s) entries)
           +:+ Json.nl +:+ "    ]"
  end.

Definition dumps_available (entries : list string) : string :=
  "{" +:+ Json.nl +:+ "    " +:+ Json.dumps_str "available_forecasts" +:+ ": "
    +:+ dumps_list entries +:+ Json.nl +:+ "}".

(** The body of [for band, t in enumerate(times)], from index [band] on. *)
Fixpoint transform_loop (env : Env) (dataset : Blob) (folder_name : string)
    (n_times : nat) (bucket_path endpoint : string) (key secret : option string)
    (upload : bool) (band : nat) (times : list Numpy.datetime64) : M unit :=
  match times with
  | [] => ret tt
  | t :: rest =>
      let output_file := band_output_file folder_name t in
      gdal_Translate output_file dataset (band_options band) ;;;
      (if upload then
         upload_to_bucket env output_file (bucket_path +:+ PyStr.basename output_file)
           endpoint key secret ;;;
         (if (band mod 10 =? 0)%nat
          then logger INFO (Msg ("Uploaded " +:+ PyStr.str_nat band +:+ " of "
                                   +:+ PyStr.str_nat n_times +:+ " files."))
          else ret tt)
       else ret tt) ;;;
      transform_loop env dataset folder_name n_times bucket_path endpoint key secret
        upload (S band) rest
  end.

Definition transform_cog_to_single_bands_and_upload_to_bucket (env : Env)
    (cog_file folder_name : string) (times : list Numpy.datetime64)
    (bucket_path endpoint : string) (key secret : option string) (upload : bool) : M unit :=
  let* dataset := read_file cog_file in
  transform_loop env dataset folder_name (length times) bucket_path endpoint key secret
    upload 0 times.

(** The main block. *)
Definition bucket_path_of (cfg : Config) : string :=
  PyStr.fmt (bucket_name cfg) +:+ "/" +:+ bucket_base_path cfg +:+ "/"
    +:+ collection cfg +:+ "/" +:+ parameter cfg +:+ "/".

Definition forecast_json_bucket_path_of (cfg : Config) : string :=
  bucket_path_of cfg +:+ "forecasts.json".

Definition query_params (cfg : Config) : list (string * string) :=
  [("api-key", PyStr.fmt (dmi_api_key cfg));
   ("crs", "crs84");
   ("parameter-name", parameter cfg);
   ("bbox", bbox cfg);
   ("f", out_format)].

Definition request_url (cfg : Config) : string :=
  Url.urlunsplit "https" netloc
    (url_base_path +:+ "/" +:+ collection cfg +:+ "/" +:+ request_type)
    (Url.urlencode (query_params cfg)) "".

(** The [else] block of the fetch.  The manifest lists every timestep of
    the dataset; the local files are not removed. *)
Definition publish (env : Env) (cfg : Config) (response : Response) : M unit :=
  delete_outdated_forecasts (bucket_path_of cfg) (bucket_endpoint cfg) (bucket_key cfg)
    (bucket_secret cfg) ;;;
  let* ds := lift (xarray_open_dataset env (content response)) in
  logger INFO (Msg "Save data to NetCDF.") ;;;
  write_file nc_filename (NetCDF ds) ;;;
  logger INFO (Msg "Transform NetCDF to COG.") ;;;
  netcdf_to_cog nc_filename cog_filename ;;;
  logger INFO (Msg "Split COG into bands (time slices) and upload them to bucket.") ;;;
  transform_cog_to_single_bands_and_upload_to_bucket env cog_filename base_data_dir
    (ds_time ds) (bucket_path_of cfg) (bucket_endpoint cfg) (bucket_key cfg)
    (bucket_secret cfg) (upload cfg) ;;;
  write_file forecast_json_filename
    (Text (dumps_available (map iso_str (ds_time ds)))) ;;;
  upload_to_bucket env forecast_json_filename (forecast_json_bucket_path_of cfg)
    (bucket_endpoint cfg) (bucket_key cfg) (bucket_secret cfg).

Definition main (env : Env) (cfg : Config) : M unit :=
  logger INFO (Msg "Start ingesting DMI data.") ;;;
  let url := request_url cfg in
  fun w =>
    match fetch env url w with
    | (Raise (HTTPError s u), w') => logger ERROR (MsgExn (HTTPError s u)) w'
    | (Raise e, w') => (Raise e, w')
    | (Ok response, w') => publish env cfg response w'
    end.

(** The place of the publication without the slash that ends it, and the
    path below the bucket, as the multi-parameter pipeline names them. *)
Definition bucket_path_below (cfg : Config) : string :=
  bucket_base_path cfg +:+ "/" +:+ collection cfg +:+ "/" +:+ parameter cfg.

Definition target_of (cfg : Config) : string :=
  PyStr.fmt (bucket_name cfg) +:+ "/" +:+ bucket_path_below cfg.

Definition example_cfg : Config :=
  {| dmi_api_key := Some "secret-api-key";
     bucket_endpoint := "https://obs.eu-de.otc.t-systems.com";
     bucket_name := Some "forecast-bucket";
     bucket_base_path := "data/dmi/forecasts";
     bucket_key := Some "key";
     bucket_secret := Some "secret";
     upload := false;
     collection := "dkss_if";
     parameter := "sea-mean-deviation";
     bbox := "11.5,55.5,12.2,56.1" |}.

End Ingester.

(** * Properties *)

(** ** Strings *)

Section StringFacts.

Lemma app_nil (b : string) : "" +:+ b = b.
Proof. reflexivity. Qed.

Lemma app_cons (x : ascii) (a b : string) : String x a +:+ b = String x (a +:+ b).
Proof. reflexivity. Qed.

Lemma append_assoc (a b c : string) : (a +:+ b) +:+ c = a +:+ (b +:+ c).
Proof.
  induction a as [|x a IH]; [reflexivity|]. rewrite !app_cons. now f_equal.
Qed.

Lemma append_empty_r (a : string) : a +:+ "" = a.
Proof.
  induction a as [|x a IH]; [reflexivity|]. rewrite app_cons. now f_equal.
Qed.

Lemma prefix_one (c x : ascii) (r : string) :
  String.prefix (String c "") (String x r) = Ascii.eqb c x.
Proof.
  cbn [String.prefix]. destruct (ascii_dec c x) as [->|Hne].
  - rewrite Ascii.eqb_refl. now destruct r.
  - symmetry. now apply Ascii.eqb_neq.
Qed.

Lemma occurs_app (c : ascii) (a b : string) :
  PyStr.occurs c (a +:+ b) = PyStr.occurs c a || PyStr.occurs c b.
Proof.
  induction a as [|x a IH]; [reflexivity|].
  rewrite app_cons. cbn [PyStr.occurs].
  destruct (Ascii.eqb c x); [reflexivity | exact IH].
Qed.

(** Removing a character, which is what [replace] with a one-character
    pattern and an empty replacement does. *)
Lemma replace_one_cons (c x : ascii) (r : string) :
  PyStr.replace (String x r) (String c "") "" =
  if Ascii.eqb c x then PyStr.replace r (String c "") ""
  else String x (PyStr.replace r (String c "") "").
Proof.
  unfold PyStr.replace. cbn [PyStr.replace_from]. rewrite prefix_one.
  destruct (Ascii.eqb c x); reflexivity.
Qed.

Lemma replace_one_app (c : ascii) (a b : string) :
  PyStr.replace (a +:+ b) (String c "") "" =
  PyStr.replace a (String c "") "" +:+ PyStr.replace b (String c "") "".
Proof.
  induction a as [|x a IH]; [reflexivity|].
  rewrite app_cons, !replace_one_cons, IH. destruct (Ascii.eqb c x); reflexivity.
Qed.

Lemma replace_one_absent (c : ascii) (a : string) :
  PyStr.occurs c a = false -> PyStr.replace a (String c "") "" = a.
Proof.
  induction a as [|x a IH]; [reflexivity|].
  cbn [PyStr.occurs]. rewrite replace_one_cons.
  destruct (Ascii.eqb c x); [discriminate|]. intros H. now rewrite IH.
Qed.

Lemma split_one_first (c : ascii) (a b : string) :
  PyStr.occurs c a = false ->
  PyStr.item0 (PyStr.split (a +:+ String c b) (String c "")) = a.
Proof.
  unfold PyStr.split. induction a as [|x a IH]; intros H.
  - rewrite app_nil. cbn [PyStr.split_from]. rewrite prefix_one, Ascii.eqb_refl.
    now destruct (PyStr.split_from _ _ b).
  - cbn [PyStr.occurs] in H. rewrite app_cons.
    cbn [PyStr.split_from]. rewrite prefix_one.
    destruct (Ascii.eqb c x); [discriminate|].
    specialize (IH H).
    destruct (PyStr.split_from (String c "") 0 (a +:+ String c b)) as [p ps].
    cbn [PyStr.item0] in *. now rewrite IH.
Qed.

Lemma digit_is_digit (n : Z) : is_digit (PyStr.digit (n mod 10)) = true.
Proof.
  assert (H : 0 <= n mod 10 < 10) by (apply Z.mod_pos_bound; lia).
  assert (D : n mod 10 = 0 \/ n mod 10 = 1 \/ n mod 10 = 2 \/ n mod 10 = 3
              \/ n mod 10 = 4 \/ n mod 10 = 5 \/ n mod 10 = 6 \/ n mod 10 = 7
              \/ n mod 10 = 8 \/ n mod 10 = 9) by lia.
  repeat (destruct D as [D|D]; [rewrite D; reflexivity|]).
  rewrite D; reflexivity.
Qed.

Lemma all_digits_app (a b : string) :
  all_digits (a +:+ b) = all_digits a && all_digits b.
Proof.
  induction a as [|x a IH]; [reflexivity|].
  rewrite app_cons. cbn [all_digits]. rewrite IH. now rewrite andb_assoc.
Qed.

Lemma all_digits_pad (k : nat) (n : Z) : all_digits (Numpy.pad k n) = true.
Proof.
  revert n. induction k as [|k IH]; intros n; [reflexivity|].
  cbn [Numpy.pad]. rewrite all_digits_app, IH. cbn [all_digits].
  now rewrite digit_is_digit.
Qed.

Lemma occurs_digits (c : ascii) (s : string) :
  is_digit c = false -> all_digits s = true -> PyStr.occurs c s = false.
Proof.
  intros Hc. induction s as [|x s IH]; [reflexivity|].
  cbn [all_digits PyStr.occurs]. intros H. apply andb_prop in H as [Hx Hs].
  destruct (Ascii.eqb_spec c x) as [->|_]; [congruence | now apply IH].
Qed.

Lemma string_length_app (a b : string) :
  String.length (a +:+ b) = (String.length a + String.length b)%nat.
Proof.
  induction a as [|x a IH]; [reflexivity|].
  rewrite app_cons. cbn [String.length]. now rewrite IH.
Qed.

Lemma length_pad (k : nat) (n : Z) : String.length (Numpy.pad k n) = k.
Proof.
  revert n. induction k as [|k IH]; intros n; [reflexivity|].
  cbn [Numpy.pad]. rewrite string_length_app, IH. cbn [String.length]. lia.
Qed.

End StringFacts.

(** ** The key of a timestep *)

Lemma occurs_pad (c : ascii) (k : nat) (n : Z) :
  is_digit c = false -> PyStr.occurs c (Numpy.pad k n) = false.
Proof. intros H. apply occurs_digits; [exact H | apply all_digits_pad]. Qed.

Lemma time_str_digits (t : Numpy.datetime64) :
  t <> Numpy.NaT -> time_str t = date_digits t +:+ "T" +:+ clock_digits t.
Proof.
  intros Ht. unfold time_str, Numpy.str.
  destruct (Z.eqb_spec t Numpy.NaT) as [E|_]; [contradiction|].
  change ("." +:+ Numpy.pad 9 (Numpy.nanosecond t))
    with (String "." (Numpy.pad 9 (Numpy.nanosecond t))).
  rewrite split_one_first.
  2:{ unfold Numpy.iso_seconds. rewrite !occurs_app, !occurs_pad by reflexivity.
      reflexivity. }
  unfold Numpy.iso_seconds, date_digits, clock_digits.
  set (Y := Numpy.pad 4 _). set (Mo := Numpy.pad 2 (Numpy.month _)).
  set (D := Numpy.pad 2 (Numpy.day _)). set (H := Numpy.pad 2 (Numpy.hour _)).
  set (Mi := Numpy.pad 2 (Numpy.minute _)). set (S := Numpy.pad 2 (Numpy.second _)).
  assert (Hd : forall c p, is_digit c = false ->
             p = Y \/ p = Mo \/ p = D \/ p = H \/ p = Mi \/ p = S ->
             PyStr.replace p (String c "") "" = p).
  { intros c p Hc Hp. apply replace_one_absent.
    decompose [or] Hp; subst p; apply occurs_pad; exact Hc. }
  rewrite !replace_one_app.
  change (PyStr.replace "-" "-" "") with "".
  change (PyStr.replace "T" "-" "") with "T".
  change (PyStr.replace ":" "-" "") with ":".
  change (PyStr.replace "" ":" "") with "".
  change (PyStr.replace "T" ":" "") with "T".
  change (PyStr.replace ":" ":" "") with "".
  rewrite !(Hd "-"%char) by (try reflexivity; tauto).
  rewrite !(Hd ":"%char) by (try reflexivity; tauto).
  rewrite !app_nil, !append_assoc. reflexivity.
Qed.

(** ** Names and paths *)

Section Paths.

Lemma app_inj_r (c : string) : forall a b : string, a +:+ c = b +:+ c -> a = b.
Proof.
  intros a b H.
  assert (Hlen : String.length a = String.length b).
  { apply (f_equal String.length) in H. rewrite !string_length_app in H. lia. }
  revert b H Hlen. induction a as [|x a IH]; intros [|y b] H Hlen;
    try discriminate; [reflexivity|].
  rewrite !app_cons in H. injection H as -> H. f_equal. apply IH; [exact H|].
  cbn [String.length] in Hlen. lia.
Qed.

Lemma basename_from_no_slash (s : string) : forall acc,
  PyStr.occurs "/" s = false -> PyStr.basename_from acc s = acc.
Proof.
  induction s as [|x s IH]; intros acc H; [reflexivity|].
  cbn [PyStr.occurs PyStr.basename_from] in *.
  rewrite Ascii.eqb_sym. destruct (Ascii.eqb "/" x); [discriminate | now apply IH].
Qed.

Lemma basename_from_app (a n : string) : forall acc,
  PyStr.occurs "/" n = false ->
  PyStr.basename_from acc (a +:+ String "/" n) = n.
Proof.
  induction a as [|x a IH]; intros acc H.
  - rewrite app_nil. cbn [PyStr.basename_from]. rewrite Ascii.eqb_refl.
    now apply basename_from_no_slash.
  - rewrite app_cons. cbn [PyStr.basename_from].
    destruct (Ascii.eqb x "/"); now apply IH.
Qed.

Lemma last_char_app (a : string) (c : ascii) :
  PyStr.last_char a = Some c -> exists a', a = a' +:+ String c "".
Proof.
  induction a as [|x a IH]; [discriminate|]. cbn [PyStr.last_char].
  destruct a as [|y a].
  - intros [= ->]. now exists "".
  - intros H. destruct (IH H) as [a' Ha']. exists (String x a').
    now rewrite app_cons, <- Ha'.
Qed.

Lemma no_slash_start (n : string) :
  PyStr.occurs "/" n = false -> PyStr.startswith n "/" = false.
Proof.
  unfold PyStr.startswith. destruct n as [|x n]; [reflexivity|].
  rewrite prefix_one. cbn [PyStr.occurs].
  now destruct (Ascii.eqb "/" x).
Qed.

(** Joining a folder and a name that does not start with a slash: the
    name alone when the folder is empty, and otherwise the name after a
    slash. *)
Lemma path_join_shape (folder n : string) :
  PyStr.startswith n "/" = false ->
  PyStr.path_join folder n = n
  \/ exists a, PyStr.path_join folder n = a +:+ String "/" n.
Proof.
  intros H. unfold PyStr.path_join. rewrite H.
  destruct (PyStr.last_char folder) as [c|] eqn:El; [|now left].
  right. destruct (Ascii.eqb_spec c "/") as [Hc|_].
  - subst c. apply last_char_app in El. destruct El as [a' Ha']. exists a'.
    rewrite Ha', append_assoc. reflexivity.
  - exists folder. reflexivity.
Qed.

Lemma basename_path_join (folder n : string) :
  PyStr.occurs "/" n = false -> PyStr.basename (PyStr.path_join folder n) = n.
Proof.
  intros H. unfold PyStr.basename.
  destruct (path_join_shape folder n (no_slash_start n H)) as [->|[a ->]].
  - now apply basename_from_no_slash.
  - now apply basename_from_app.
Qed.

(** The key has fifteen characters, or is [NaT]. *)
Lemma time_str_cases (t : Numpy.datetime64) :
  (t = Numpy.NaT /\ time_str t = "NaT")
  \/ (t <> Numpy.NaT /\ String.length (time_str t) = 15%nat).
Proof.
  destruct (Z.eq_dec t Numpy.NaT) as [->|Hne].
  - left. split; [reflexivity | now vm_compute].
  - right. split; [exact Hne|]. rewrite time_str_digits by exact Hne.
    unfold date_digits, clock_digits.
    now rewrite !string_length_app, !length_pad.
Qed.

Lemma time_str_no_slash (t : Numpy.datetime64) :
  PyStr.occurs "/" (time_str t +:+ ".tif") = false.
Proof.
  rewrite occurs_app.
  destruct (time_str_cases t) as [[_ ->]|[Hne _]]; [reflexivity|].
  rewrite time_str_digits by exact Hne. unfold date_digits, clock_digits.
  rewrite !occurs_app, !occurs_pad by reflexivity. reflexivity.
Qed.

Lemma band_basename (folder : string) (t : Numpy.datetime64) :
  PyStr.basename (band_output_file folder t) = time_str t +:+ ".tif".
Proof. apply basename_path_join, time_str_no_slash. Qed.

End Paths.

(** ** One step of each operation *)

Section Steps.

Variable env : Env.

Lemma bind_ok {A B} (m : M A) (k : A -> M B) (w w' : World) (a : A) :
  m w = (Ok a, w') -> bind m k w = k a w'.
Proof. intros H. unfold bind. now rewrite H. Qed.

Lemma bind_raise {A B} (m : M A) (k : A -> M B) (w w' : World) (e : Exn) :
  m w = (Raise e, w') -> bind m k w = (Raise e, w').
Proof. intros H. unfold bind. now rewrite H. Qed.

Lemma upload_to_bucket_step (local_file bucket_file endpoint_url : string)
    (key secret : option string) (b : Blob) s f c l :
  f !! local_file = Some b ->
  upload_to_bucket env local_file bucket_file endpoint_url key secret (mkWorld s f c l) =
  match s3_write_error env (length c) bucket_file with
  | Some e =>
      (Raise e, mkWorld s f (c ++ [CallPut bucket_file b])
                  (l ++ upload_log local_file bucket_file))
  | None =>
      (Ok tt, mkWorld (<[bucket_file := b]> s) f (c ++ [CallPut bucket_file b])
                (l ++ upload_log local_file bucket_file))
  end.
Proof.
  intros Hf. unfold upload_to_bucket, bind, logger, read_file, s3_write, upload_log.
  cbn [s3_store files calls log]. rewrite Hf. cbn [s3_store files calls log].
  rewrite <- !app_assoc. cbn [app].
  destruct (s3_write_error env (length c) bucket_file); reflexivity.
Qed.

Lemma gdal_Translate_band_step (dst : string) (dataset : Blob) (band n : nat) s f c l :
  band_count dataset = Some n -> (band < n)%nat ->
  gdal_Translate dst dataset (band_options band) (mkWorld s f c l) =
  (Ok tt, mkWorld s (<[dst := Translated dataset (band_options band)]> f) c l).
Proof.
  intros Hn Hlt. unfold gdal_Translate, bands_exist. rewrite Hn.
  cbn [bandList band_options forallb].
  replace ((1 <=? band + 1)%nat) with true by (symmetry; apply Nat.leb_le; lia).
  replace ((band + 1 <=? n)%nat) with true by (symmetry; apply Nat.leb_le; lia).
  reflexivity.
Qed.

End Steps.

(** ** The band loop *)

Section BandLoop.

Variable env : Env.
Variable dataset : Blob.
Variable folder_name : string.
Variable n_times n_bands : nat.
Variable bucket_name : option string.
Variable bucket_path endpoint : string.
Variable key secret : option string.

Hypothesis dataset_bands : band_count dataset = Some n_bands.

#[local] Abbreviation loop := (transform_loop env dataset folder_name n_times bucket_name
                    bucket_path endpoint key secret).
#[local] Abbreviation bucket_file := (bucket_file_of folder_name bucket_name bucket_path).
#[local] Abbreviation objects := (band_objects dataset folder_name bucket_name bucket_path).
#[local] Abbreviation bfiles := (band_files dataset folder_name).
#[local] Abbreviation bcalls := (band_calls dataset folder_name bucket_name bucket_path).
#[local] Abbreviation blog := (band_log folder_name n_times bucket_name bucket_path).
#[local] Abbreviation entries := (band_entries folder_name bucket_name bucket_path endpoint).

(** One turn with uploading enabled. *)
Lemma loop_step_upload band t rest fc s f c l :
  (band < n_bands)%nat ->
  loop true band (t :: rest) fc (mkWorld s f c l) =
  let f' := <[band_output_file folder_name t := band_blob dataset band]> f in
  let c' := c ++ [CallPut (bucket_file t) (band_blob dataset band)] in
  let l' := l ++ upload_log (band_output_file folder_name t) (bucket_file t) in
  match s3_write_error env (length c) (bucket_file t) with
  | Some e => (Raise e, mkWorld s f' c' l')
  | None =>
      loop true (S band) rest
        (dict_set fc (time_str t)
           (public_url_of folder_name bucket_name bucket_path endpoint t))
        (mkWorld (<[bucket_file t := band_blob dataset band]> s) f' c'
           (l' ++ progress_log n_times band))
  end.
Proof.
  intros Hb. cbn [transform_loop].
  rewrite (bind_ok _ _ _ _ _ (gdal_Translate_band_step _ _ _ _ s f c l dataset_bands Hb)).
  unfold bind at 1. unfold bind at 1.
  rewrite (upload_to_bucket_step env _ _ _ _ _ (band_blob dataset band))
    by apply lookup_insert_eq.
  fold (bucket_file t).
  destruct (s3_write_error env (length c) (bucket_file t)); [reflexivity|].
  unfold progress_log, bind, ret.
  destruct (band mod 10 =? 0)%nat; cbn [logger s3_store files calls log].
  - reflexivity.
  - now rewrite app_nil_r.
Qed.

(** One turn with uploading disabled. *)
Lemma loop_step_local band t rest fc s f c l :
  (band < n_bands)%nat ->
  loop false band (t :: rest) fc (mkWorld s f c l) =
  loop false (S band) rest fc
    (mkWorld s (<[band_output_file folder_name t := band_blob dataset band]> f) c l).
Proof.
  intros Hb. cbn [transform_loop].
  rewrite (bind_ok _ _ _ _ _ (gdal_Translate_band_step _ _ _ _ s f c l dataset_bands Hb)).
  reflexivity.
Qed.

(** With uploading disabled the loop only writes local files. *)
Lemma loop_local times : forall band fc s f c l,
  (band + length times <= n_bands)%nat ->
  loop false band times fc (mkWorld s f c l) =
  (Ok fc, mkWorld s (bfiles band times f) c l).
Proof.
  induction times as [|t rest IH]; intros band fc s f c l Hb; [reflexivity|].
  cbn [length] in Hb. rewrite loop_step_local by lia.
  rewrite IH by lia. reflexivity.
Qed.

(** With uploading enabled and every write accepted, the loop uploads
    every band in turn. *)
Lemma loop_upload_ok times : forall band fc s f c l,
  (band + length times <= n_bands)%nat ->
  (forall i t, times !! i = Some t ->
               s3_write_error env (length c + i) (bucket_file t) = None) ->
  loop true band times fc (mkWorld s f c l) =
  (Ok (entries times fc),
   mkWorld (objects band times s) (bfiles band times f)
     (c ++ bcalls band times) (l ++ blog band times)).
Proof.
  induction times as [|t rest IH]; intros band fc s f c l Hb Hw.
  - cbn. now rewrite !app_nil_r.
  - cbn [length] in Hb. rewrite loop_step_upload by lia. cbv zeta.
    pose proof (Hw 0%nat t eq_refl) as H0. rewrite Nat.add_0_r in H0. rewrite H0.
    rewrite IH.
    + cbn [band_objects band_files band_calls band_log band_entries].
      rewrite <- !app_assoc. reflexivity.
    + lia.
    + intros i t' Hi. rewrite length_app. cbn [length].
      replace (length c + 1 + i)%nat with (length c + S i)%nat by lia.
      apply Hw. exact Hi.
Qed.

(** The first write that is refused ends the loop: the bands before it
    are stored, the refused one is not, and nothing follows. *)
Lemma loop_upload_fail pre : forall t post e band fc s f c l,
  (band + length (pre ++ t :: post) <= n_bands)%nat ->
  (forall i t', pre !! i = Some t' ->
                s3_write_error env (length c + i) (bucket_file t') = None) ->
  s3_write_error env (length c + length pre) (bucket_file t) = Some e ->
  loop true band (pre ++ t :: post) fc (mkWorld s f c l) =
  (Raise e,
   mkWorld (objects band pre s) (bfiles band (pre ++ [t]) f)
     (c ++ bcalls band (pre ++ [t]))
     (l ++ blog band pre
        ++ upload_log (band_output_file folder_name t) (bucket_file t))).
Proof.
  induction pre as [|p pre IH]; intros t post e band fc s f c l Hb Hw He.
  - cbn [app length] in *. rewrite loop_step_upload by lia. cbv zeta.
    rewrite Nat.add_0_r in He. rewrite He. reflexivity.
  - cbn [app length] in *. rewrite loop_step_upload by lia. cbv zeta.
    pose proof (Hw 0%nat p eq_refl) as H0. rewrite Nat.add_0_r in H0. rewrite H0.
    rewrite (IH t post e).
    + cbn [band_objects band_files band_calls band_log app].
      rewrite <- !app_assoc. reflexivity.
    + lia.
    + intros i t' Hi. rewrite length_app. cbn [length].
      replace (length c + 1 + i)%nat with (length c + S i)%nat by lia.
      apply Hw. exact Hi.
    + rewrite length_app. cbn [length].
      replace (length c + 1 + length pre)%nat with (length c + S (length pre))%nat by lia.
      exact He.
Qed.

End BandLoop.

(** ** Conversion, upload and clean-up *)

Section Run.

Variable env : Env.
Variable cfg : Config.
Variable parameter : string.

#[local] Abbreviation bpath := (bucket_path_of cfg parameter).
#[local] Abbreviation manifest_path := (forecast_json_bucket_path_of cfg parameter).
#[local] Abbreviation bucket_file := (bucket_file_of base_data_dir (bucket_name cfg) bpath).
#[local] Abbreviation objects ds :=
  (band_objects (cog_of ds) base_data_dir (bucket_name cfg) bpath).
#[local] Abbreviation bfiles ds := (band_files (cog_of ds) base_data_dir).
#[local] Abbreviation bcalls ds :=
  (band_calls (cog_of ds) base_data_dir (bucket_name cfg) bpath).
#[local] Abbreviation blog ds :=
  (band_log base_data_dir (length (ds_time ds)) (bucket_name cfg) bpath).

Lemma band_files_keeps dataset folder times : forall band (f : gmap string Blob) k,
  is_Some (f !! k) -> is_Some (band_files dataset folder band times f !! k).
Proof.
  induction times as [|t rest IH]; intros band f k Hk; [exact Hk|].
  cbn [band_files]. apply IH. rewrite lookup_insert.
  case_decide; [eauto | exact Hk].
Qed.

Lemma local_names_differ :
  nc_filename <> cog_filename /\ nc_filename <> forecast_json_filename
  /\ cog_filename <> forecast_json_filename.
Proof. repeat split; vm_compute; discriminate. Qed.

(** The clean-up finds the three intermediate files and removes them. *)
Lemma cleanup_step manifest s (f : gmap string Blob) c l :
  is_Some (f !! nc_filename) -> is_Some (f !! cog_filename) ->
  try_except
    (os_remove nc_filename ;;; os_remove cog_filename ;;;
     os_remove forecast_json_filename)
    (fun err => Some (logger WARNING (MsgExn err)))
    (mkWorld s (<[forecast_json_filename := Text manifest]> f) c l) =
  (Ok tt, mkWorld s (cleaned_files manifest f) c l).
Proof.
  intros [b1 H1] [b2 H2]. destruct local_names_differ as (N1 & N2 & N3).
  unfold try_except, bind, os_remove, cleaned_files. cbn [files s3_store calls log].
  rewrite lookup_insert_ne, H1 by congruence. cbn [files s3_store calls log].
  rewrite lookup_delete_ne, lookup_insert_ne, H2 by congruence.
  cbn [files s3_store calls log].
  rewrite !lookup_delete_ne, lookup_insert_eq by congruence.
  reflexivity.
Qed.

(** Up to the band loop: the dataset is saved and converted. *)
Lemma stage_step ds (k : M unit) s f c l :
  (logger INFO (Msg "Save data to NetCDF.") ;;;
   write_file nc_filename (NetCDF ds) ;;;
   logger INFO (Msg "Transform NetCDF to COG.") ;;;
   netcdf_to_cog nc_filename cog_filename ;;;
   logger INFO (Msg "Split COG into bands (time slices) and upload them to bucket.") ;;;
   k) (mkWorld s f c l) =
  k (mkWorld s (staged_files ds f) c (l ++ convert_log)).
Proof.
  unfold bind, logger, netcdf_to_cog, read_file, bind, write_file.
  cbn [files s3_store calls log]. rewrite lookup_insert_eq.
  unfold gdal_Translate, write_file.
  cbn [bands_exist band_count bandList cog_options files s3_store calls log].
  rewrite <- !app_assoc. reflexivity.
Qed.

End Run.

Section Run2.

Variable env : Env.
Variable cfg : Config.
Variable parameter : string.

#[local] Abbreviation bpath := (bucket_path_of cfg parameter).
#[local] Abbreviation manifest_path := (forecast_json_bucket_path_of cfg parameter).
#[local] Abbreviation bucket_file := (bucket_file_of base_data_dir (bucket_name cfg) bpath).

Lemma staged_cog ds (f : gmap string Blob) :
  staged_files ds f !! cog_filename = Some (cog_of ds).
Proof. unfold staged_files. apply lookup_insert_eq. Qed.

Lemma staged_nc ds (f : gmap string Blob) :
  staged_files ds f !! nc_filename = Some (NetCDF ds).
Proof.
  unfold staged_files. destruct local_names_differ as (N1 & _).
  rewrite lookup_insert_ne by congruence. apply lookup_insert_eq.
Qed.

Lemma cog_bands ds : band_count (cog_of ds) = Some (length (ds_time ds)).
Proof. reflexivity. Qed.

(** The run from the saving of the dataset on, as the band loop followed
    by the writing of the manifest. *)
Lemma convert_and_upload_unfold ds s f c l :
  convert_and_upload env cfg parameter ds (mkWorld s f c l) =
  match transform_loop env (cog_of ds) base_data_dir (length (ds_time ds))
          (bucket_name cfg) bpath (bucket_endpoint cfg) (bucket_key cfg)
          (bucket_secret cfg) (upload cfg) 0 (ds_time ds) []
          (mkWorld s (staged_files ds f) c (l ++ convert_log)) with
  | (Raise e, w') => (Raise e, w')
  | (Ok data, w') =>
      (write_file forecast_json_filename (Text (Json.dumps data)) ;;;
       upload_to_bucket env forecast_json_filename manifest_path
         (bucket_endpoint cfg) (bucket_key cfg) (bucket_secret cfg) ;;;
       try_except
         (os_remove nc_filename ;;; os_remove cog_filename ;;;
          os_remove forecast_json_filename)
         (fun err => Some (logger WARNING (MsgExn err)))) w'
  end.
Proof.
  unfold convert_and_upload. rewrite stage_step.
  unfold bind at 1. unfold transform_cog_to_single_bands_and_upload_to_bucket.
  unfold bind at 1, read_file. cbn [files]. rewrite staged_cog.
  reflexivity.
Qed.

(** The writing and the upload of the manifest, and the clean-up. *)
Lemma manifest_step data s (f : gmap string Blob) c l :
  is_Some (f !! nc_filename) -> is_Some (f !! cog_filename) ->
  (write_file forecast_json_filename (Text (Json.dumps data)) ;;;
   upload_to_bucket env forecast_json_filename manifest_path
     (bucket_endpoint cfg) (bucket_key cfg) (bucket_secret cfg) ;;;
   try_except
     (os_remove nc_filename ;;; os_remove cog_filename ;;;
      os_remove forecast_json_filename)
     (fun err => Some (logger WARNING (MsgExn err)))) (mkWorld s f c l) =
  let c' := c ++ [CallPut manifest_path (Text (Json.dumps data))] in
  let l' := l ++ upload_log forecast_json_filename manifest_path in
  match s3_write_error env (length c) manifest_path with
  | Some e =>
      (Raise e, mkWorld s (<[forecast_json_filename := Text (Json.dumps data)]> f) c' l')
  | None =>
      (Ok tt, mkWorld (<[manifest_path := Text (Json.dumps data)]> s)
                (cleaned_files (Json.dumps data) f) c' l')
  end.
Proof.
  intros H1 H2. unfold bind at 1. unfold write_file at 1.
  cbn [s3_store files calls log]. unfold bind at 1.
  rewrite (upload_to_bucket_step env _ _ _ _ _ (Text (Json.dumps data)))
    by apply lookup_insert_eq.
  cbv zeta. destruct (s3_write_error env (length c) manifest_path); [reflexivity|].
  now rewrite cleanup_step.
Qed.

(** A run whose band writes are all accepted reaches the manifest. *)
Lemma convert_and_upload_bands_ok ds s f c l :
  bands_accepted env cfg parameter ds (length c) ->
  convert_and_upload env cfg parameter ds (mkWorld s f c l) =
  let c' := c ++ band_uploads cfg parameter ds ++ [manifest_upload cfg parameter ds] in
  let l' := l ++ published_log cfg parameter ds in
  match s3_write_error env (length c + length (band_uploads cfg parameter ds))
          manifest_path with
  | Some e =>
      (Raise e,
       mkWorld (band_store cfg parameter ds s)
         (<[forecast_json_filename := Text (manifest_of cfg parameter ds)]>
            (band_local_files ds f)) c' l')
  | None =>
      (Ok tt,
       mkWorld (published_store cfg parameter ds s)
         (cleaned_files (manifest_of cfg parameter ds) (band_local_files ds f)) c' l')
  end.
Proof.
  intros Hacc. rewrite convert_and_upload_unfold.
  unfold bands_accepted, band_uploads, manifest_upload, published_store, band_store,
    published_log, manifest_of, forecasts_of, band_local_files in *.
  assert (Hnc : forall band, is_Some (band_files (cog_of ds) base_data_dir band
                                        (ds_time ds) (staged_files ds f) !! nc_filename))
    by (intros; apply band_files_keeps; rewrite staged_nc; eauto).
  assert (Hcog : forall band, is_Some (band_files (cog_of ds) base_data_dir band
                                        (ds_time ds) (staged_files ds f) !! cog_filename))
    by (intros; apply band_files_keeps; rewrite staged_cog; eauto).
  destruct (upload cfg).
  - rewrite (loop_upload_ok env (cog_of ds) base_data_dir _ _ _ _ _ _ _ (cog_bands ds))
      by (cbn [Nat.add]; auto).
    rewrite manifest_step by auto. cbv zeta.
    rewrite !length_app, <- !app_assoc.
    replace (length (band_calls (cog_of ds) base_data_dir (bucket_name cfg) bpath 0
                       (ds_time ds) ++ [])) with
      (length (band_calls (cog_of ds) base_data_dir (bucket_name cfg) bpath 0 (ds_time ds)))
      by now rewrite app_nil_r.
    reflexivity.
  - rewrite (loop_local env (cog_of ds) base_data_dir _ _ _ _ _ _ _ (cog_bands ds))
      by (cbn [Nat.add]; auto).
    rewrite manifest_step by auto. cbv zeta. cbn [length app].
    rewrite Nat.add_0_r, <- !app_assoc. reflexivity.
Qed.

End Run2.

Section Run3.

Variable env : Env.
Variable cfg : Config.
Variable parameter : string.

#[local] Abbreviation bpath := (bucket_path_of cfg parameter).
#[local] Abbreviation target := (bucket_path_full_of cfg parameter).
#[local] Abbreviation manifest_path := (forecast_json_bucket_path_of cfg parameter).
#[local] Abbreviation bucket_file := (bucket_file_of base_data_dir (bucket_name cfg) bpath).
#[local] Abbreviation url := (request_url cfg parameter).

(** A run in which the write of one band is refused stops there. *)
Lemma convert_and_upload_band_fail ds pre t post e s f c l :
  upload cfg = true ->
  ds_time ds = pre ++ t :: post ->
  (forall i t', pre !! i = Some t' ->
                s3_write_error env (length c + i) (bucket_file t') = None) ->
  s3_write_error env (length c + length pre) (bucket_file t) = Some e ->
  convert_and_upload env cfg parameter ds (mkWorld s f c l) =
  (Raise e,
   mkWorld
     (band_objects (cog_of ds) base_data_dir (bucket_name cfg) bpath 0 pre s)
     (band_files (cog_of ds) base_data_dir 0 (pre ++ [t]) (staged_files ds f))
     (c ++ band_calls (cog_of ds) base_data_dir (bucket_name cfg) bpath 0 (pre ++ [t]))
     (l ++ convert_log
        ++ band_log base_data_dir (length (ds_time ds)) (bucket_name cfg) bpath 0 pre
        ++ upload_log (band_output_file base_data_dir t) (bucket_file t))).
Proof.
  intros Hup Htimes Hpre He. rewrite convert_and_upload_unfold, Hup.
  rewrite Htimes at 2.
  rewrite (loop_upload_fail env (cog_of ds) base_data_dir _ _ _ _ _ _ _ (cog_bands ds)
             pre t post e)
    by (rewrite <- ?Htimes; cbn [Nat.add]; auto).
  rewrite <- !app_assoc. reflexivity.
Qed.

(** Nothing below the path: the deletion leaves the store as it is. *)
Lemma delete_prefix_absent path (s : gmap string Blob) :
  filter (fun kv => under path (fst kv) = true) s = ∅ -> delete_prefix path s = s.
Proof.
  intros Hempty. unfold delete_prefix. apply map_filter_id. intros k b Hk.
  cbn [fst]. destruct (under path k) eqn:Hu; [|reflexivity]. exfalso.
  assert (Hin : filter (fun kv => under path (fst kv) = true) s !! k = Some b)
    by (apply map_lookup_filter_Some; split; [exact Hk | exact Hu]).
  rewrite Hempty, lookup_empty in Hin. discriminate.
Qed.

Lemma delete_outdated_forecasts_step path endpoint_url key secret s f c l :
  delete_outdated_forecasts path endpoint_url key secret (mkWorld s f c l) =
  (Ok tt, mkWorld (delete_prefix path s) f (c ++ [CallRm path]) (l ++ delete_log path s)).
Proof.
  unfold delete_outdated_forecasts, bind, try_except, s3_rm, bind, record_call, logger,
    delete_log.
  cbn [s3_store files calls log].
  destruct (decide (filter (fun kv => under path (fst kv) = true) s = ∅)) as [Hempty|Hne].
  - cbn [s3_store files calls log]. rewrite delete_prefix_absent by exact Hempty.
    rewrite <- app_assoc. reflexivity.
  - reflexivity.
Qed.

Lemma fetch_step s f c l :
  fetch env url (mkWorld s f c l) =
  let w' := mkWorld s f (c ++ [CallGet url])
              (l ++ [(INFO, Msg "Request data from DMI API.")]) in
  match requests_get_result env url with
  | Raise e => (Raise e, w')
  | Ok response =>
      if (400 <=? status_code response) && (status_code response <? 600)
      then (Raise (HTTPError (status_code response) url), w')
      else (Ok response, w')
  end.
Proof.
  unfold fetch, bind, requests_get, bind, record_call, logger, raise_for_status.
  cbn [s3_store files calls log].
  destruct (requests_get_result env url) as [response|e]; [|reflexivity].
  destruct ((400 <=? status_code response) && (status_code response <? 600));
    reflexivity.
Qed.

(** A run whose fetch succeeds deletes the prior publication and goes on
    with the normalized dataset. *)
Lemma process_parameter_fetched response ds0 ds s f c l :
  requests_get_result env url = Ok response ->
  (400 <=? status_code response) && (status_code response <? 600) = false ->
  xarray_open_dataset env (content response) = Ok ds0 ->
  normalize env cfg ds0 = Ok ds ->
  process_parameter env cfg parameter (mkWorld s f c l) =
  convert_and_upload env cfg parameter ds
    (mkWorld (delete_prefix target s) f (c ++ [CallGet url; CallRm target])
       (l ++ fetch_log cfg parameter ++ delete_log target s)).
Proof.
  intros Hget Hstatus Hopen Hnorm.
  unfold process_parameter, bind at 1, logger at 1. cbn [s3_store files calls log].
  rewrite fetch_step, Hget, Hstatus. cbv zeta.
  unfold publish, bind at 1. rewrite delete_outdated_forecasts_step.
  unfold bind at 1, lift at 1. rewrite Hopen.
  unfold bind at 1, lift at 1. rewrite Hnorm.
  unfold fetch_log. rewrite <- !app_assoc. reflexivity.
Qed.

(** A run whose fetch is not answered with an error status deletes the
    prior publication first, whatever follows. *)
Lemma process_parameter_deleted response s f c l :
  requests_get_result env url = Ok response ->
  (400 <=? status_code response) && (status_code response <? 600) = false ->
  process_parameter env cfg parameter (mkWorld s f c l) =
  (let* ds0 := lift (xarray_open_dataset env (content response)) in
   let* ds := lift (normalize env cfg ds0) in
   convert_and_upload env cfg parameter ds)%py
    (mkWorld (delete_prefix target s) f (c ++ [CallGet url; CallRm target])
       (l ++ fetch_log cfg parameter ++ delete_log target s)).
Proof.
  intros Hget Hstatus.
  unfold process_parameter, bind at 1, logger at 1. cbn [s3_store files calls log].
  rewrite fetch_step, Hget, Hstatus. cbv zeta.
  unfold publish, bind at 1. rewrite delete_outdated_forecasts_step.
  unfold fetch_log. rewrite <- !app_assoc. reflexivity.
Qed.

(** A run whose dataset cannot be normalized ends after the deletion. *)
Lemma process_parameter_unwarped response ds0 e s f c l :
  requests_get_result env url = Ok response ->
  (400 <=? status_code response) && (status_code response <? 600) = false ->
  xarray_open_dataset env (content response) = Ok ds0 ->
  normalize env cfg ds0 = Raise e ->
  process_parameter env cfg parameter (mkWorld s f c l) =
  (Raise e,
   mkWorld (delete_prefix target s) f (c ++ [CallGet url; CallRm target])
     (l ++ fetch_log cfg parameter ++ delete_log target s)).
Proof.
  intros Hget Hstatus Hopen Hnorm.
  unfold process_parameter, bind at 1, logger at 1. cbn [s3_store files calls log].
  rewrite fetch_step, Hget, Hstatus. cbv zeta.
  unfold publish, bind at 1. rewrite delete_outdated_forecasts_step.
  unfold bind at 1, lift at 1. rewrite Hopen.
  unfold bind at 1, lift at 1. rewrite Hnorm.
  unfold fetch_log. rewrite <- !app_assoc. reflexivity.
Qed.

(** What normalization returns when it returns. *)
Lemma normalize_result ds0 ds :
  normalize env cfg ds0 = Ok ds ->
  ds = if PyStr.startswith (collection cfg) "harmonie" then reprojected ds0 else ds0.
Proof.
  unfold normalize, reproject_from_lambert, rio_reproject, rio_write_crs, reprojected.
  destruct (PyStr.startswith (collection cfg) "harmonie"); cbn [ds_crs ds_time ds_grid].
  - destruct (rio_reproject_error env _ _); [discriminate|]. now intros [= <-].
  - now intros [= <-].
Qed.

Lemma normalize_time ds0 ds : normalize env cfg ds0 = Ok ds -> ds_time ds = ds_time ds0.
Proof.
  intros H. rewrite (normalize_result ds0 ds H).
  now destruct (PyStr.startswith (collection cfg) "harmonie").
Qed.

End Run3.

(** ** The keys of a Publication Target *)

Section Keys.

Lemma prefix_app (r a b : string) :
  String.prefix (r +:+ a) (r +:+ b) = String.prefix a b.
Proof.
  induction r as [|x r IH]; [reflexivity|].
  rewrite !app_cons. cbn [String.prefix].
  destruct (ascii_dec x x); [exact IH | congruence].
Qed.

(** What follows a path and a slash also follows the stripped path and a
    slash. *)
Lemma rstrip_slash_child (p x : string) :
  exists y, p +:+ String "/" x = rstrip_slash p +:+ String "/" y.
Proof.
  induction p as [|c p [y IH]]; [now exists x|].
  rewrite app_cons, IH. cbn [rstrip_slash].
  destruct (rstrip_slash p) as [|c' r'].
  - rewrite app_nil. destruct (Ascii.eqb_spec c "/") as [->|_].
    + now exists (String "/" y).
    + now exists y.
  - now exists y.
Qed.

Lemma under_child (p x : string) : under p (p +:+ String "/" x) = true.
Proof.
  unfold under. destruct (rstrip_slash_child p x) as [y Hy]. rewrite Hy.
  change (rstrip_slash p +:+ String "/" y)
    with (rstrip_slash p +:+ (String "/" y)).
  rewrite prefix_app, prefix_one, Ascii.eqb_refl. apply orb_true_r.
Qed.

Variable folder : string.
Variable bname : option string.
Variable bpath : string.

#[local] Abbreviation target := (PyStr.fmt bname +:+ "/" +:+ bpath).
#[local] Abbreviation manifest_path := (target +:+ "/forecasts.json").
#[local] Abbreviation bucket_file := (bucket_file_of folder bname bpath).

(** The place of a band in the store: [{target}/{key}.tif]. *)
Lemma bucket_file_eq (t : Numpy.datetime64) :
  bucket_file t = target +:+ String "/" (time_str t +:+ ".tif").
Proof.
  unfold bucket_file_of, band_bucket_file.
  rewrite band_basename, !append_assoc. reflexivity.
Qed.

Lemma under_band (t : Numpy.datetime64) : under target (bucket_file t) = true.
Proof. rewrite bucket_file_eq. apply under_child. Qed.

Lemma under_manifest : under target manifest_path = true.
Proof. apply (under_child target "forecasts.json"). Qed.

Lemma band_not_manifest (t : Numpy.datetime64) : bucket_file t <> manifest_path.
Proof.
  rewrite bucket_file_eq. intros H.
  apply String.app_inj in H. injection H as H.
  destruct (time_str_cases t) as [[_ E]|[_ E]].
  - rewrite E in H. vm_compute in H. discriminate.
  - apply (f_equal String.length) in H. rewrite string_length_app, E in H.
    vm_compute in H. discriminate.
Qed.

Lemma bucket_file_inj (t t' : Numpy.datetime64) :
  bucket_file t = bucket_file t' -> time_str t = time_str t'.
Proof.
  rewrite !bucket_file_eq. intros H. apply String.app_inj in H.
  injection H as H. now apply app_inj_r in H.
Qed.



Lemma delete_prefix_lookup_under path k (s : gmap string Blob) :
  under path k = true -> delete_prefix path s !! k = None.
Proof.
  intros Hu. unfold delete_prefix. apply map_lookup_filter_None. right.
  intros b _. cbn [fst]. rewrite Hu. discriminate.
Qed.

Lemma delete_prefix_lookup_other path k (s : gmap string Blob) :
  under path k = false -> delete_prefix path s !! k = s !! k.
Proof.
  intros Hu. unfold delete_prefix. destruct (s !! k) as [b|] eqn:Hk.
  - apply map_lookup_filter_Some. now split.
  - apply map_lookup_filter_None. now left.
Qed.


(** The objects of the bands: where no band goes the store is as before,
    and each key holds a band of the dataset. *)
Lemma band_objects_other dataset times : forall band (s : gmap string Blob) k,
  (forall t, t ∈ times -> bucket_file t <> k) ->
  band_objects dataset folder bname bpath band times s !! k = s !! k.
Proof.
  induction times as [|t rest IH]; intros band s k Hk; [reflexivity|].
  cbn [band_objects]. rewrite IH.
  - apply lookup_insert_ne. apply Hk. left.
  - intros t' Ht'. apply Hk. now right.
Qed.

Lemma band_objects_lookup dataset times : forall band (s : gmap string Blob) i t,
  NoDup (map time_str times) ->
  times !! i = Some t ->
  band_objects dataset folder bname bpath band times s !! bucket_file t
  = Some (band_blob dataset (band + i)).
Proof.
  induction times as [|t0 rest IH]; intros band s i t Hnd Hi; [discriminate|].
  cbn [map] in Hnd. apply NoDup_cons in Hnd as [Hfresh Hnd].
  cbn [band_objects]. destruct i as [|i].
  - injection Hi as ->. rewrite band_objects_other.
    + rewrite Nat.add_0_r. apply lookup_insert_eq.
    + intros t' Ht' Heq. apply Hfresh. apply bucket_file_inj in Heq. rewrite <- Heq.
      apply list_elem_of_fmap. now exists t'.
  - rewrite (IH (S band) _ i t Hnd Hi). f_equal. f_equal. lia.
Qed.

End Keys.

(** ** Local files of the bands *)

Section BandFiles.

Lemma path_join_base (n : string) :
  PyStr.startswith n "/" = false ->
  PyStr.path_join base_data_dir n = "/app/data/" +:+ n.
Proof. intros H. unfold PyStr.path_join. now rewrite H. Qed.

(** A band file is none of the three intermediate files. *)
Lemma band_file_not_intermediate (t : Numpy.datetime64) :
  band_output_file base_data_dir t <> nc_filename
  /\ band_output_file base_data_dir t <> cog_filename
  /\ band_output_file base_data_dir t <> forecast_json_filename.
Proof.
  unfold band_output_file.
  rewrite path_join_base by apply no_slash_start, time_str_no_slash.
  destruct (time_str_cases t) as [[_ E]|[_ E]].
  - rewrite E. repeat split; vm_compute; discriminate.
  - repeat split; intros H; apply (f_equal String.length) in H;
      rewrite !string_length_app, E in H; vm_compute in H; discriminate.
Qed.

Lemma band_files_lookup dataset fold times : forall band (f : gmap string Blob) t,
  t ∈ times ->
  is_Some (band_files dataset fold band times f !! band_output_file fold t).
Proof.
  induction times as [|t0 rest IH]; intros band f t Ht.
  - now apply not_elem_of_nil in Ht.
  - cbn [band_files]. apply elem_of_cons in Ht as [->|Ht].
    + apply band_files_keeps. rewrite lookup_insert_eq. eauto.
    + now apply IH.
Qed.

Lemma cleaned_files_band manifest (f : gmap string Blob) (t : Numpy.datetime64) :
  cleaned_files manifest f !! band_output_file base_data_dir t
  = f !! band_output_file base_data_dir t.
Proof.
  destruct (band_file_not_intermediate t) as (N1 & N2 & N3).
  unfold cleaned_files.
  rewrite !lookup_delete_ne by congruence. now rewrite lookup_insert_ne by congruence.
Qed.

End BandFiles.

(** * The claims *)

(** ** C1: a failed fetch has no storage effect *)

(** C1, as stated, fails for the statuses that are no success and no error
    status either: a GET answered with 304 does not make
    [raise_for_status] raise, so the run goes on, deletes the prior
    publication (the band of the earlier forecast is gone) and only then
    ends, on the empty body. *)
Lemma C1_counterexample :
  requests_get_result env_not_modified (request_url example_cfg "sea-mean-deviation")
  = Ok {| status_code := 304; content := "" |}
  /\ s3_store stale_world
       !! "forecast-bucket/data/dmi/forecasts/dkss_if/sea-mean-deviation/20240229T180000.tif"
     = Some (Text "stale")
  /\ s3_store (snd (process_parameter env_not_modified example_cfg "sea-mean-deviation"
                      stale_world))
       !! "forecast-bucket/data/dmi/forecasts/dkss_if/sea-mean-deviation/20240229T180000.tif"
     = None
  /\ calls (snd (process_parameter env_not_modified example_cfg "sea-mean-deviation"
                   stale_world))
     = [CallGet (request_url example_cfg "sea-mean-deviation");
        CallRm "forecast-bucket/data/dmi/forecasts/dkss_if/sea-mean-deviation"].
Proof. repeat split; vm_compute; reflexivity. Qed.

(** C1, amended.  For every configured parameter, if the upstream GET is
    answered with an error status (the 4xx and 5xx statuses, for which
    [raise_for_status] raises), the run for that parameter returns normally
    and leaves the object store and the local files as they were: the only
    call is the GET itself, so nothing is deleted and no band and no
    manifest is uploaded; the error is logged.  A GET answered with any
    other status, the non-success statuses below 400 included, counts as
    fetched: the run deletes the prior publication and goes on with the
    body from a store that holds nothing at or below the target. *)
Theorem C1_fetch_error_no_storage_effect
    (env : Env) (cfg : Config) (parameter : string) (response : Response) (w : World) :
  requests_get_result env (request_url cfg parameter) = Ok response ->
  (400 <= status_code response < 600 ->
   process_parameter env cfg parameter w = (Ok tt, fetch_failed cfg parameter response w)
   /\ s3_store (fetch_failed cfg parameter response w) = s3_store w
   /\ files (fetch_failed cfg parameter response w) = files w
   /\ calls (fetch_failed cfg parameter response w)
      = calls w ++ [CallGet (request_url cfg parameter)]
   /\ log (fetch_failed cfg parameter response w)
      = log w ++ fetch_log cfg parameter
          ++ [(ERROR,
               MsgExn (HTTPError (status_code response) (request_url cfg parameter)))])
  /\ (~ 400 <= status_code response < 600 ->
      process_parameter env cfg parameter w
      = (let* ds0 := lift (xarray_open_dataset env (content response)) in
         let* ds := lift (normalize env cfg ds0) in
         convert_and_upload env cfg parameter ds)%py (after_delete cfg parameter w)
      /\ (forall k, under (bucket_path_full_of cfg parameter) k = true ->
                    s3_store (after_delete cfg parameter w) !! k = None)
      /\ calls (after_delete cfg parameter w)
         = calls w ++ [CallGet (request_url cfg parameter);
                       CallRm (bucket_path_full_of cfg parameter)]).
Proof.
  intros Hget. split; intros Hstatus.
  - split; [|repeat split]. destruct w as [s f c l].
    unfold process_parameter, bind at 1, logger at 1. cbn [s3_store files calls log].
    rewrite fetch_step, Hget. cbv zeta.
    replace ((400 <=? status_code response) && (status_code response <? 600)) with true
      by (symmetry; apply andb_true_intro; split; [apply Z.leb_le | apply Z.ltb_lt]; lia).
    unfold logger, fetch_log, fetch_failed. cbn [s3_store files calls log].
    rewrite <- !app_assoc. reflexivity.
  - assert (Hs : (400 <=? status_code response) && (status_code response <? 600) = false).
    { apply andb_false_iff.
      destruct (Z.leb_spec 400 (status_code response)); [right|now left].
      apply Z.ltb_ge. lia. }
    split; [|split; [|reflexivity]].
    + destruct w as [s f c l]. unfold after_delete. cbn [s3_store files calls log].
      now apply process_parameter_deleted.
    + intros k Hk. unfold after_delete. cbn [s3_store].
      now apply delete_prefix_lookup_under.
Qed.

Lemma C1_witness :
  process_parameter env_not_found example_cfg "sea-mean-deviation" stale_world
  = (Ok tt,
     fetch_failed example_cfg "sea-mean-deviation" {| status_code := 404; content := "" |}
       stale_world).
Proof.
  apply (C1_fetch_error_no_storage_effect env_not_found example_cfg "sea-mean-deviation"
           {| status_code := 404; content := "" |} stale_world).
  - reflexivity.
  - cbn [status_code]. lia.
Defined.

(** ** C2: the key of a timestep *)

(** C2, as stated, fails: the key of 2024-03-01T12:00:00.5 is not
    20240301120000. *)
Lemma C2_counterexample :
  Numpy.str t_2024_03_01_12_00_00_5 = "2024-03-01T12:00:00.500000000"
  /\ time_str t_2024_03_01_12_00_00_5 <> "20240301120000".
Proof. split; [vm_compute; reflexivity | vm_compute; discriminate]. Qed.

(** C2, amended.  For every timestep timestamp, the key is the rendering of
    the timestamp truncated to whole seconds with the hyphens and the colons
    removed; the letter T between the date and the time of day stays.  The
    key has fifteen characters: eight digits, T, six digits.  In particular
    2024-03-01T12:00:00.5 yields 20240301T120000.  The band file and the
    band object are named [{key}.tif]. *)
Theorem C2_key_keeps_T
    (t : Numpy.datetime64) (folder : string) (bname : option string) (bpath : string) :
  t <> Numpy.NaT ->
  time_str t = date_digits t +:+ "T" +:+ clock_digits t
  /\ all_digits (date_digits t) = true /\ String.length (date_digits t) = 8%nat
  /\ all_digits (clock_digits t) = true /\ String.length (clock_digits t) = 6%nat
  /\ time_str t_2024_03_01_12_00_00_5 = "20240301T120000"
  /\ PyStr.basename (band_output_file folder t) = time_str t +:+ ".tif"
  /\ bucket_file_of folder bname bpath t
     = PyStr.fmt bname +:+ "/" +:+ bpath +:+ "/" +:+ time_str t +:+ ".tif".
Proof.
  intros Ht. split; [now apply time_str_digits|].
  split; [unfold date_digits; now rewrite !all_digits_app, !all_digits_pad|].
  split; [unfold date_digits; now rewrite !string_length_app, !length_pad|].
  split; [unfold clock_digits; now rewrite !all_digits_app, !all_digits_pad|].
  split; [unfold clock_digits; now rewrite !string_length_app, !length_pad|].
  split; [vm_compute; reflexivity|].
  split; [apply band_basename|].
  unfold bucket_file_of, band_bucket_file. rewrite band_basename. reflexivity.
Qed.

Lemma C2_witness :
  time_str 1709272800000000000
  = date_digits 1709272800000000000 +:+ "T" +:+ clock_digits 1709272800000000000.
Proof.
  apply (C2_key_keeps_T 1709272800000000000 base_data_dir (Some "forecast-bucket")
           "data/dmi/forecasts/dkss_if/sea-mean-deviation").
  unfold Numpy.NaT. lia.
Defined.

(** ** C3: failures and the parameter loop *)

Lemma for_each_app {A} (body : A -> M unit) (l1 l2 : list A) (w : World) :
  for_each (l1 ++ l2) body w =
  match for_each l1 body w with
  | (Ok _, w1) => for_each l2 body w1
  | (Raise e, w1) => (Raise e, w1)
  end.
Proof.
  revert w. induction l1 as [|x l1 IH]; intros w; [reflexivity|].
  cbn [app for_each]. unfold bind.
  destruct (body x w) as [[[]|e] w1]; [apply IH | reflexivity].
Qed.

(** C3, as stated, fails: with two parameters and the write of the first
    band of the first parameter refused, the process ends with the error and
    the second parameter is never requested. *)
Lemma C3_counterexample :
  PyStr.split (parameters two_parameters) "," = ["sea-mean-deviation"; "salinity"]
  /\ fst (main (env_refusing 2) two_parameters empty_world) = Raise (OSError "write refused")
  /\ requested (request_url two_parameters "salinity")
       (calls (snd (main (env_refusing 2) two_parameters empty_world))) = false.
Proof. repeat split; vm_compute; reflexivity. Qed.

(** C3, amended.  For every list of configured parameters, a fetch that is
    answered with an error status never prevents the parameters that follow
    from being processed: the loop goes on with them from the world the
    failed fetch left.  An error that a parameter's run raises (an upload
    I/O error, for one) is not handled: it ends the loop and the process,
    and the parameters that follow are not processed. *)
Theorem C3_only_fetch_failures_are_isolated
    (env : Env) (cfg : Config) (pre : list string) (p : string) (post : list string)
    (w w1 : World) :
  PyStr.split (parameters cfg) "," = pre ++ p :: post ->
  for_each pre (process_parameter env cfg) (started w) = (Ok tt, w1) ->
  (forall response,
      requests_get_result env (request_url cfg p) = Ok response ->
      400 <= status_code response < 600 ->
      main env cfg w
      = for_each post (process_parameter env cfg) (fetch_failed cfg p response w1))
  /\ (forall e w2,
        process_parameter env cfg p w1 = (Raise e, w2) ->
        main env cfg w = (Raise e, w2)).
Proof.
  intros Hsplit Hpre.
  assert (Hmain : main env cfg w =
                  match process_parameter env cfg p w1 with
                  | (Ok _, w2) => for_each post (process_parameter env cfg) w2
                  | (Raise e, w2) => (Raise e, w2)
                  end).
  { unfold main, bind at 1, logger. fold (started w).
    rewrite Hsplit, for_each_app, Hpre. cbn [for_each]. unfold bind at 1.
    now destruct (process_parameter env cfg p w1) as [[[]|e] w2]. }
  split.
  - intros response Hget Hstatus. rewrite Hmain.
    destruct w1 as [s f c l].
    unfold process_parameter, bind at 1, logger at 1. cbn [s3_store files calls log].
    rewrite fetch_step, Hget. cbv zeta.
    replace ((400 <=? status_code response) && (status_code response <? 600)) with true
      by (symmetry; apply andb_true_intro; split; [apply Z.leb_le | apply Z.ltb_lt]; lia).
    unfold logger, fetch_log, fetch_failed. cbn [s3_store files calls log].
    rewrite <- !app_assoc. reflexivity.
  - intros e w2 He. now rewrite Hmain, He.
Qed.

Lemma C3_witness :
  main env_not_found two_parameters empty_world
  = for_each ["salinity"] (process_parameter env_not_found two_parameters)
      (fetch_failed two_parameters "sea-mean-deviation"
         {| status_code := 404; content := "" |} (started empty_world)).
Proof.
  apply (C3_only_fetch_failures_are_isolated env_not_found two_parameters []
           "sea-mean-deviation" ["salinity"] empty_world (started empty_world)).
  - vm_compute. reflexivity.
  - reflexivity.
  - reflexivity.
  - cbn [status_code]. lia.
Defined.

(** ** C4: republishing *)

Section Republish.

Variable env : Env.
Variable cfg : Config.
Variable parameter : string.

#[local] Abbreviation target := (bucket_path_full_of cfg parameter).
#[local] Abbreviation manifest_path := (forecast_json_bucket_path_of cfg parameter).
#[local] Abbreviation bucket_file :=
  (bucket_file_of base_data_dir (bucket_name cfg) (bucket_path_of cfg parameter)).

(** A run that meets no refusal. *)
Lemma process_parameter_ok response ds0 ds s f c l :
  (forall n k, s3_write_error env n k = None) ->
  requests_get_result env (request_url cfg parameter) = Ok response ->
  (400 <=? status_code response) && (status_code response <? 600) = false ->
  xarray_open_dataset env (content response) = Ok ds0 ->
  normalize env cfg ds0 = Ok ds ->
  process_parameter env cfg parameter (mkWorld s f c l) =
  (Ok tt,
   mkWorld (published_store cfg parameter ds (delete_prefix target s))
     (cleaned_files (manifest_of cfg parameter ds) (band_local_files ds f))
     ((c ++ [CallGet (request_url cfg parameter); CallRm target])
        ++ band_uploads cfg parameter ds ++ [manifest_upload cfg parameter ds])
     ((l ++ fetch_log cfg parameter ++ delete_log target s)
        ++ published_log cfg parameter ds)).
Proof.
  intros Hw Hget Hstatus Hopen Hnorm.
  rewrite (process_parameter_fetched env cfg parameter response ds0 ds) by assumption.
  rewrite convert_and_upload_bands_ok by (intros ? ? ? ?; apply Hw).
  cbv zeta. now rewrite Hw.
Qed.



End Republish.



(** ** C5: the bands and the entries of the mapping *)

Section Entries.

Variable dataset : Blob.
Variable folder : string.
Variable bname : option string.
Variable bpath endpoint : string.

#[local] Abbreviation bucket_file := (bucket_file_of folder bname bpath).
#[local] Abbreviation entry :=
  (fun t => (time_str t, public_url_of folder bname bpath endpoint t)).

Lemma dict_set_fresh (d : dict) (k v : string) :
  k ∉ map fst d -> dict_set d k v = d ++ [(k, v)].
Proof.
  induction d as [|[k' v'] d IH]; intros Hk; [reflexivity|].
  cbn [dict_set map fst app] in *. apply not_elem_of_cons in Hk as [Hne Hk].
  destruct (String.eqb_spec k' k) as [->|_]; [congruence|]. now rewrite IH.
Qed.

(** Distinct keys: every timestep adds its own entry, in order. *)
Lemma band_entries_distinct times : forall fc,
  NoDup (map time_str times) ->
  (forall t, t ∈ times -> time_str t ∉ map fst fc) ->
  band_entries folder bname bpath endpoint times fc = fc ++ map entry times.
Proof.
  induction times as [|t rest IH]; intros fc Hnd Hfresh.
  - cbn. now rewrite app_nil_r.
  - cbn [map] in Hnd. apply NoDup_cons in Hnd as [Ht Hnd].
    cbn [band_entries map]. rewrite dict_set_fresh by (apply Hfresh; left).
    rewrite IH; [now rewrite <- app_assoc | exact Hnd |].
    intros t' Ht'. rewrite map_app. cbn [map fst]. intros Hin.
    apply elem_of_app in Hin as [Hin|Hin].
    + revert Hin. apply Hfresh. now right.
    + apply list_elem_of_singleton in Hin. apply Ht. rewrite <- Hin.
      apply list_elem_of_fmap. now exists t'.
Qed.

Lemma band_calls_lookup times : forall band i t,
  times !! i = Some t ->
  band_calls dataset folder bname bpath band times !! i
  = Some (CallPut (bucket_file t) (band_blob dataset (band + i))).
Proof.
  induction times as [|t0 rest IH]; intros band i t Hi; [discriminate|].
  cbn [band_calls]. destruct i as [|i].
  - injection Hi as ->. now rewrite Nat.add_0_r.
  - change (band_calls dataset folder bname bpath (S band) rest !! i
            = Some (CallPut (bucket_file t) (band_blob dataset (band + S i)))).
    rewrite (IH (S band) i t Hi). do 3 f_equal. lia.
Qed.

Lemma bucket_files_distinct times :
  NoDup (map time_str times) -> NoDup (map bucket_file times).
Proof.
  induction times as [|t rest IH]; intros Hnd; [constructor|].
  cbn [map] in *. apply NoDup_cons in Hnd as [Ht Hnd].
  apply NoDup_cons. split; [|now apply IH].
  intros Hin. apply Ht. apply list_elem_of_fmap in Hin as (t' & Heq & Ht').
  apply bucket_file_inj in Heq. rewrite Heq. apply list_elem_of_fmap. now exists t'.
Qed.

End Entries.

(** C5, as stated, fails: two timestamps of the same second are unique and
    ascending and have the same key, so the second band replaces the first;
    one object is stored and the mapping has one entry. *)
Lemma C5_counterexample :
  NoDup same_second_times
  /\ 1709294400000000000 < t_2024_03_01_12_00_00_5
  /\ length same_second_times = 2%nat
  /\ (exists entry,
        fst (transform_cog_to_single_bands_and_upload_to_bucket env_ok cog_filename
               base_data_dir same_second_times (Some "forecast-bucket")
               "data/dmi/forecasts/dkss_if/sea-mean-deviation"
               "https://obs.eu-de.otc.t-systems.com" None None true
               (mkWorld ∅ (staged_files (example_dataset same_second_times "payload") ∅)
                  [] []))
        = Ok [entry])
  /\ size (s3_store
             (snd (transform_cog_to_single_bands_and_upload_to_bucket env_ok cog_filename
                     base_data_dir same_second_times (Some "forecast-bucket")
                     "data/dmi/forecasts/dkss_if/sea-mean-deviation"
                     "https://obs.eu-de.otc.t-systems.com" None None true
                     (mkWorld ∅
                        (staged_files (example_dataset same_second_times "payload") ∅)
                        [] []))))
     = 1%nat.
Proof.
  split.
  { apply NoDup_cons. split; [|apply NoDup_singleton].
    intros H. apply list_elem_of_singleton in H. discriminate. }
  split; [reflexivity|]. split; [reflexivity|]. split.
  - eexists. vm_compute. reflexivity.
  - vm_compute. reflexivity.
Qed.

(** C5, amended.  For every list of N timesteps whose keys (the timestamps
    at whole seconds) are pairwise distinct, publishing with uploading
    enabled and every write accepted uploads N band objects, one per
    timestep and each under its own key, in the order of the list, the
    timestep of index [i] taken from raster band [i+1]; and it returns a
    mapping with exactly N entries, one per timestep key, in the same
    order. *)
Theorem C5_one_band_and_one_entry_per_key
    (env : Env) (cog_file folder : string) (times : list Numpy.datetime64)
    (bname : option string) (bpath endpoint : string) (key secret : option string)
    (dataset : Blob) (n : nat) (w : World) :
  files w !! cog_file = Some dataset ->
  band_count dataset = Some n ->
  (length times <= n)%nat ->
  NoDup (map time_str times) ->
  (forall i t, times !! i = Some t ->
     s3_write_error env (length (calls w) + i) (bucket_file_of folder bname bpath t) = None) ->
  exists w',
    transform_cog_to_single_bands_and_upload_to_bucket env cog_file folder times
      bname bpath endpoint key secret true w
    = (Ok (map (fun t => (time_str t, public_url_of folder bname bpath endpoint t)) times), w')
    /\ length (map (fun t => (time_str t, public_url_of folder bname bpath endpoint t)) times)
       = length times
    /\ calls w' = calls w ++ band_calls dataset folder bname bpath 0 times
    /\ length (band_calls dataset folder bname bpath 0 times) = length times
    /\ NoDup (map (bucket_file_of folder bname bpath) times)
    /\ (forall i t, times !! i = Some t ->
          band_calls dataset folder bname bpath 0 times !! i
          = Some (CallPut (bucket_file_of folder bname bpath t)
                    (Translated dataset (band_options i)))
          /\ bandList (band_options i) = Some [(i + 1)%nat]
          /\ s3_store w' !! bucket_file_of folder bname bpath t
             = Some (Translated dataset (band_options i)))
    /\ (forall k, k ∉ map (bucket_file_of folder bname bpath) times ->
          s3_store w' !! k = s3_store w !! k).
Proof.
  intros Hcog Hbands Hlen Hnd Hacc. destruct w as [s f c l]. cbn [files calls s3_store] in *.
  unfold transform_cog_to_single_bands_and_upload_to_bucket, bind at 1, read_file.
  cbn [files]. rewrite Hcog.
  rewrite (loop_upload_ok env dataset folder _ n bname bpath endpoint key secret Hbands)
    by (cbn [Nat.add]; assumption).
  rewrite band_entries_distinct by (try exact Hnd; intros t _ H; inversion H).
  cbn [app]. eexists. split; [reflexivity|]. cbn [s3_store files calls log].
  split; [apply length_map|]. split; [reflexivity|].
  split.
  { clear. generalize 0%nat. induction times as [|t rest IH]; intros band; [reflexivity|].
    cbn [band_calls length]. now rewrite IH. }
  split; [now apply bucket_files_distinct|]. split.
  - intros i t Hi. split; [exact (band_calls_lookup dataset folder bname bpath times 0 i t Hi)|].
    split; [reflexivity|].
    exact (band_objects_lookup folder bname bpath dataset times 0 s i t Hnd Hi).
  - intros k Hk. apply band_objects_other. intros t Ht Heq. apply Hk.
    apply list_elem_of_fmap. now exists t.
Qed.

Lemma C5_witness :
  exists w',
    transform_cog_to_single_bands_and_upload_to_bucket env_ok cog_filename base_data_dir
      example_times (Some "forecast-bucket") "data/dmi/forecasts/dkss_if/sea-mean-deviation"
      "https://obs.eu-de.otc.t-systems.com" None None true
      (mkWorld ∅ (staged_files (example_dataset example_times "payload") ∅) [] [])
    = (Ok (map (fun t => (time_str t,
                          public_url_of base_data_dir (Some "forecast-bucket")
                            "data/dmi/forecasts/dkss_if/sea-mean-deviation"
                            "https://obs.eu-de.otc.t-systems.com" t)) example_times), w')
    /\ length (map (fun t => (time_str t,
                              public_url_of base_data_dir (Some "forecast-bucket")
                                "data/dmi/forecasts/dkss_if/sea-mean-deviation"
                                "https://obs.eu-de.otc.t-systems.com" t)) example_times)
       = length example_times.
Proof.
  destruct (C5_one_band_and_one_entry_per_key env_ok cog_filename base_data_dir
              example_times (Some "forecast-bucket")
              "data/dmi/forecasts/dkss_if/sea-mean-deviation"
              "https://obs.eu-de.otc.t-systems.com" None None
              (cog_of (example_dataset example_times "payload")) 3
              (mkWorld ∅ (staged_files (example_dataset example_times "payload") ∅) [] []))
    as (w' & Hrun & Hlen & _).
  - apply lookup_insert_eq.
  - reflexivity.
  - cbn [length example_times]. lia.
  - vm_compute. repeat constructor; intros H; inversion H; subst;
      repeat match goal with
             | H : _ ∈ _ |- _ => inversion H; clear H; subst
             end.
  - reflexivity.
  - exists w'. split; [exact Hrun | exact Hlen].
Defined.

(** ** C6: the manifest is written last *)

Lemma write_attempted_app (k : string) (a b : list Call) :
  write_attempted k (a ++ b) = write_attempted k a || write_attempted k b.
Proof. unfold write_attempted. apply existsb_app. Qed.

Lemma band_calls_no_manifest dataset folder bname bpath times : forall band,
  write_attempted ((PyStr.fmt bname +:+ "/" +:+ bpath) +:+ "/forecasts.json")
    (band_calls dataset folder bname bpath band times) = false.
Proof.
  induction times as [|t rest IH]; intros band; [reflexivity|].
  cbn [band_calls]. unfold write_attempted in *. cbn [existsb]. rewrite IH, orb_false_r.
  apply String.eqb_neq, band_not_manifest.
Qed.

(** C6.  In a run whose fetch succeeded, the write of the manifest is the
    last call to the store: when every band write is accepted, the calls of
    the run are the GET, the deletion, the band writes in order and then the
    manifest.  When the write of a band is refused, the run ends with that
    error, no write of the manifest is attempted and no manifest is in the
    store. *)
Theorem C6_manifest_is_written_last
    (env : Env) (cfg : Config) (parameter : string) (response : Response)
    (ds0 ds : Dataset) (w : World) :
  requests_get_result env (request_url cfg parameter) = Ok response ->
  (400 <=? status_code response) && (status_code response <? 600) = false ->
  xarray_open_dataset env (content response) = Ok ds0 ->
  normalize env cfg ds0 = Ok ds ->
  (bands_accepted env cfg parameter ds (length (calls w) + 2) ->
   calls (snd (process_parameter env cfg parameter w))
   = calls w ++ [CallGet (request_url cfg parameter);
                 CallRm (bucket_path_full_of cfg parameter)]
       ++ band_uploads cfg parameter ds ++ [manifest_upload cfg parameter ds])
  /\ (forall pre t post e,
        upload cfg = true ->
        ds_time ds = pre ++ t :: post ->
        (forall i t', pre !! i = Some t' ->
           s3_write_error env (length (calls w) + 2 + i)
             (bucket_file_of base_data_dir (bucket_name cfg) (bucket_path_of cfg parameter) t')
           = None) ->
        s3_write_error env (length (calls w) + 2 + length pre)
          (bucket_file_of base_data_dir (bucket_name cfg) (bucket_path_of cfg parameter) t)
        = Some e ->
        fst (process_parameter env cfg parameter w) = Raise e
        /\ s3_store (snd (process_parameter env cfg parameter w))
             !! forecast_json_bucket_path_of cfg parameter = None
        /\ write_attempted (forecast_json_bucket_path_of cfg parameter)
             (drop (length (calls w)) (calls (snd (process_parameter env cfg parameter w))))
           = false).
Proof.
  intros Hget Hstatus Hopen Hnorm. destruct w as [s f c l]. cbn [calls].
  rewrite (process_parameter_fetched env cfg parameter response ds0 ds) by assumption.
  assert (Hlen : length (c ++ [CallGet (request_url cfg parameter);
                               CallRm (bucket_path_full_of cfg parameter)])
                 = (length c + 2)%nat) by (rewrite length_app; reflexivity).
  split.
  - intros Hacc. rewrite convert_and_upload_bands_ok by now rewrite Hlen.
    cbv zeta. rewrite <- app_assoc.
    now destruct (s3_write_error env _ _).
  - intros pre t post e Hup Htimes Hpre He.
    rewrite (convert_and_upload_band_fail env cfg parameter ds pre t post e)
      by (rewrite ?Hlen; assumption).
    cbn [fst snd s3_store calls]. split; [reflexivity|]. split.
    + rewrite band_objects_other by (intros t' _; apply band_not_manifest).
      apply delete_prefix_lookup_under, under_manifest.
    + rewrite <- app_assoc, drop_app_length, write_attempted_app.
      unfold forecast_json_bucket_path_of, bucket_path_full_of.
      rewrite band_calls_no_manifest. reflexivity.
Qed.

Lemma C6_witness :
  fst (process_parameter (env_refusing 3) example_cfg "sea-mean-deviation" empty_world)
  = Raise (OSError "write refused")
  /\ s3_store (snd (process_parameter (env_refusing 3) example_cfg "sea-mean-deviation"
                      empty_world))
       !! forecast_json_bucket_path_of example_cfg "sea-mean-deviation" = None
  /\ write_attempted (forecast_json_bucket_path_of example_cfg "sea-mean-deviation")
       (drop (length (calls empty_world))
          (calls (snd (process_parameter (env_refusing 3) example_cfg "sea-mean-deviation"
                         empty_world))))
     = false.
Proof.
  apply (proj2 (C6_manifest_is_written_last (env_refusing 3) example_cfg
                  "sea-mean-deviation" example_response
                  (example_dataset example_times "payload")
                  (example_dataset example_times "payload") empty_world
                  eq_refl eq_refl eq_refl eq_refl)
           [1709251200000000000] 1709272800000000000 [1709294400000000000]
           (OSError "write refused")).
  - reflexivity.
  - reflexivity.
  - intros [|i] t' Hi; [reflexivity | discriminate].
  - reflexivity.
Defined.

(** ** C7: deleting a target that does not exist *)

(** C7.  When no object exists at or below a path, the gateway's recursive
    removal raises [FileNotFoundError], and [delete_outdated_forecasts]
    returns normally all the same: the store is as before and the error is
    only logged. *)
Theorem C7_delete_absent_target
    (path endpoint_url : string) (key secret : option string) (w : World) :
  filter (fun kv => under path (fst kv) = true) (s3_store w) = ∅ ->
  fst (s3_rm path w) = Raise (FileNotFoundError path)
  /\ delete_outdated_forecasts path endpoint_url key secret w =
     (Ok tt,
      mkWorld (s3_store w) (files w) (calls w ++ [CallRm path])
        (log w ++ [(DEBUG, Msg ("Delete path " +:+ path +:+ " recursively."));
                   (DEBUG, MsgExn (FileNotFoundError path))])).
Proof.
  intros Hempty. destruct w as [s f c l]. cbn [s3_store files calls log] in *. split.
  - unfold s3_rm, bind, record_call. cbn [s3_store files calls log fst].
    now rewrite decide_True by exact Hempty.
  - rewrite delete_outdated_forecasts_step, delete_prefix_absent by exact Hempty.
    unfold delete_log. now rewrite decide_True by exact Hempty.
Qed.

Lemma C7_witness :
  delete_outdated_forecasts "forecast-bucket/data/dmi/forecasts/dkss_if/wind-speed"
    "https://obs.eu-de.otc.t-systems.com" None None stale_world =
  (Ok tt,
   mkWorld (s3_store stale_world) (files stale_world)
     (calls stale_world ++ [CallRm "forecast-bucket/data/dmi/forecasts/dkss_if/wind-speed"])
     (log stale_world
        ++ [(DEBUG, Msg ("Delete path "
                           +:+ "forecast-bucket/data/dmi/forecasts/dkss_if/wind-speed"
                           +:+ " recursively."));
            (DEBUG, MsgExn (FileNotFoundError
                              "forecast-bucket/data/dmi/forecasts/dkss_if/wind-speed"))])).
Proof.
  apply (C7_delete_absent_target "forecast-bucket/data/dmi/forecasts/dkss_if/wind-speed"
           "https://obs.eu-de.otc.t-systems.com" None None stale_world).
  now vm_compute.
Defined.

(** ** C8: reprojection of the HARMONIE collections *)

Lemma grid_not_reprojected_self (g : Grid) (a b : CRS) : g <> GridReprojected a b g.
Proof.
  induction g as [payload|src dst g IH]; [discriminate|].
  intros [= -> -> H]. now apply IH.
Qed.

(** C8.  After a successful fetch whose dataset is normalized without an
    error, the run saves and converts one dataset, the normalized one.  That
    dataset is the fetched one tagged with the fixed Lambert reference and
    reprojected to EPSG:4326 if and only if the collection name starts with
    [harmonie]; otherwise it is the fetched dataset itself, reference
    included, and then the normalization cannot fail.  The request asks for
    the native reference system under the same condition. *)
Theorem C8_reprojection_iff_harmonie
    (env : Env) (cfg : Config) (parameter : string) (response : Response)
    (ds0 ds : Dataset) (w : World) :
  requests_get_result env (request_url cfg parameter) = Ok response ->
  (400 <=? status_code response) && (status_code response <? 600) = false ->
  xarray_open_dataset env (content response) = Ok ds0 ->
  normalize env cfg ds0 = Ok ds ->
  process_parameter env cfg parameter w
  = convert_and_upload env cfg parameter ds (after_delete cfg parameter w)
  /\ (ds = reprojected ds0 <-> PyStr.startswith (collection cfg) "harmonie" = true)
  /\ (ds = ds0 <-> PyStr.startswith (collection cfg) "harmonie" = false)
  /\ (PyStr.startswith (collection cfg) "harmonie" = false ->
      forall ds1, normalize env cfg ds1 = Ok ds1)
  /\ (In ("crs", "native") (query_params cfg parameter)
      <-> PyStr.startswith (collection cfg) "harmonie" = true).
Proof.
  intros Hget Hstatus Hopen Hnorm.
  pose proof (normalize_result env cfg ds0 ds Hnorm) as Hds.
  split.
  - destruct w as [s f c l]. unfold after_delete. cbn [s3_store files calls log].
    now apply (process_parameter_fetched env cfg parameter response ds0).
  - clear Hnorm. assert (Hne : reprojected ds0 <> ds0).
    { intros H. apply (f_equal ds_grid) in H. cbn [ds_grid reprojected] in H.
      symmetry in H. now apply grid_not_reprojected_self in H. }
    unfold query_params, crs_of, normalize.
    destruct (PyStr.startswith (collection cfg) "harmonie"); subst ds; repeat split;
      try reflexivity; try discriminate; try congruence; try (now left + right);
      intros H; try (now exfalso; auto).
    + cbn [In]. tauto.
    + cbn [In] in H. decompose [or] H; try discriminate; contradiction.
Qed.

Lemma C8_witness :
  normalize env_ok (with_collection example_cfg "harmonie_dini_sf")
    (example_dataset example_times "payload")
  = Ok (reprojected (example_dataset example_times "payload"))
  /\ process_parameter env_ok (with_collection example_cfg "harmonie_dini_sf")
       "wind-speed" empty_world
     = convert_and_upload env_ok (with_collection example_cfg "harmonie_dini_sf")
         "wind-speed" (reprojected (example_dataset example_times "payload"))
         (after_delete (with_collection example_cfg "harmonie_dini_sf") "wind-speed"
            empty_world).
Proof.
  split; [reflexivity|].
  apply (C8_reprojection_iff_harmonie env_ok (with_collection example_cfg "harmonie_dini_sf")
           "wind-speed" example_response (example_dataset example_times "payload")
           (reprojected (example_dataset example_times "payload")) empty_world);
    reflexivity.
Defined.

(** ** C9: a run with uploading disabled *)



(** ** C10: the public address strips a character set *)

Lemma lstrip_spec (chars s : string) :
  exists pre, s = pre +:+ PyStr.lstrip s chars
              /\ all_chars_in chars pre = true
              /\ starts_outside chars (PyStr.lstrip s chars) = true.
Proof.
  induction s as [|c s (pre & Hs & Hin & Hout)].
  - exists "". repeat split.
  - cbn [PyStr.lstrip]. destruct (PyStr.occurs c chars) eqn:Hc.
    + exists (String c pre). rewrite app_cons, <- Hs. repeat split; [|exact Hout].
      cbn [all_chars_in]. now rewrite Hc, Hin.
    + exists "". repeat split. cbn [starts_outside]. now rewrite Hc.
Qed.

Lemma lstrip_length (chars s : string) :
  (String.length (PyStr.lstrip s chars) <= String.length s)%nat.
Proof.
  induction s as [|c s IH]; [reflexivity|]. cbn [PyStr.lstrip].
  destruct (PyStr.occurs c chars); cbn [String.length]; lia.
Qed.

Lemma lstrip_app_in (chars pre s : string) :
  all_chars_in chars pre = true ->
  PyStr.lstrip (pre +:+ s) chars = PyStr.lstrip s chars.
Proof.
  induction pre as [|c pre IH]; intros H; [reflexivity|].
  cbn [all_chars_in] in H. apply andb_prop in H as [Hc Hpre].
  rewrite app_cons. cbn [PyStr.lstrip]. rewrite Hc. now apply IH.
Qed.

(** C10.  For every endpoint, the public address of a band is
    [https://{bucket}.{stripped}/{path}/{key}.tif], where [stripped] is the
    endpoint without its longest leading run of characters from the set
    h, t, p, s, colon, slash: what is removed consists of such characters
    only, and what remains starts with none of them.  So for an endpoint
    [https://] followed by a host name whose first character is in the set,
    the address loses that character (and those of the set that follow it)
    and what is left of the host name is shorter than the host name. *)
Theorem C10_public_address_strips_character_set
    (bname : option string) (bpath endpoint folder : string) (t : Numpy.datetime64) :
  band_public_url bname bpath endpoint (band_output_file folder t)
  = "https://" +:+ PyStr.fmt bname +:+ "." +:+ PyStr.lstrip endpoint "https://"
      +:+ "/" +:+ bpath +:+ "/" +:+ time_str t +:+ ".tif"
  /\ (exists removed,
        endpoint = removed +:+ PyStr.lstrip endpoint "https://"
        /\ all_chars_in "htps:/" removed = true
        /\ starts_outside "htps:/" (PyStr.lstrip endpoint "https://") = true)
  /\ (forall (c : ascii) (rest : string),
        In c ["h"; "t"; "p"; "s"; ":"; "/"]%char ->
        PyStr.lstrip ("https://" +:+ String c rest) "https://"
        = PyStr.lstrip rest "https://"
        /\ (String.length (PyStr.lstrip ("https://" +:+ String c rest) "https://")
            < String.length (String c rest))%nat).
Proof.
  split; [|split].
  - unfold band_public_url. now rewrite band_basename.
  - destruct (lstrip_spec "https://" endpoint) as (pre & Hs & Hin & Hout).
    exists pre. split; [exact Hs|]. split.
    + clear Hs Hout. induction pre as [|x pre IH]; [reflexivity|].
      cbn [all_chars_in] in *. apply andb_prop in Hin as [Hx Hpre].
      rewrite (IH Hpre), andb_true_r.
      cbn [PyStr.occurs] in *.
      repeat (destruct (Ascii.eqb x _); [reflexivity|]). discriminate.
    + destruct (PyStr.lstrip endpoint "https://") as [|x r]; [reflexivity|].
      cbn [starts_outside PyStr.occurs] in *.
      repeat (destruct (Ascii.eqb x _); [discriminate|]). reflexivity.
  - intros c rest Hc.
    assert (E : PyStr.lstrip ("https://" +:+ String c rest) "https://"
                = PyStr.lstrip rest "https://").
    { rewrite lstrip_app_in by reflexivity. cbn [PyStr.lstrip].
      replace (PyStr.occurs c "https://") with true; [reflexivity|].
      cbn [In] in Hc. decompose [or] Hc; subst; try reflexivity. contradiction. }
    split; [exact E|]. rewrite E.
    pose proof (lstrip_length "https://" rest). cbn [String.length]. lia.
Qed.

Lemma C10_witness :
  PyStr.lstrip ("https://" +:+ "s3.amazonaws.com") "https://"
  = PyStr.lstrip "3.amazonaws.com" "https://"
  /\ PyStr.lstrip "https://s3.amazonaws.com" "https://" = "3.amazonaws.com"
  /\ band_public_url (Some "forecast-bucket") "data/dmi/forecasts/dkss_if/sea-mean-deviation"
       "https://s3.amazonaws.com" (band_output_file base_data_dir 1709272800000000000)
     = "https://forecast-bucket.3.amazonaws.com/data/dmi/forecasts/dkss_if/sea-mean-deviation/20240301T060000.tif".
Proof.
  split; [|split; vm_compute; reflexivity].
  apply (C10_public_address_strips_character_set (Some "forecast-bucket")
           "data/dmi/forecasts/dkss_if/sea-mean-deviation" "https://s3.amazonaws.com"
           base_data_dir 1709272800000000000).
  cbn [In]. tauto.
Defined.

(** * Further properties of the program *)

(** ** What every step keeps *)

Section Keeps.

Variable R : World -> World -> Prop.
Variable ok_write : string -> Prop.
Variable ok_rm : string -> Prop.
Variable ok_file : string -> Prop.

Hypothesis R_refl : forall w, R w w.
Hypothesis R_trans : forall w1 w2 w3, R w1 w2 -> R w2 w3 -> R w1 w3.
Hypothesis R_log : forall s f c l l', R (mkWorld s f c l) (mkWorld s f c l').
Hypothesis R_file : forall s f c l p b,
  ok_file p -> R (mkWorld s f c l) (mkWorld s (<[p := b]> f) c l).
Hypothesis R_remove : forall s f c l p,
  ok_file p -> R (mkWorld s f c l) (mkWorld s (delete p f) c l).
Hypothesis R_put : forall s f c l k b,
  ok_write k -> R (mkWorld s f c l) (mkWorld s f (c ++ [CallPut k b]) l).
Hypothesis R_stored : forall s f c l k b,
  ok_write k -> R (mkWorld s f c l) (mkWorld (<[k := b]> s) f (c ++ [CallPut k b]) l).
Hypothesis R_rm_call : forall s f c l p,
  ok_rm p -> R (mkWorld s f c l) (mkWorld s f (c ++ [CallRm p]) l).
Hypothesis R_rm : forall s f c l p,
  ok_rm p -> R (mkWorld s f c l) (mkWorld (delete_prefix p s) f (c ++ [CallRm p]) l).

Lemma keeps_ret {A} (a : A) : keeps R (ret a).
Proof. intros w. apply R_refl. Qed.

Lemma keeps_lift {A} (r : Result A) : keeps R (lift r).
Proof. intros w. apply R_refl. Qed.

Lemma keeps_bind {A B} (m : M A) (k : A -> M B) :
  keeps R m -> (forall a, keeps R (k a)) -> keeps R (bind m k).
Proof.
  intros Hm Hk w. unfold bind. specialize (Hm w).
  destruct (m w) as [[a|e] w1]; cbn [snd] in *; [|exact Hm].
  eapply R_trans; [exact Hm | apply Hk].
Qed.

Lemma keeps_try_except {A} (m : M A) (handler : Exn -> option (M A)) :
  keeps R m -> (forall e h, handler e = Some h -> keeps R h) ->
  keeps R (try_except m handler).
Proof.
  intros Hm Hh w. unfold try_except. specialize (Hm w).
  destruct (m w) as [[a|e] w1]; cbn [snd] in *; [exact Hm|].
  destruct (handler e) as [h|] eqn:He; [|exact Hm].
  eapply R_trans; [exact Hm | now apply (Hh e h)].
Qed.

Lemma keeps_for_each {A} (l : list A) (body : A -> M unit) :
  (forall x, x ∈ l -> keeps R (body x)) -> keeps R (for_each l body).
Proof.
  induction l as [|x l IH]; intros Hbody; [apply keeps_ret|].
  cbn [for_each]. apply keeps_bind; [apply Hbody; left|].
  intros _. apply IH. intros y Hy. apply Hbody. now right.
Qed.

Lemma keeps_logger lvl m : keeps R (logger lvl m).
Proof. intros [s f c l]. apply R_log. Qed.

Lemma keeps_read_file p : keeps R (read_file p).
Proof.
  intros w. unfold read_file. destruct (files w !! p); apply R_refl.
Qed.

Lemma keeps_write_file p b : ok_file p -> keeps R (write_file p b).
Proof. intros Hp [s f c l]. now apply R_file. Qed.

Lemma keeps_os_remove p : ok_file p -> keeps R (os_remove p).
Proof.
  intros Hp [s f c l]. unfold os_remove. cbn [files].
  destruct (f !! p); [now apply R_remove | apply R_refl].
Qed.

Lemma keeps_gdal_Translate dst src opts : ok_file dst -> keeps R (gdal_Translate dst src opts).
Proof.
  intros Hd. unfold gdal_Translate.
  destruct (bands_exist src opts); [now apply keeps_write_file|].
  intros w. apply R_refl.
Qed.

Lemma keeps_s3_write env k b : ok_write k -> keeps R (s3_write env k b).
Proof.
  intros Hk [s f c l]. unfold s3_write. cbn [s3_store files calls log].
  destruct (s3_write_error env (length c) k); cbn [snd];
    [now apply R_put | now apply R_stored].
Qed.

Lemma keeps_s3_rm p : ok_rm p -> keeps R (s3_rm p).
Proof.
  intros Hp [s f c l]. unfold s3_rm, bind, record_call. cbn [s3_store files calls log].
  destruct (decide _); cbn [snd]; [now apply R_rm_call | now apply R_rm].
Qed.

Lemma keeps_upload_to_bucket env local_file bucket_file endpoint_url key secret :
  ok_write bucket_file ->
  keeps R (upload_to_bucket env local_file bucket_file endpoint_url key secret).
Proof.
  intros Hk. unfold upload_to_bucket.
  apply keeps_bind; [apply keeps_logger|]. intros _.
  apply keeps_bind; [apply keeps_read_file|]. intros b.
  apply keeps_bind; [apply keeps_logger|]. intros _.
  now apply keeps_s3_write.
Qed.

Lemma keeps_delete_outdated_forecasts path endpoint_url key secret :
  ok_rm path -> keeps R (delete_outdated_forecasts path endpoint_url key secret).
Proof.
  intros Hp. unfold delete_outdated_forecasts.
  apply keeps_bind; [apply keeps_logger|]. intros _.
  apply keeps_try_except; [now apply keeps_s3_rm|].
  intros e h He. destruct e; try discriminate. injection He as <-. apply keeps_logger.
Qed.

Lemma keeps_netcdf_to_cog input_file output_file :
  ok_file output_file -> keeps R (netcdf_to_cog input_file output_file).
Proof.
  intros Ho. unfold netcdf_to_cog.
  apply keeps_bind; [apply keeps_read_file|]. intros b.
  now apply keeps_gdal_Translate.
Qed.

Lemma keeps_transform_loop env dataset folder n_times bname bpath endpoint key secret
    up times : forall band fc,
  (forall t, t ∈ times -> ok_file (band_output_file folder t)) ->
  (forall t, t ∈ times -> ok_write (bucket_file_of folder bname bpath t)) ->
  keeps R (transform_loop env dataset folder n_times bname bpath endpoint key secret
             up band times fc).
Proof.
  induction times as [|t rest IH]; intros band fc Hf Hw; [apply keeps_ret|].
  cbn [transform_loop].
  apply keeps_bind; [apply keeps_gdal_Translate, Hf; left|]. intros _.
  apply keeps_bind.
  - destruct up; [|apply keeps_ret].
    apply keeps_bind; [apply keeps_upload_to_bucket, Hw; left|]. intros _.
    apply keeps_bind; [|intros _; apply keeps_ret].
    destruct (band mod 10 =? 0)%nat; [apply keeps_logger | apply keeps_ret].
  - intros fc'. apply IH; intros t' Ht'; [apply Hf | apply Hw]; now right.
Qed.

Lemma keeps_transform env cog_file folder times bname bpath endpoint key secret up :
  (forall t, t ∈ times -> ok_file (band_output_file folder t)) ->
  (forall t, t ∈ times -> ok_write (bucket_file_of folder bname bpath t)) ->
  keeps R (transform_cog_to_single_bands_and_upload_to_bucket env cog_file folder times
             bname bpath endpoint key secret up).
Proof.
  intros Hf Hw. unfold transform_cog_to_single_bands_and_upload_to_bucket.
  apply keeps_bind; [apply keeps_read_file|]. intros dataset.
  now apply keeps_transform_loop.
Qed.

Lemma keeps_convert_and_upload env cfg parameter ds :
  ok_file nc_filename -> ok_file cog_filename -> ok_file forecast_json_filename ->
  (forall t, t ∈ ds_time ds -> ok_file (band_output_file base_data_dir t)) ->
  (forall t, t ∈ ds_time ds ->
     ok_write (bucket_file_of base_data_dir (bucket_name cfg)
                 (bucket_path_of cfg parameter) t)) ->
  ok_write (forecast_json_bucket_path_of cfg parameter) ->
  keeps R (convert_and_upload env cfg parameter ds).
Proof.
  intros Hnc Hcog Hjson Hbf Hbw Hm. unfold convert_and_upload.
  apply keeps_bind; [apply keeps_logger|]. intros _.
  apply keeps_bind; [now apply keeps_write_file|]. intros _.
  apply keeps_bind; [apply keeps_logger|]. intros _.
  apply keeps_bind; [now apply keeps_netcdf_to_cog|]. intros _.
  apply keeps_bind; [apply keeps_logger|]. intros _.
  apply keeps_bind; [now apply keeps_transform|]. intros data.
  apply keeps_bind; [now apply keeps_write_file|]. intros _.
  apply keeps_bind; [now apply keeps_upload_to_bucket|]. intros _.
  apply keeps_try_except.
  - apply keeps_bind; [now apply keeps_os_remove|]. intros _.
    apply keeps_bind; [now apply keeps_os_remove|]. intros _.
    now apply keeps_os_remove.
  - intros e h [= <-]. apply keeps_logger.
Qed.

Lemma keeps_publish env cfg parameter response :
  ok_rm (bucket_path_full_of cfg parameter) ->
  ok_file nc_filename -> ok_file cog_filename -> ok_file forecast_json_filename ->
  (forall t, ok_file (band_output_file base_data_dir t)) ->
  (forall t, ok_write (bucket_file_of base_data_dir (bucket_name cfg)
                         (bucket_path_of cfg parameter) t)) ->
  ok_write (forecast_json_bucket_path_of cfg parameter) ->
  keeps R (publish env cfg parameter response).
Proof.
  intros Hrm Hnc Hcog Hjson Hbf Hbw Hm. unfold publish.
  apply keeps_bind; [now apply keeps_delete_outdated_forecasts|]. intros _.
  apply keeps_bind; [apply keeps_lift|]. intros ds0.
  apply keeps_bind; [apply keeps_lift|]. intros ds.
  apply keeps_convert_and_upload; auto.
Qed.

Lemma keeps_process_parameter env cfg parameter :
  (forall s f c l u, R (mkWorld s f c l) (mkWorld s f (c ++ [CallGet u]) l)) ->
  ok_rm (bucket_path_full_of cfg parameter) ->
  ok_file nc_filename -> ok_file cog_filename -> ok_file forecast_json_filename ->
  (forall t, ok_file (band_output_file base_data_dir t)) ->
  (forall t, ok_write (bucket_file_of base_data_dir (bucket_name cfg)
                         (bucket_path_of cfg parameter) t)) ->
  ok_write (forecast_json_bucket_path_of cfg parameter) ->
  keeps R (process_parameter env cfg parameter).
Proof.
  intros Hget Hrm Hnc Hcog Hjson Hbf Hbw Hm [s f c l].
  unfold process_parameter, bind at 1, logger at 1. cbn [s3_store files calls log].
  rewrite fetch_step. cbv zeta.
  assert (Hpre : forall L,
             R (mkWorld s f c l)
               (mkWorld s f (c ++ [CallGet (request_url cfg parameter)]) L)).
  { intros L. eapply R_trans; [apply (R_log _ _ _ _ L) | apply Hget]. }
  destruct (requests_get_result env (request_url cfg parameter)) as [response|e].
  - destruct ((400 <=? status_code response) && (status_code response <? 600)).
    + cbn [logger snd s3_store files calls log]. apply Hpre.
    + eapply R_trans; [apply Hpre | now apply keeps_publish].
  - destruct e; cbn [logger snd s3_store files calls log]; apply Hpre.
Qed.

End Keeps.

(** ** What a run never touches *)

Lemma store_frame_refl touch w : store_frame touch w w.
Proof. now intros k _. Qed.

Lemma store_frame_trans touch w1 w2 w3 :
  store_frame touch w1 w2 -> store_frame touch w2 w3 -> store_frame touch w1 w3.
Proof. intros H12 H23 k Hk. now rewrite (H23 k Hk), (H12 k Hk). Qed.

Lemma store_frame_weaken (touch touch' : string -> bool) w w' :
  (forall k, touch k = true -> touch' k = true) ->
  store_frame touch w w' -> store_frame touch' w w'.
Proof.
  intros Hsub H k Hk. apply H. destruct (touch k) eqn:E; [|reflexivity].
  rewrite (Hsub k E) in Hk. discriminate.
Qed.

(** A run keeps the objects outside its target. *)
Lemma process_parameter_store_frame env cfg parameter :
  keeps (store_frame (under (bucket_path_full_of cfg parameter)))
    (process_parameter env cfg parameter).
Proof.
  apply (keeps_process_parameter _
           (fun k => under (bucket_path_full_of cfg parameter) k = true)
           (fun p => p = bucket_path_full_of cfg parameter)
           (fun _ => True)); auto using store_frame_refl.
  - apply store_frame_trans.
  - intros s f c l l' k _. reflexivity.
  - intros s f c l p b _ k _. reflexivity.
  - intros s f c l p _ k _. reflexivity.
  - intros s f c l k b _ k' _. reflexivity.
  - intros s f c l k b Hk k' Hk'. cbn [s3_store]. apply lookup_insert_ne. congruence.
  - intros s f c l p _ k _. reflexivity.
  - intros s f c l p Hp k Hk. cbn [s3_store]. rewrite Hp.
    now apply delete_prefix_lookup_other.
  - intros s f c l u k _. reflexivity.
  - intros t. apply under_band.
  - apply under_manifest.
Qed.

(** X1.  Whatever the collaborators answer and however the run ends, a run
    for one parameter leaves every object that is not at or below its own
    Publication Target as it was. *)
Theorem X1_run_keeps_objects_outside_its_target
    (env : Env) (cfg : Config) (parameter : string) (w : World) (k : string) :
  under (bucket_path_full_of cfg parameter) k = false ->
  s3_store (snd (process_parameter env cfg parameter w)) !! k = s3_store w !! k.
Proof. intros Hk. now apply process_parameter_store_frame. Qed.

Lemma X1_witness :
  s3_store (snd (process_parameter env_ok example_cfg "sea-mean-deviation" stale_world))
    !! "forecast-bucket/data/dmi/forecasts/dkss_if/salinity/forecasts.json"
  = s3_store stale_world
      !! "forecast-bucket/data/dmi/forecasts/dkss_if/salinity/forecasts.json".
Proof.
  apply (X1_run_keeps_objects_outside_its_target env_ok example_cfg "sea-mean-deviation"
           stale_world "forecast-bucket/data/dmi/forecasts/dkss_if/salinity/forecasts.json").
  vm_compute. reflexivity.
Defined.

(** X2.  The whole process leaves every object that is below none of the
    targets of its parameters as it was, however it ends. *)
Theorem X2_main_keeps_objects_outside_all_targets
    (env : Env) (cfg : Config) (w : World) (k : string) :
  under_some_target cfg (PyStr.split (parameters cfg) ",") k = false ->
  s3_store (snd (main env cfg w)) !! k = s3_store w !! k.
Proof.
  intros Hk. revert k Hk.
  change (store_frame (under_some_target cfg (PyStr.split (parameters cfg) ","))
            w (snd (main env cfg w))).
  revert w.
  change (keeps (store_frame (under_some_target cfg (PyStr.split (parameters cfg) ",")))
            (main env cfg)).
  unfold main. apply keeps_bind; [apply store_frame_trans | |].
  - intros [s f c l]. now intros k _.
  - intros _. apply keeps_for_each; [apply store_frame_refl | apply store_frame_trans |].
    intros p Hp w. eapply store_frame_weaken; [|apply process_parameter_store_frame].
    intros k Hk. unfold under_some_target. apply existsb_exists.
    exists p. split; [now apply list_elem_of_In | exact Hk].
Qed.

Lemma X2_witness :
  s3_store (snd (main env_ok example_cfg stale_world))
    !! "forecast-bucket/data/dmi/forecasts/dkss_if/salinity/forecasts.json"
  = s3_store stale_world
      !! "forecast-bucket/data/dmi/forecasts/dkss_if/salinity/forecasts.json".
Proof.
  apply (X2_main_keeps_objects_outside_all_targets env_ok example_cfg stale_world
           "forecast-bucket/data/dmi/forecasts/dkss_if/salinity/forecasts.json").
  vm_compute. reflexivity.
Defined.

(** ** Requests *)

Lemma gets_app (a b : list Call) : gets (a ++ b) = gets a ++ gets b.
Proof. unfold gets. apply omap_app. Qed.

Lemma publish_same_gets env cfg parameter response :
  keeps same_gets (publish env cfg parameter response).
Proof.
  apply (keeps_publish same_gets (fun _ => True) (fun _ => True) (fun _ => True));
    try exact I; unfold same_gets; intros; cbn [calls];
    rewrite ?gets_app, ?app_nil_r; try reflexivity; try congruence.
Qed.

(** X3.  Whatever the collaborators answer and however the run ends, a run
    for one parameter sends exactly one request, the one for that parameter:
    nothing is retried. *)
Theorem X3_run_sends_exactly_one_request
    (env : Env) (cfg : Config) (parameter : string) (w : World) :
  gets (calls (snd (process_parameter env cfg parameter w)))
  = gets (calls w) ++ [request_url cfg parameter].
Proof.
  destruct w as [s f c l].
  unfold process_parameter, bind at 1, logger at 1. cbn [s3_store files calls log].
  rewrite fetch_step. cbv zeta.
  destruct (requests_get_result env (request_url cfg parameter)) as [response|e].
  - destruct ((400 <=? status_code response) && (status_code response <? 600)).
    + cbn [logger snd s3_store files calls log]. now rewrite gets_app.
    + rewrite (publish_same_gets env cfg parameter response _). cbn [calls].
      now rewrite gets_app.
  - destruct e; cbn [logger snd s3_store files calls log]; now rewrite gets_app.
Qed.

Lemma for_each_gets env cfg (ps : list string) : forall w,
  exists done rest,
    ps = done ++ rest
    /\ gets (calls (snd (for_each ps (process_parameter env cfg) w)))
       = gets (calls w) ++ map (request_url cfg) done
    /\ (fst (for_each ps (process_parameter env cfg) w) = Ok tt -> rest = []).
Proof.
  induction ps as [|p ps IH]; intros w.
  - exists [], []. cbn. now rewrite app_nil_r.
  - cbn [for_each]. unfold bind.
    pose proof (X3_run_sends_exactly_one_request env cfg p w) as Hp.
    destruct (process_parameter env cfg p w) as [[[]|e] w1]; cbn [snd] in Hp.
    + destruct (IH w1) as (done & rest & -> & Hg & Hok).
      exists (p :: done), rest. split; [reflexivity|]. split; [|exact Hok].
      rewrite Hg, Hp, <- app_assoc. reflexivity.
    + exists [p], ps. split; [reflexivity|]. split; [exact Hp | discriminate].
Qed.

(** X4.  The process sends one request per configured parameter, in the
    order of the list and one at a time: at any end the requests sent are
    those of a first part of the list, and of the whole list when the
    process ends normally. *)
Theorem X4_main_requests_follow_the_parameter_list
    (env : Env) (cfg : Config) (w : World) :
  exists done rest,
    PyStr.split (parameters cfg) "," = done ++ rest
    /\ gets (calls (snd (main env cfg w)))
       = gets (calls w) ++ map (request_url cfg) done
    /\ (fst (main env cfg w) = Ok tt -> rest = []).
Proof.
  destruct w as [s f c l]. unfold main, bind at 1, bind at 1, logger.
  cbn [s3_store files calls log].
  apply (for_each_gets env cfg (PyStr.split (parameters cfg) ",")
           (mkWorld s f c (l ++ [(INFO, Msg "Start ingesting DMI data.")]))).
Qed.

(** ** Local files *)

Lemma prefix_append (r x : string) : String.prefix r (r +:+ x) = true.
Proof.
  induction r as [|c r IH]; [now destruct x|].
  rewrite app_cons. cbn [String.prefix]. now destruct (ascii_dec c c).
Qed.

Lemma band_file_in_data_dir (t : Numpy.datetime64) :
  PyStr.startswith (band_output_file base_data_dir t) "/app/data/" = true.
Proof.
  unfold band_output_file, PyStr.startswith.
  rewrite path_join_base by apply no_slash_start, time_str_no_slash.
  apply prefix_append.
Qed.

(** X5.  Whatever the collaborators answer and however the run ends, a run
    creates, changes and removes local files in the data directory
    [/app/data/] only. *)
Theorem X5_run_keeps_files_outside_the_data_directory
    (env : Env) (cfg : Config) (parameter : string) (w : World) (p : string) :
  PyStr.startswith p "/app/data/" = false ->
  files (snd (process_parameter env cfg parameter w)) !! p = files w !! p.
Proof.
  intros Hp. revert p Hp.
  change (files_frame (fun p => PyStr.startswith p "/app/data/") w
            (snd (process_parameter env cfg parameter w))).
  revert w.
  apply (keeps_process_parameter _ (fun _ => True) (fun _ => True)
           (fun p => PyStr.startswith p "/app/data/" = true));
    try exact I; try reflexivity; try apply band_file_in_data_dir.
  - now intros w p _.
  - intros w1 w2 w3 H12 H23 p Hp. now rewrite (H23 p Hp), (H12 p Hp).
  - now intros s f c l l' p _.
  - intros s f c l p b Hp p' Hp'. cbn [files]. apply lookup_insert_ne. congruence.
  - intros s f c l p Hp p' Hp'. cbn [files]. apply lookup_delete_ne. congruence.
  - now intros s f c l k b _ p _.
  - now intros s f c l k b _ p _.
  - now intros s f c l p _ p' _.
  - now intros s f c l p _ p' _.
  - now intros s f c l u p _.
Qed.

Lemma X5_witness :
  files (snd (process_parameter env_ok example_cfg "sea-mean-deviation" stale_world))
    !! "/etc/passwd"
  = files stale_world !! "/etc/passwd".
Proof.
  apply (X5_run_keeps_files_outside_the_data_directory env_ok example_cfg
           "sea-mean-deviation" stale_world "/etc/passwd").
  reflexivity.
Defined.

(** ** How a run can end *)

Lemma band_files_other dataset folder times : forall band (f : gmap string Blob) p,
  (forall t, t ∈ times -> band_output_file folder t <> p) ->
  band_files dataset folder band times f !! p = f !! p.
Proof.
  induction times as [|t rest IH]; intros band f p Hp; [reflexivity|].
  cbn [band_files]. rewrite IH by (intros t' Ht'; apply Hp; now right).
  apply lookup_insert_ne. apply Hp. left.
Qed.

Lemma band_files_intermediate ds times band (f : gmap string Blob) :
  band_files (cog_of ds) base_data_dir band times (staged_files ds f) !! nc_filename
  = Some (NetCDF ds)
  /\ band_files (cog_of ds) base_data_dir band times (staged_files ds f) !! cog_filename
     = Some (cog_of ds).
Proof.
  split.
  - rewrite band_files_other, staged_nc; [reflexivity|].
    intros t _. apply band_file_not_intermediate.
  - rewrite band_files_other, staged_cog; [reflexivity|].
    intros t _. apply band_file_not_intermediate.
Qed.

(** X6.  When the fetch succeeds and the payload cannot be decoded, the run
    ends with the decoding error after the prior publication has been
    deleted: nothing is left at or below the target, nothing is written, and
    the local files are as before. *)
Theorem X6_undecodable_payload_leaves_the_target_empty
    (env : Env) (cfg : Config) (parameter : string) (response : Response)
    (e : Exn) (w : World) :
  requests_get_result env (request_url cfg parameter) = Ok response ->
  (400 <=? status_code response) && (status_code response <? 600) = false ->
  xarray_open_dataset env (content response) = Raise e ->
  process_parameter env cfg parameter w = (Raise e, after_delete cfg parameter w)
  /\ (forall k, under (bucket_path_full_of cfg parameter) k = true ->
                s3_store (after_delete cfg parameter w) !! k = None)
  /\ files (after_delete cfg parameter w) = files w
  /\ calls (after_delete cfg parameter w)
     = calls w ++ [CallGet (request_url cfg parameter);
                   CallRm (bucket_path_full_of cfg parameter)].
Proof.
  intros Hget Hstatus Hopen. split; [|split; [|split; reflexivity]].
  - destruct w as [s f c l].
    unfold process_parameter, bind at 1, logger at 1. cbn [s3_store files calls log].
    rewrite fetch_step, Hget, Hstatus. cbv zeta.
    unfold publish, bind at 1. rewrite delete_outdated_forecasts_step.
    unfold bind at 1, lift at 1. rewrite Hopen.
    unfold after_delete, fetch_log. cbn [s3_store files calls log].
    rewrite <- !app_assoc. reflexivity.
  - intros k Hk. unfold after_delete. cbn [s3_store].
    now apply delete_prefix_lookup_under.
Qed.

Lemma X6_witness :
  process_parameter
    {| requests_get_result := fun _ => Ok example_response;
       xarray_open_dataset := fun _ => Raise (ValueError "not a NetCDF file");
       s3_write_error := fun _ _ => None;
       rio_reproject_error := fun _ _ => None |}
    example_cfg "sea-mean-deviation" stale_world
  = (Raise (ValueError "not a NetCDF file"),
     after_delete example_cfg "sea-mean-deviation" stale_world).
Proof.
  apply (X6_undecodable_payload_leaves_the_target_empty
           {| requests_get_result := fun _ => Ok example_response;
              xarray_open_dataset := fun _ => Raise (ValueError "not a NetCDF file");
              s3_write_error := fun _ _ => None;
       rio_reproject_error := fun _ _ => None |}
           example_cfg "sea-mean-deviation" example_response
           (ValueError "not a NetCDF file") stale_world); reflexivity.
Defined.

(** X7.  When the write of a band is refused in a run whose keys are
    pairwise distinct, the store holds the bands of the timesteps before it,
    each under its key and from its own raster band, and no object for the
    refused timestep or any later one: what is published is a first part of
    the forecast timeline.  The intermediate array and raster files stay on
    the local disk, since the clean-up is not reached. *)
Theorem X7_refused_band_leaves_a_prefix_of_the_timeline
    (env : Env) (cfg : Config) (parameter : string) (response : Response)
    (ds0 ds : Dataset) (w : World)
    (pre : list Numpy.datetime64) (t : Numpy.datetime64) (post : list Numpy.datetime64)
    (e : Exn) :
  requests_get_result env (request_url cfg parameter) = Ok response ->
  (400 <=? status_code response) && (status_code response <? 600) = false ->
  xarray_open_dataset env (content response) = Ok ds0 ->
  normalize env cfg ds0 = Ok ds ->
  upload cfg = true ->
  ds_time ds = pre ++ t :: post ->
  NoDup (map time_str (ds_time ds)) ->
  (forall i t', pre !! i = Some t' ->
     s3_write_error env (length (calls w) + 2 + i)
       (bucket_file_of base_data_dir (bucket_name cfg) (bucket_path_of cfg parameter) t')
     = None) ->
  s3_write_error env (length (calls w) + 2 + length pre)
    (bucket_file_of base_data_dir (bucket_name cfg) (bucket_path_of cfg parameter) t)
  = Some e ->
  fst (process_parameter env cfg parameter w) = Raise e
  /\ (forall i t', pre !! i = Some t' ->
        s3_store (snd (process_parameter env cfg parameter w))
          !! bucket_file_of base_data_dir (bucket_name cfg) (bucket_path_of cfg parameter) t'
        = Some (Translated (cog_of ds) (band_options i)))
  /\ (forall t', t' ∈ t :: post ->
        s3_store (snd (process_parameter env cfg parameter w))
          !! bucket_file_of base_data_dir (bucket_name cfg) (bucket_path_of cfg parameter) t'
        = None)
  /\ files (snd (process_parameter env cfg parameter w)) !! nc_filename = Some (NetCDF ds)
  /\ files (snd (process_parameter env cfg parameter w)) !! cog_filename = Some (cog_of ds).
Proof.
  intros Hget Hstatus Hopen Hnorm Hup Htimes Hnd Hpre He. destruct w as [s f c l].
  cbn [calls] in *.
  rewrite (process_parameter_fetched env cfg parameter response ds0 ds) by assumption.
  assert (Hlen : length (c ++ [CallGet (request_url cfg parameter);
                               CallRm (bucket_path_full_of cfg parameter)])
                 = (length c + 2)%nat) by (rewrite length_app; reflexivity).
  rewrite (convert_and_upload_band_fail env cfg parameter ds pre t post e)
    by (rewrite ?Hlen; assumption).
  cbn [fst snd s3_store files]. rewrite Htimes, map_app in Hnd.
  apply NoDup_app in Hnd as (Hnd_pre & Hdisj & _).
  split; [reflexivity|]. split; [|split].
  - intros i t' Hi.
    apply (band_objects_lookup base_data_dir (bucket_name cfg) (bucket_path_of cfg parameter)
             (cog_of ds) pre 0 _ i t' Hnd_pre Hi).
  - intros t' Ht'. rewrite band_objects_other.
    + apply delete_prefix_lookup_under, under_band.
    + intros t0 Ht0 Heq. apply bucket_file_inj in Heq.
      apply (Hdisj (time_str t0)).
      * apply list_elem_of_fmap. now exists t0.
      * rewrite Heq. apply list_elem_of_fmap. now exists t'.
  - apply band_files_intermediate.
Qed.

Lemma X7_witness :
  fst (process_parameter (env_refusing 3) example_cfg "sea-mean-deviation" stale_world)
  = Raise (OSError "write refused")
  /\ s3_store (snd (process_parameter (env_refusing 3) example_cfg "sea-mean-deviation"
                      stale_world))
       !! "forecast-bucket/data/dmi/forecasts/dkss_if/sea-mean-deviation/20240301T000000.tif"
     = Some (Translated (cog_of (example_dataset example_times "payload")) (band_options 0))
  /\ s3_store (snd (process_parameter (env_refusing 3) example_cfg "sea-mean-deviation"
                      stale_world))
       !! "forecast-bucket/data/dmi/forecasts/dkss_if/sea-mean-deviation/20240301T060000.tif"
     = None.
Proof.
  destruct (X7_refused_band_leaves_a_prefix_of_the_timeline (env_refusing 3) example_cfg
              "sea-mean-deviation" example_response
              (example_dataset example_times "payload")
              (example_dataset example_times "payload") stale_world
              [1709251200000000000] 1709272800000000000 [1709294400000000000]
              (OSError "write refused"))
    as (Hr & Hpre & Hpost & _); try reflexivity.
  - vm_compute. repeat constructor; intros H; inversion H; subst;
      repeat match goal with
             | H : _ ∈ _ |- _ => inversion H; clear H; subst
             end.
  - intros [|i] t' Hi; [reflexivity | discriminate].
  - split; [exact Hr|]. split.
    + apply (Hpre 0%nat 1709251200000000000 eq_refl).
    + apply (Hpost 1709272800000000000). left.
Defined.

(** X8.  When every band write is accepted and the write of the manifest
    is refused, the run ends with that error: the bands are in the store,
    the store holds no manifest, and the manifest file and the intermediate
    files stay on the local disk. *)
Theorem X8_refused_manifest_leaves_bands_without_manifest
    (env : Env) (cfg : Config) (parameter : string) (response : Response)
    (ds0 ds : Dataset) (w : World) (e : Exn) :
  requests_get_result env (request_url cfg parameter) = Ok response ->
  (400 <=? status_code response) && (status_code response <? 600) = false ->
  xarray_open_dataset env (content response) = Ok ds0 ->
  normalize env cfg ds0 = Ok ds ->
  bands_accepted env cfg parameter ds (length (calls w) + 2) ->
  s3_write_error env (length (calls w) + 2 + length (band_uploads cfg parameter ds))
    (forecast_json_bucket_path_of cfg parameter) = Some e ->
  fst (process_parameter env cfg parameter w) = Raise e
  /\ s3_store (snd (process_parameter env cfg parameter w))
     = band_store cfg parameter ds
         (delete_prefix (bucket_path_full_of cfg parameter) (s3_store w))
  /\ s3_store (snd (process_parameter env cfg parameter w))
       !! forecast_json_bucket_path_of cfg parameter = None
  /\ files (snd (process_parameter env cfg parameter w)) !! forecast_json_filename
     = Some (Text (manifest_of cfg parameter ds))
  /\ files (snd (process_parameter env cfg parameter w)) !! nc_filename = Some (NetCDF ds)
  /\ files (snd (process_parameter env cfg parameter w)) !! cog_filename = Some (cog_of ds).
Proof.
  intros Hget Hstatus Hopen Hnorm Hacc He. destruct w as [s f c l]. cbn [calls s3_store] in *.
  rewrite (process_parameter_fetched env cfg parameter response ds0 ds) by assumption.
  assert (Hlen : length (c ++ [CallGet (request_url cfg parameter);
                               CallRm (bucket_path_full_of cfg parameter)])
                 = (length c + 2)%nat) by (rewrite length_app; reflexivity).
  rewrite convert_and_upload_bands_ok by now rewrite Hlen.
  cbv zeta. rewrite Hlen, He. cbn [fst snd s3_store files].
  destruct local_names_differ as (N1 & N2 & N3).
  split; [reflexivity|]. split; [reflexivity|]. split; [|split; [|split]].
  - unfold band_store. destruct (upload cfg).
    + rewrite band_objects_other by (intros t _; apply band_not_manifest).
      apply delete_prefix_lookup_under, under_manifest.
    + apply delete_prefix_lookup_under, under_manifest.
  - apply lookup_insert_eq.
  - rewrite lookup_insert_ne by congruence. apply band_files_intermediate.
  - rewrite lookup_insert_ne by congruence. apply band_files_intermediate.
Qed.

Lemma X8_witness :
  fst (process_parameter (env_refusing 5) example_cfg "sea-mean-deviation" stale_world)
  = Raise (OSError "write refused")
  /\ s3_store (snd (process_parameter (env_refusing 5) example_cfg "sea-mean-deviation"
                      stale_world))
       !! forecast_json_bucket_path_of example_cfg "sea-mean-deviation" = None.
Proof.
  destruct (X8_refused_manifest_leaves_bands_without_manifest (env_refusing 5) example_cfg
              "sea-mean-deviation" example_response
              (example_dataset example_times "payload")
              (example_dataset example_times "payload") stale_world
              (OSError "write refused"))
    as (Hr & _ & Hm & _); try reflexivity.
  - intros _ [|[|[|i]]] t' Hi; try reflexivity; discriminate.
  - split; [exact Hr | exact Hm].
Defined.

(** X9.  After a run that meets no refusal and whose dataset is normalized
    without an error, the three intermediate files
    are gone from the local disk and the band file of every timestep is
    still there: band files are never cleaned up. *)
Theorem X9_clean_up_removes_intermediate_files_only
    (env : Env) (cfg : Config) (parameter : string) (response : Response)
    (ds0 ds : Dataset) (w : World) :
  (forall n k, s3_write_error env n k = None) ->
  requests_get_result env (request_url cfg parameter) = Ok response ->
  (400 <=? status_code response) && (status_code response <? 600) = false ->
  xarray_open_dataset env (content response) = Ok ds0 ->
  normalize env cfg ds0 = Ok ds ->
  fst (process_parameter env cfg parameter w) = Ok tt
  /\ files (snd (process_parameter env cfg parameter w)) !! nc_filename = None
  /\ files (snd (process_parameter env cfg parameter w)) !! cog_filename = None
  /\ files (snd (process_parameter env cfg parameter w)) !! forecast_json_filename = None
  /\ (forall t, t ∈ ds_time ds0 ->
        is_Some (files (snd (process_parameter env cfg parameter w))
                   !! band_output_file base_data_dir t)).
Proof.
  intros Hw Hget Hstatus Hopen Hnorm.
  pose proof (normalize_time env cfg ds0 ds Hnorm) as Htime.
  destruct w as [s f c l].
  rewrite (process_parameter_ok env cfg parameter response ds0 ds) by assumption.
  cbn [fst snd files]. destruct local_names_differ as (N1 & N2 & N3).
  split; [reflexivity|]. unfold cleaned_files at 1 2 3.
  split; [now rewrite !lookup_delete_ne, lookup_delete_eq by congruence|].
  split; [now rewrite lookup_delete_ne, lookup_delete_eq by congruence|].
  split; [now rewrite lookup_delete_eq|].
  intros t Ht. rewrite cleaned_files_band. unfold band_local_files.
  apply band_files_lookup. now rewrite Htime.
Qed.

Lemma X9_witness :
  fst (process_parameter env_ok example_cfg "sea-mean-deviation" stale_world) = Ok tt
  /\ files (snd (process_parameter env_ok example_cfg "sea-mean-deviation" stale_world))
       !! nc_filename = None.
Proof.
  destruct (X9_clean_up_removes_intermediate_files_only env_ok example_cfg
              "sea-mean-deviation" example_response
              (example_dataset example_times "payload")
              (example_dataset example_times "payload") stale_world)
    as (Hr & Hnc & _); try reflexivity.
  split; [exact Hr | exact Hnc].
Defined.

(** ** The mapping of keys to addresses *)

Section Mapping.

Variable folder : string.
Variable bname : option string.
Variable bpath endpoint : string.

#[local] Abbreviation entries := (band_entries folder bname bpath endpoint).
#[local] Abbreviation url := (url_of_key bname bpath endpoint).

Lemma public_url_of_key (t : Numpy.datetime64) :
  public_url_of folder bname bpath endpoint t = url (time_str t).
Proof. unfold public_url_of, band_public_url, url_of_key. now rewrite band_basename. Qed.

Lemma dict_get_set (d : dict) (k v k' : string) :
  dict_get (dict_set d k v) k' = if String.eqb k k' then Some v else dict_get d k'.
Proof.
  induction d as [|[k0 v0] d IH].
  - cbn [dict_set dict_get]. reflexivity.
  - cbn [dict_set]. destruct (String.eqb_spec k0 k) as [->|Hne]; cbn [dict_get].
    + now destruct (String.eqb k k').
    + rewrite IH. destruct (String.eqb_spec k0 k') as [->|_]; [|reflexivity].
      now rewrite (proj2 (String.eqb_neq k k')) by congruence.
Qed.

Lemma dict_set_keys (d : dict) (k v : string) :
  map fst (dict_set d k v)
  = if bool_decide (k ∈ map fst d) then map fst d else map fst d ++ [k].
Proof.
  induction d as [|[k0 v0] d IH]; [reflexivity|].
  cbn [dict_set map fst]. destruct (String.eqb_spec k0 k) as [->|Hne].
  - cbn [map fst]. rewrite bool_decide_eq_true_2 by left. reflexivity.
  - cbn [map fst]. rewrite IH. destruct (bool_decide_reflect (k ∈ map fst d)) as [Hin|Hnin].
    + rewrite bool_decide_eq_true_2 by now right. reflexivity.
    + rewrite bool_decide_eq_false_2; [reflexivity|].
      intros H. apply elem_of_cons in H as [->|H]; [congruence | contradiction].
Qed.

Lemma dict_set_NoDup (d : dict) (k v : string) :
  NoDup (map fst d) -> NoDup (map fst (dict_set d k v)).
Proof.
  intros Hd. rewrite dict_set_keys.
  destruct (bool_decide_reflect (k ∈ map fst d)) as [Hin|Hnin]; [exact Hd|].
  apply NoDup_app. split; [exact Hd|]. split; [|apply NoDup_singleton].
  intros x Hx Hk. apply list_elem_of_singleton in Hk. now subst.
Qed.

Lemma dict_set_length (d : dict) (k v : string) :
  (length (dict_set d k v) <= S (length d))%nat.
Proof.
  induction d as [|[k0 v0] d IH]; [reflexivity|].
  cbn [dict_set]. destruct (String.eqb k0 k); cbn [length]; lia.
Qed.

(** The mapping after the loop: the keys are distinct, and a key has the
    address of that key if it was there before or belongs to a timestep. *)
Lemma band_entries_spec times : forall fc,
  NoDup (map fst fc) ->
  (forall k v, dict_get fc k = Some v -> v = url k) ->
  NoDup (map fst (entries times fc))
  /\ (forall k v, dict_get (entries times fc) k = Some v -> v = url k)
  /\ (forall t, t ∈ times -> dict_get (entries times fc) (time_str t) = Some (url (time_str t)))
  /\ (forall k, dict_get fc k = None -> k ∉ map time_str times ->
                dict_get (entries times fc) k = None)
  /\ (forall k, is_Some (dict_get fc k) -> is_Some (dict_get (entries times fc) k))
  /\ (length (entries times fc) <= length fc + length times)%nat.
Proof.
  induction times as [|t rest IH]; intros fc Hnd Hurl.
  - cbn [band_entries length]. repeat split; auto.
    + intros t Ht. now apply not_elem_of_nil in Ht.
    + lia.
  - cbn [band_entries]. rewrite public_url_of_key.
    destruct (IH (dict_set fc (time_str t) (url (time_str t))))
      as (H1 & H2 & H3 & H4 & H5 & H6).
    + now apply dict_set_NoDup.
    + intros k v. rewrite dict_get_set.
      destruct (String.eqb_spec (time_str t) k) as [<-|_]; [now intros [= <-] | apply Hurl].
    + split; [exact H1|]. split; [exact H2|]. split; [|split; [|split]].
      * intros t' Ht'. apply elem_of_cons in Ht' as [->|Ht']; [|now apply H3].
        destruct (H5 (time_str t)) as [v Hv].
        { rewrite dict_get_set, String.eqb_refl. eauto. }
        rewrite Hv. f_equal. now apply H2.
      * intros k Hk Hnin. cbn [map] in Hnin. apply not_elem_of_cons in Hnin as [Hne Hnin].
        apply H4; [|exact Hnin]. rewrite dict_get_set.
        now rewrite (proj2 (String.eqb_neq (time_str t) k)) by congruence.
      * intros k Hk. apply H5. rewrite dict_get_set.
        destruct (String.eqb (time_str t) k); [eauto | exact Hk].
      * pose proof (dict_set_length fc (time_str t) (url (time_str t))).
        cbn [length]. lia.
Qed.

End Mapping.

(** X10.  For every list of timesteps, also with several timesteps in one
    second, the mapping that the upload returns has pairwise distinct keys
    and at most one entry per timestep; every timestep's key is mapped to
    the public address of that key, and no other key is in it. *)
Theorem X10_mapping_has_an_address_for_every_key
    (env : Env) (cog_file folder : string) (times : list Numpy.datetime64)
    (bname : option string) (bpath endpoint : string) (key secret : option string)
    (dataset : Blob) (n : nat) (w : World) :
  files w !! cog_file = Some dataset ->
  band_count dataset = Some n ->
  (length times <= n)%nat ->
  (forall i t, times !! i = Some t ->
     s3_write_error env (length (calls w) + i) (bucket_file_of folder bname bpath t) = None) ->
  exists d,
    fst (transform_cog_to_single_bands_and_upload_to_bucket env cog_file folder times
           bname bpath endpoint key secret true w) = Ok d
    /\ NoDup (map fst d)
    /\ (length d <= length times)%nat
    /\ (forall t, t ∈ times ->
          dict_get d (time_str t) = Some (url_of_key bname bpath endpoint (time_str t)))
    /\ (forall k, k ∉ map time_str times -> dict_get d k = None).
Proof.
  intros Hcog Hbands Hlen Hacc. destruct w as [s f c l]. cbn [files calls] in *.
  unfold transform_cog_to_single_bands_and_upload_to_bucket, bind at 1, read_file.
  cbn [files]. rewrite Hcog.
  rewrite (loop_upload_ok env dataset folder _ n bname bpath endpoint key secret Hbands)
    by (cbn [Nat.add]; assumption).
  eexists. split; [reflexivity|].
  destruct (band_entries_spec folder bname bpath endpoint times [])
    as (H1 & _ & H3 & H4 & _ & H6); [constructor | discriminate |].
  split; [exact H1|]. split; [exact H6|]. split; [exact H3|].
  intros k Hk. now apply H4.
Qed.

Lemma X10_witness :
  exists d,
    fst (transform_cog_to_single_bands_and_upload_to_bucket env_ok cog_filename
           base_data_dir same_second_times (Some "forecast-bucket")
           "data/dmi/forecasts/dkss_if/sea-mean-deviation"
           "https://obs.eu-de.otc.t-systems.com" None None true
           (mkWorld ∅ (staged_files (example_dataset same_second_times "payload") ∅) [] []))
    = Ok d
    /\ NoDup (map fst d)
    /\ (length d <= length same_second_times)%nat
    /\ (forall t, t ∈ same_second_times ->
          dict_get d (time_str t)
          = Some (url_of_key (Some "forecast-bucket")
                    "data/dmi/forecasts/dkss_if/sea-mean-deviation"
                    "https://obs.eu-de.otc.t-systems.com" (time_str t)))
    /\ (forall k, k ∉ map time_str same_second_times -> dict_get d k = None).
Proof.
  apply (X10_mapping_has_an_address_for_every_key env_ok cog_filename base_data_dir
           same_second_times (Some "forecast-bucket")
           "data/dmi/forecasts/dkss_if/sea-mean-deviation"
           "https://obs.eu-de.otc.t-systems.com" None None
           (cog_of (example_dataset same_second_times "payload")) 2
           (mkWorld ∅ (staged_files (example_dataset same_second_times "payload") ∅) [] [])).
  - apply lookup_insert_eq.
  - reflexivity.
  - cbn [length same_second_times]. lia.
  - reflexivity.
Defined.

(** ** The key and the sub-second part *)

Lemma day_of_seconds (t : Z) :
  t / Numpy.ns_per_day = whole_seconds t / 86400.
Proof.
  unfold whole_seconds, Numpy.ns_per_day.
  rewrite Z.div_div by (unfold Numpy.ns_per_second; lia).
  f_equal; lia.
Qed.

Lemma second_of_day_of_seconds (t : Z) :
  Numpy.second_of_day t = whole_seconds t mod 86400.
Proof.
  unfold Numpy.second_of_day, whole_seconds, Numpy.ns_per_day.
  replace (86400 * Numpy.ns_per_second) with (Numpy.ns_per_second * 86400) by lia.
  rewrite Z.rem_mul_r by (unfold Numpy.ns_per_second; lia).
  rewrite Z.add_comm, Z.mul_comm, Z.div_add_l by (unfold Numpy.ns_per_second; lia).
  rewrite (Z.div_small (t mod Numpy.ns_per_second))
    by (apply Z.mod_pos_bound; unfold Numpy.ns_per_second; lia).
  lia.
Qed.

(** X11.  The key of a timestep depends on its whole second only: two
    timestamps of the same second have the same key, whatever their
    sub-second parts. *)
Theorem X11_key_ignores_the_sub_second_part (t1 t2 : Numpy.datetime64) :
  t1 <> Numpy.NaT -> t2 <> Numpy.NaT ->
  whole_seconds t1 = whole_seconds t2 ->
  time_str t1 = time_str t2.
Proof.
  intros H1 H2 Hs. rewrite !time_str_digits by assumption.
  unfold date_digits, clock_digits, Numpy.date_of, Numpy.hour, Numpy.minute, Numpy.second.
  now rewrite !day_of_seconds, !second_of_day_of_seconds, Hs.
Qed.

Lemma X11_witness :
  time_str 1709294400000000000 = time_str t_2024_03_01_12_00_00_5.
Proof.
  apply (X11_key_ignores_the_sub_second_part 1709294400000000000 t_2024_03_01_12_00_00_5).
  - unfold Numpy.NaT. lia.
  - unfold Numpy.NaT, t_2024_03_01_12_00_00_5. lia.
  - vm_compute. reflexivity.
Defined.

(** ** The address for a host name outside the stripped set *)

Lemma lstrip_outside (chars s : string) :
  starts_outside chars s = true -> PyStr.lstrip s chars = s.
Proof.
  destruct s as [|c s]; [reflexivity|]. cbn [starts_outside PyStr.lstrip].
  now destruct (PyStr.occurs c chars).
Qed.

Lemma outside_scheme_set (s : string) :
  starts_outside "htps:/" s = true -> starts_outside "https://" s = true.
Proof.
  destruct s as [|c s]; [reflexivity|]. cbn [starts_outside PyStr.occurs].
  repeat (destruct (Ascii.eqb c _); [discriminate|]). reflexivity.
Qed.

(** X12.  For a host name that starts with none of the characters h, t, p,
    s, colon, slash, the stripping removes exactly the scheme: the endpoints
    [https://host], [http://host] and [host] all give the address
    [https://{bucket}.{host}/{path}/{key}.tif]. *)
Theorem X12_scheme_is_stripped_when_the_host_starts_outside_the_set
    (bname : option string) (bpath host folder : string) (t : Numpy.datetime64) :
  starts_outside "htps:/" host = true ->
  PyStr.lstrip ("https://" +:+ host) "https://" = host
  /\ PyStr.lstrip ("http://" +:+ host) "https://" = host
  /\ PyStr.lstrip host "https://" = host
  /\ band_public_url bname bpath ("https://" +:+ host) (band_output_file folder t)
     = "https://" +:+ PyStr.fmt bname +:+ "." +:+ host +:+ "/" +:+ bpath +:+ "/"
         +:+ time_str t +:+ ".tif".
Proof.
  intros Hhost. apply outside_scheme_set in Hhost.
  assert (E1 : PyStr.lstrip ("https://" +:+ host) "https://" = host)
    by (rewrite lstrip_app_in by reflexivity; now apply lstrip_outside).
  split; [exact E1|]. split; [|split].
  - rewrite lstrip_app_in by reflexivity. now apply lstrip_outside.
  - now apply lstrip_outside.
  - unfold band_public_url. now rewrite band_basename, E1.
Qed.

Lemma X12_witness :
  PyStr.lstrip ("https://" +:+ "obs.eu-de.otc.t-systems.com") "https://"
  = "obs.eu-de.otc.t-systems.com".
Proof.
  apply (X12_scheme_is_stripped_when_the_host_starts_outside_the_set
           (Some "forecast-bucket") "data/dmi/forecasts/dkss_if/sea-mean-deviation"
           "obs.eu-de.otc.t-systems.com" base_data_dir 1709272800000000000).
  reflexivity.
Defined.

(** ** Splitting the list of parameters *)

Lemma split_from_one (c x : ascii) (r : string) :
  PyStr.split_from (String c "") 0 (String x r) =
  if Ascii.eqb c x
  then ("", fst (PyStr.split_from (String c "") 0 r)
            :: snd (PyStr.split_from (String c "") 0 r))
  else (String x (fst (PyStr.split_from (String c "") 0 r)),
        snd (PyStr.split_from (String c "") 0 r)).
Proof.
  cbn [PyStr.split_from]. rewrite prefix_one. cbn [String.length Nat.sub].
  destruct (Ascii.eqb c x); now destruct (PyStr.split_from (String c "") 0 r).
Qed.

Lemma split_one_cons (c x : ascii) (r : string) :
  PyStr.split (String x r) (String c "") =
  if Ascii.eqb c x
  then "" :: PyStr.split r (String c "")
  else match PyStr.split r (String c "") with
       | p :: ps => String x p :: ps
       | [] => [String x ""]
       end.
Proof.
  unfold PyStr.split. rewrite split_from_one.
  destruct (Ascii.eqb c x); now destruct (PyStr.split_from (String c "") 0 r).
Qed.

Lemma join_cons (sep x y : string) (r : list string) :
  PyStr.join sep (x :: y :: r) = x +:+ sep +:+ PyStr.join sep (y :: r).
Proof. reflexivity. Qed.

Lemma split_one_spec (c : ascii) (s : string) :
  PyStr.join (String c "") (PyStr.split s (String c "")) = s
  /\ Forall (fun p => PyStr.occurs c p = false) (PyStr.split s (String c ""))
  /\ length (PyStr.split s (String c "")) = S (count_char c s).
Proof.
  induction s as [|x s (Hj & Hf & Hl)].
  - repeat split. repeat constructor.
  - rewrite split_one_cons. cbn [count_char].
    destruct (PyStr.split s (String c "")) as [|p ps] eqn:Es; [discriminate|].
    destruct (Ascii.eqb c x) eqn:Ex.
    + apply Ascii.eqb_eq in Ex. subst x. repeat split.
      * rewrite join_cons, Hj. reflexivity.
      * constructor; [reflexivity | exact Hf].
      * cbn [length] in *. lia.
    + repeat split.
      * destruct ps as [|q ps].
        -- cbn [PyStr.join] in *. now rewrite Hj.
        -- rewrite join_cons in *. rewrite app_cons, Hj. reflexivity.
      * apply Forall_cons in Hf as [Hp Hps]. constructor; [|exact Hps].
        cbn [PyStr.occurs]. now rewrite Ex.
      * cbn [length] in *. lia.
Qed.

(** X13.  Splitting the configured list at the commas loses nothing and
    trims nothing: the names joined by commas give the configured string
    back, no name contains a comma, and there is one name more than there
    are commas, so at least one, the empty name included. *)
Theorem X13_parameter_names_are_the_pieces_between_commas (cfg : Config) :
  PyStr.join "," (PyStr.split (parameters cfg) ",") = parameters cfg
  /\ Forall (fun p => PyStr.occurs "," p = false) (PyStr.split (parameters cfg) ",")
  /\ length (PyStr.split (parameters cfg) ",") = S (count_char "," (parameters cfg)).
Proof. apply (split_one_spec "," (parameters cfg)). Qed.

(** ** When every fetch fails *)

Lemma process_parameter_fetch_failed env cfg parameter response w :
  requests_get_result env (request_url cfg parameter) = Ok response ->
  400 <= status_code response < 600 ->
  process_parameter env cfg parameter w = (Ok tt, fetch_failed cfg parameter response w).
Proof.
  intros Hget Hstatus. destruct w as [s f c l].
  unfold process_parameter, bind at 1, logger at 1. cbn [s3_store files calls log].
  rewrite fetch_step, Hget. cbv zeta.
  replace ((400 <=? status_code response) && (status_code response <? 600)) with true
    by (symmetry; apply andb_true_intro; split; [apply Z.leb_le | apply Z.ltb_lt]; lia).
  unfold logger, fetch_log, fetch_failed. cbn [s3_store files calls log].
  rewrite <- !app_assoc. reflexivity.
Qed.

Lemma for_each_all_fail env cfg (ps : list string) : forall w,
  (forall p, p ∈ ps ->
     exists response,
       requests_get_result env (request_url cfg p) = Ok response
       /\ 400 <= status_code response < 600) ->
  fst (for_each ps (process_parameter env cfg) w) = Ok tt
  /\ s3_store (snd (for_each ps (process_parameter env cfg) w)) = s3_store w
  /\ files (snd (for_each ps (process_parameter env cfg) w)) = files w
  /\ calls (snd (for_each ps (process_parameter env cfg) w))
     = calls w ++ map (fun p => CallGet (request_url cfg p)) ps.
Proof.
  induction ps as [|p ps IH]; intros w Hall.
  - cbn. now rewrite app_nil_r.
  - destruct (Hall p) as (response & Hget & Hstatus); [left|].
    cbn [for_each]. unfold bind.
    rewrite (process_parameter_fetch_failed env cfg p response w Hget Hstatus).
    destruct (IH (fetch_failed cfg p response w)) as (H1 & H2 & H3 & H4).
    { intros q Hq. apply Hall. now right. }
    rewrite H1, H2, H3, H4. unfold fetch_failed. cbn [s3_store files calls map].
    rewrite <- app_assoc. repeat split.
Qed.

(** X14.  When every fetch is answered with an error status, the process
    ends normally after one request per parameter, in the order of the
    list, and the store and the local files are as they were. *)
Theorem X14_process_completes_when_every_fetch_fails
    (env : Env) (cfg : Config) (w : World) :
  (forall p, p ∈ PyStr.split (parameters cfg) "," ->
     exists response,
       requests_get_result env (request_url cfg p) = Ok response
       /\ 400 <= status_code response < 600) ->
  fst (main env cfg w) = Ok tt
  /\ s3_store (snd (main env cfg w)) = s3_store w
  /\ files (snd (main env cfg w)) = files w
  /\ calls (snd (main env cfg w))
     = calls w ++ map (fun p => CallGet (request_url cfg p))
                    (PyStr.split (parameters cfg) ",").
Proof.
  intros Hall. unfold main, bind at 1 2 3 4, logger. fold (started w).
  apply (for_each_all_fail env cfg _ (started w) Hall).
Qed.

Lemma X14_witness :
  fst (main env_not_found two_parameters stale_world) = Ok tt
  /\ s3_store (snd (main env_not_found two_parameters stale_world)) = s3_store stale_world
  /\ files (snd (main env_not_found two_parameters stale_world)) = files stale_world
  /\ calls (snd (main env_not_found two_parameters stale_world))
     = calls stale_world ++ map (fun p => CallGet (request_url two_parameters p))
                              (PyStr.split (parameters two_parameters) ",").
Proof.
  apply (X14_process_completes_when_every_fetch_fails env_not_found two_parameters
           stale_world).
  intros p _. exists {| status_code := 404; content := "" |}.
  split; [reflexivity | cbn [status_code]; lia].
Defined.

(** ** Deleting a publication *)

(** X15.  For every store, [delete_outdated_forecasts] returns normally;
    afterwards no object is at or below the path and every other object is
    as before, also an object whose key only starts with the letters of the
    path (a parameter whose name continues the name of this one).  The one
    call it makes is the recursive removal. *)
Theorem X15_deletion_removes_the_target_and_nothing_else
    (path endpoint_url : string) (key secret : option string) (w : World) :
  fst (delete_outdated_forecasts path endpoint_url key secret w) = Ok tt
  /\ (forall k, under path k = true ->
        s3_store (snd (delete_outdated_forecasts path endpoint_url key secret w)) !! k = None)
  /\ (forall k, under path k = false ->
        s3_store (snd (delete_outdated_forecasts path endpoint_url key secret w)) !! k
        = s3_store w !! k)
  /\ (forall (c : ascii) (x : string), c <> "/"%char ->
        under path (rstrip_slash path +:+ String c x) = false)
  /\ files (snd (delete_outdated_forecasts path endpoint_url key secret w)) = files w
  /\ calls (snd (delete_outdated_forecasts path endpoint_url key secret w))
     = calls w ++ [CallRm path].
Proof.
  destruct w as [s f c l]. rewrite delete_outdated_forecasts_step.
  cbn [fst snd s3_store files calls].
  split; [reflexivity|]. split; [|split; [|split; [|split; reflexivity]]].
  - intros k Hk. now apply delete_prefix_lookup_under.
  - intros k Hk. now apply delete_prefix_lookup_other.
  - intros c0 x Hc. unfold under. apply orb_false_intro.
    + apply String.eqb_neq. intros H. apply (f_equal String.length) in H.
      rewrite string_length_app in H. cbn [String.length] in H. lia.
    + change (rstrip_slash path +:+ "/") with (rstrip_slash path +:+ String "/" "").
      rewrite prefix_app, prefix_one. apply Ascii.eqb_neq. congruence.
Qed.

Lemma X15_witness :
  s3_store (snd (delete_outdated_forecasts
                   "forecast-bucket/data/dmi/forecasts/dkss_if/sea-mean-deviation"
                   "https://obs.eu-de.otc.t-systems.com" None None stale_world))
    !! "forecast-bucket/data/dmi/forecasts/dkss_if/sea-mean-deviation/20240229T180000.tif"
  = None.
Proof.
  apply (X15_deletion_removes_the_target_and_nothing_else
           "forecast-bucket/data/dmi/forecasts/dkss_if/sea-mean-deviation"
           "https://obs.eu-de.otc.t-systems.com" None None stale_world).
  vm_compute. reflexivity.
Defined.

(** ** Uploading one file *)

(** X16.  [upload_to_bucket] of a local file that does not exist raises
    [FileNotFoundError] before any call to the store.  Of a file that
    exists, an accepted write leaves the content of the file under the key
    and every other object as before, and a refused write raises and leaves
    the store as it was. *)
Theorem X16_upload_writes_the_local_file_or_nothing
    (env : Env) (local_file bucket_file endpoint_url : string)
    (key secret : option string) (w : World) :
  (files w !! local_file = None ->
   fst (upload_to_bucket env local_file bucket_file endpoint_url key secret w)
   = Raise (FileNotFoundError local_file)
   /\ s3_store (snd (upload_to_bucket env local_file bucket_file endpoint_url key secret w))
      = s3_store w
   /\ calls (snd (upload_to_bucket env local_file bucket_file endpoint_url key secret w))
      = calls w)
  /\ (forall b, files w !! local_file = Some b ->
        s3_write_error env (length (calls w)) bucket_file = None ->
        fst (upload_to_bucket env local_file bucket_file endpoint_url key secret w) = Ok tt
        /\ s3_store (snd (upload_to_bucket env local_file bucket_file endpoint_url key
                            secret w)) !! bucket_file = Some b
        /\ (forall k, k <> bucket_file ->
              s3_store (snd (upload_to_bucket env local_file bucket_file endpoint_url key
                                secret w)) !! k = s3_store w !! k))
  /\ (forall b e, files w !! local_file = Some b ->
        s3_write_error env (length (calls w)) bucket_file = Some e ->
        fst (upload_to_bucket env local_file bucket_file endpoint_url key secret w) = Raise e
        /\ s3_store (snd (upload_to_bucket env local_file bucket_file endpoint_url key
                            secret w)) = s3_store w).
Proof.
  destruct w as [s f c l]. cbn [files calls s3_store]. split; [|split].
  - intros Hf. unfold upload_to_bucket, bind, logger, read_file.
    cbn [s3_store files calls log]. rewrite Hf. repeat split.
  - intros b Hf Hw. rewrite (upload_to_bucket_step env _ _ _ _ _ b) by exact Hf.
    rewrite Hw. cbn [fst snd s3_store]. split; [reflexivity|].
    split; [apply lookup_insert_eq|]. intros k Hk. now apply lookup_insert_ne.
  - intros b e Hf Hw. rewrite (upload_to_bucket_step env _ _ _ _ _ b) by exact Hf.
    rewrite Hw. split; reflexivity.
Qed.

Lemma X16_witness :
  fst (upload_to_bucket env_ok "/app/data/forecasts.json"
         "forecast-bucket/data/dmi/forecasts/dkss_if/sea-mean-deviation/forecasts.json"
         "https://obs.eu-de.otc.t-systems.com" None None stale_world)
  = Raise (FileNotFoundError "/app/data/forecasts.json").
Proof.
  apply (X16_upload_writes_the_local_file_or_nothing env_ok "/app/data/forecasts.json"
           "forecast-bucket/data/dmi/forecasts/dkss_if/sea-mean-deviation/forecasts.json"
           "https://obs.eu-de.otc.t-systems.com" None None stale_world).
  reflexivity.
Defined.

(** ** Normalization and the time axis *)

(** X17.  Whenever normalization returns a dataset, that dataset has the
    time axis of the fetched one, also when the fetched dataset carries no
    reference or another one: with or without reprojection, the keys, the
    mapping and the manifest of a run are those of the fetched timestamps,
    and the raster has one band per fetched timestep.  For a HARMONIE
    collection a reference that the fetched dataset carries is overwritten
    and changes nothing.  Normalization can fail, when the reprojection is
    refused; nothing is said of that case here. *)
Theorem X17_normalization_keeps_the_timesteps
    (env : Env) (cfg : Config) (parameter : string) (ds0 ds : Dataset) :
  normalize env cfg ds0 = Ok ds ->
  ds_time ds = ds_time ds0
  /\ band_count (cog_of ds) = Some (length (ds_time ds0))
  /\ forecasts_of cfg parameter ds = forecasts_of cfg parameter ds0
  /\ manifest_of cfg parameter ds = manifest_of cfg parameter ds0
  /\ (PyStr.startswith (collection cfg) "harmonie" = true ->
      forall crs, normalize env cfg (rio_write_crs ds0 crs) = Ok ds).
Proof.
  intros Hnorm.
  pose proof (normalize_time env cfg ds0 ds Hnorm) as Htime.
  split; [exact Htime|]. split; [|split; [|split]].
  - cbn [band_count cog_of]. now rewrite Htime.
  - unfold forecasts_of. now rewrite Htime.
  - unfold manifest_of, forecasts_of. now rewrite Htime.
  - intros Hh crs. rewrite <- Hnorm. unfold normalize. rewrite Hh. reflexivity.
Qed.

Lemma X17_witness :
  normalize env_ok (with_collection example_cfg "harmonie_dini_sf")
    (rio_write_crs (example_dataset example_times "payload") (CRS_from_user_input "crs84"))
  = Ok (reprojected (example_dataset example_times "payload")).
Proof.
  destruct (X17_normalization_keeps_the_timesteps env_ok
              (with_collection example_cfg "harmonie_dini_sf") "wind-speed"
              (example_dataset example_times "payload")
              (reprojected (example_dataset example_times "payload")) eq_refl)
    as (_ & _ & _ & _ & Hcrs).
  apply Hcrs. reflexivity.
Defined.

(** ** The names of the band files *)

(** X18.  The band file of a timestep is never one of the three
    intermediate files: the band loop does not overwrite the raster it
    reads from, and the clean-up removes no band file. *)
Theorem X18_band_files_are_not_intermediate_files (t : Numpy.datetime64) :
  band_output_file base_data_dir t <> nc_filename
  /\ band_output_file base_data_dir t <> cog_filename
  /\ band_output_file base_data_dir t <> forecast_json_filename
  /\ band_output_file base_data_dir t = "/app/data/" +:+ time_str t +:+ ".tif".
Proof.
  destruct (band_file_not_intermediate t) as (H1 & H2 & H3).
  repeat split; try assumption.
  unfold band_output_file. apply path_join_base, no_slash_start, time_str_no_slash.
Qed.

(** ** The single-parameter pipeline *)

Lemma rstrip_slash_app_slash (p : string) : rstrip_slash (p +:+ "/") = rstrip_slash p.
Proof.
  induction p as [|c p IH]; [reflexivity|].
  rewrite app_cons. cbn [rstrip_slash]. now rewrite IH.
Qed.

Lemma under_trailing_slash (p k : string) : under (p +:+ "/") k = under p k.
Proof. unfold under. now rewrite rstrip_slash_app_slash. Qed.

Lemma delete_prefix_trailing_slash (p : string) (s : gmap string Blob) :
  delete_prefix (p +:+ "/") s = delete_prefix p s.
Proof.
  unfold delete_prefix. apply map_filter_ext. intros k b _.
  cbn [fst]. now rewrite under_trailing_slash.
Qed.

Lemma legacy_bucket_path (cfg : Ingester.Config) :
  Ingester.bucket_path_of cfg = Ingester.target_of cfg +:+ "/".
Proof.
  unfold Ingester.bucket_path_of, Ingester.target_of, Ingester.bucket_path_below.
  now rewrite !append_assoc.
Qed.

Lemma legacy_band_key (bname : option string) (bpath output_file : string) :
  (PyStr.fmt bname +:+ "/" +:+ bpath +:+ "/") +:+ PyStr.basename output_file
  = band_bucket_file bname bpath output_file.
Proof. unfold band_bucket_file. now rewrite !append_assoc. Qed.

(** One turn of each band loop, case by case. *)
Lemma loop_turn env dataset folder n bname bpath endpoint key secret up band t rest fc w :
  transform_loop env dataset folder n bname bpath endpoint key secret up band (t :: rest) fc w
  = match gdal_Translate (band_output_file folder t) dataset (band_options band) w with
    | (Raise e, w1) => (Raise e, w1)
    | (Ok _, w1) =>
        if up
        then match upload_to_bucket env (band_output_file folder t)
                     (band_bucket_file bname bpath (band_output_file folder t))
                     endpoint key secret w1 with
             | (Raise e, w2) => (Raise e, w2)
             | (Ok _, w2) =>
                 transform_loop env dataset folder n bname bpath endpoint key secret up
                   (S band) rest
                   (dict_set fc (time_str t)
                      (band_public_url bname bpath endpoint (band_output_file folder t)))
                   (if (band mod 10 =? 0)%nat
                    then snd (logger INFO
                                (Msg ("Uploaded " +:+ PyStr.str_nat band +:+ " of "
                                        +:+ PyStr.str_nat n +:+ " files.")) w2)
                    else w2)
             end
        else transform_loop env dataset folder n bname bpath endpoint key secret up
               (S band) rest fc w1
    end.
Proof.
  cbn [transform_loop]. unfold bind.
  destruct (gdal_Translate _ _ _ w) as [[[]|e] w1]; [|reflexivity].
  destruct up; [|reflexivity].
  destruct (upload_to_bucket _ _ _ _ _ _ w1) as [[[]|e] w2]; [|reflexivity].
  destruct (band mod 10 =? 0)%nat; reflexivity.
Qed.

Lemma legacy_loop_turn env dataset folder n bucket_path endpoint key secret up band t rest w :
  Ingester.transform_loop env dataset folder n bucket_path endpoint key secret up band
    (t :: rest) w
  = match gdal_Translate (band_output_file folder t) dataset (band_options band) w with
    | (Raise e, w1) => (Raise e, w1)
    | (Ok _, w1) =>
        if up
        then match upload_to_bucket env (band_output_file folder t)
                     (bucket_path +:+ PyStr.basename (band_output_file folder t))
                     endpoint key secret w1 with
             | (Raise e, w2) => (Raise e, w2)
             | (Ok _, w2) =>
                 Ingester.transform_loop env dataset folder n bucket_path endpoint key
                   secret up (S band) rest
                   (if (band mod 10 =? 0)%nat
                    then snd (logger INFO
                                (Msg ("Uploaded " +:+ PyStr.str_nat band +:+ " of "
                                        +:+ PyStr.str_nat n +:+ " files.")) w2)
                    else w2)
             end
        else Ingester.transform_loop env dataset folder n bucket_path endpoint key secret
               up (S band) rest w1
    end.
Proof.
  cbn [Ingester.transform_loop]. unfold bind.
  destruct (gdal_Translate _ _ _ w) as [[[]|e] w1]; [|reflexivity].
  destruct up; [|reflexivity].
  destruct (upload_to_bucket _ _ _ _ _ _ w1) as [[[]|e] w2]; [|reflexivity].
  destruct (band mod 10 =? 0)%nat; reflexivity.
Qed.

(** The band loop of the single-parameter pipeline acts on the world as the
    one of the multi-parameter pipeline does. *)
Lemma legacy_loop_simulation env dataset folder n bname bpath endpoint key secret up times :
  forall band fc w,
    Ingester.transform_loop env dataset folder n (PyStr.fmt bname +:+ "/" +:+ bpath +:+ "/")
      endpoint key secret up band times w
    = (match fst (transform_loop env dataset folder n bname bpath endpoint key secret up
                    band times fc w) with
       | Ok _ => Ok tt
       | Raise e => Raise e
       end,
       snd (transform_loop env dataset folder n bname bpath endpoint key secret up
              band times fc w)).
Proof.
  induction times as [|t rest IH]; intros band fc w; [reflexivity|].
  rewrite loop_turn, legacy_loop_turn, legacy_band_key.
  destruct (gdal_Translate _ _ _ w) as [[[]|e] w1]; [|reflexivity].
  destruct up; [|apply IH].
  destruct (upload_to_bucket _ _ _ _ _ _ w1) as [[[]|e] w2]; [|reflexivity].
  apply IH.
Qed.

Lemma legacy_transform_simulation env cog_file folder times bname bpath endpoint key secret
    up w :
  Ingester.transform_cog_to_single_bands_and_upload_to_bucket env cog_file folder times
    (PyStr.fmt bname +:+ "/" +:+ bpath +:+ "/") endpoint key secret up w
  = (match fst (transform_cog_to_single_bands_and_upload_to_bucket env cog_file folder
                  times bname bpath endpoint key secret up w) with
     | Ok _ => Ok tt
     | Raise e => Raise e
     end,
     snd (transform_cog_to_single_bands_and_upload_to_bucket env cog_file folder times
            bname bpath endpoint key secret up w)).
Proof.
  unfold Ingester.transform_cog_to_single_bands_and_upload_to_bucket,
    transform_cog_to_single_bands_and_upload_to_bucket, bind.
  destruct (read_file cog_file w) as [[dataset|e] w1]; [|reflexivity].
  apply legacy_loop_simulation.
Qed.

(** X19.  The band loops of the two pipelines act on the world in the same
    way: with the bucket path of the single-parameter pipeline written as
    [{bucket}/{path}/], both leave the same objects under the same keys,
    the same local files, the same calls and the same log, and both end
    with the same error if they end with one. *)
Theorem X19_both_pipelines_publish_bands_alike
    (env : Env) (cog_file folder : string) (times : list Numpy.datetime64)
    (bname : option string) (bpath endpoint : string) (key secret : option string)
    (up : bool) (w : World) :
  Ingester.transform_cog_to_single_bands_and_upload_to_bucket env cog_file folder times
    (PyStr.fmt bname +:+ "/" +:+ bpath +:+ "/") endpoint key secret up w
  = (match fst (transform_cog_to_single_bands_and_upload_to_bucket env cog_file folder
                  times bname bpath endpoint key secret up w) with
     | Ok _ => Ok tt
     | Raise e => Raise e
     end,
     snd (transform_cog_to_single_bands_and_upload_to_bucket env cog_file folder times
            bname bpath endpoint key secret up w)).
Proof.
  unfold Ingester.transform_cog_to_single_bands_and_upload_to_bucket,
    transform_cog_to_single_bands_and_upload_to_bucket, bind.
  destruct (read_file cog_file w) as [[dataset|e] w1]; [|reflexivity].
  apply legacy_loop_simulation.
Qed.

Lemma fetch_any_url env url s f c l :
  fetch env url (mkWorld s f c l) =
  let w' := mkWorld s f (c ++ [CallGet url])
              (l ++ [(INFO, Msg "Request data from DMI API.")]) in
  match requests_get_result env url with
  | Raise e => (Raise e, w')
  | Ok response =>
      if (400 <=? status_code response) && (status_code response <? 600)
      then (Raise (HTTPError (status_code response) url), w')
      else (Ok response, w')
  end.
Proof.
  unfold fetch, bind, requests_get, bind, record_call, logger, raise_for_status.
  cbn [s3_store files calls log].
  destruct (requests_get_result env url) as [response|e]; [|reflexivity].
  destruct ((400 <=? status_code response) && (status_code response <? 600));
    reflexivity.
Qed.

(** X20.  In the single-parameter pipeline too, a fetch that is answered
    with an error status has no storage effect: the process ends normally,
    the store and the local files are as they were, the only call is the
    GET, and the error is logged. *)
Theorem X20_legacy_fetch_error_has_no_storage_effect
    (env : Env) (cfg : Ingester.Config) (response : Response) (w : World) :
  requests_get_result env (Ingester.request_url cfg) = Ok response ->
  400 <= status_code response < 600 ->
  Ingester.main env cfg w
  = (Ok tt,
     mkWorld (s3_store w) (files w) (calls w ++ [CallGet (Ingester.request_url cfg)])
       (log w ++ [(INFO, Msg "Start ingesting DMI data.");
                  (INFO, Msg "Request data from DMI API.");
                  (ERROR, MsgExn (HTTPError (status_code response)
                                    (Ingester.request_url cfg)))])).
Proof.
  intros Hget Hstatus. destruct w as [s f c l].
  unfold Ingester.main, bind at 1, logger at 1. cbn [s3_store files calls log].
  rewrite fetch_any_url, Hget. cbv zeta.
  replace ((400 <=? status_code response) && (status_code response <? 600)) with true
    by (symmetry; apply andb_true_intro; split; [apply Z.leb_le | apply Z.ltb_lt]; lia).
  unfold logger. cbn [s3_store files calls log]. rewrite <- !app_assoc. reflexivity.
Qed.

Lemma X20_witness :
  fst (Ingester.main env_not_found Ingester.example_cfg stale_world) = Ok tt
  /\ s3_store (snd (Ingester.main env_not_found Ingester.example_cfg stale_world))
     = s3_store stale_world.
Proof.
  rewrite (X20_legacy_fetch_error_has_no_storage_effect env_not_found Ingester.example_cfg
             {| status_code := 404; content := "" |} stale_world).
  - split; reflexivity.
  - reflexivity.
  - cbn [status_code]. lia.
Defined.

Lemma iso_str_seconds (t : Numpy.datetime64) :
  t <> Numpy.NaT -> Ingester.iso_str t = Numpy.iso_seconds t.
Proof.
  intros Ht. unfold Ingester.iso_str, Numpy.str.
  destruct (Z.eqb_spec t Numpy.NaT) as [E|_]; [contradiction|].
  change ("." +:+ Numpy.pad 9 (Numpy.nanosecond t))
    with (String "." (Numpy.pad 9 (Numpy.nanosecond t))).
  apply split_one_first.
  unfold Numpy.iso_seconds. rewrite !occurs_app, !occurs_pad by reflexivity.
  reflexivity.
Qed.

(** X21.  An entry of the single-parameter manifest is the timestamp at
    whole seconds with its separators, [YYYY-MM-DDTHH:MM:SS], nineteen
    characters; the key of the band object of the same timestep is that
    entry without its hyphens and colons. *)
Theorem X21_legacy_entry_and_band_key (t : Numpy.datetime64) :
  t <> Numpy.NaT ->
  Ingester.iso_str t = Numpy.iso_seconds t
  /\ String.length (Ingester.iso_str t) = 19%nat
  /\ time_str t = PyStr.replace (PyStr.replace (Ingester.iso_str t) "-" "") ":" "".
Proof.
  intros Ht. split; [now apply iso_str_seconds|]. split; [|reflexivity].
  rewrite iso_str_seconds by exact Ht. unfold Numpy.iso_seconds.
  now rewrite !string_length_app, !length_pad.
Qed.

Lemma X21_witness :
  Ingester.iso_str 1709272800000000000 = Numpy.iso_seconds 1709272800000000000.
Proof.
  apply (X21_legacy_entry_and_band_key 1709272800000000000).
  unfold Numpy.NaT. lia.
Defined.

(** X22.  Both pipelines use one storage layout: for the same bucket, base
    path, collection and parameter, the single-parameter pipeline stores a
    band and the manifest under the keys of the multi-parameter pipeline,
    and its deletion, whose path ends with a slash, removes the same
    objects. *)
Theorem X22_both_pipelines_share_the_storage_layout
    (cfg : Ingester.Config) (folder : string) (t : Numpy.datetime64)
    (s : gmap string Blob) :
  Ingester.bucket_path_of cfg +:+ PyStr.basename (band_output_file folder t)
  = bucket_file_of folder (Ingester.bucket_name cfg) (Ingester.bucket_path_below cfg) t
  /\ Ingester.forecast_json_bucket_path_of cfg
     = Ingester.target_of cfg +:+ "/forecasts.json"
  /\ delete_prefix (Ingester.bucket_path_of cfg) s
     = delete_prefix (Ingester.target_of cfg) s.
Proof.
  split; [|split].
  - unfold Ingester.bucket_path_of, Ingester.bucket_path_below, bucket_file_of,
      band_bucket_file. now rewrite !append_assoc.
  - unfold Ingester.forecast_json_bucket_path_of. rewrite legacy_bucket_path.
    now rewrite append_assoc.
  - rewrite legacy_bucket_path. apply delete_prefix_trailing_slash.
Qed.

Lemma legacy_bucket_path_form (cfg : Ingester.Config) :
  Ingester.bucket_path_of cfg
  = PyStr.fmt (Ingester.bucket_name cfg) +:+ "/" +:+ Ingester.bucket_path_below cfg +:+ "/".
Proof.
  unfold Ingester.bucket_path_of, Ingester.bucket_path_below. now rewrite !append_assoc.
Qed.

(** With every write accepted the band loop of the multi-parameter pipeline
    ends normally on the staged image. *)
Lemma transform_accepted env ds bname bpath endpoint key secret up s f c l :
  (forall n k, s3_write_error env n k = None) ->
  exists fc c' l',
    transform_cog_to_single_bands_and_upload_to_bucket env cog_filename base_data_dir
      (ds_time ds) bname bpath endpoint key secret up (mkWorld s (staged_files ds f) c l)
    = (Ok fc,
       mkWorld (if up
                then band_objects (cog_of ds) base_data_dir bname bpath 0 (ds_time ds) s
                else s)
         (band_local_files ds f) c' l').
Proof.
  intros Hw.
  unfold transform_cog_to_single_bands_and_upload_to_bucket, bind, read_file.
  cbn [files]. rewrite staged_cog.
  destruct up.
  - rewrite (loop_upload_ok env (cog_of ds) base_data_dir _ _ _ _ _ _ _ (cog_bands ds))
      by (cbn [Nat.add]; auto).
    eexists _, _, _. reflexivity.
  - rewrite (loop_local env (cog_of ds) base_data_dir _ _ _ _ _ _ _ (cog_bands ds))
      by (cbn [Nat.add]; auto).
    eexists _, _, _. reflexivity.
Qed.

(** A run of the single-parameter pipeline that meets no refusal. *)
Lemma legacy_main_ok env cfg response ds s f c l :
  (forall n k, s3_write_error env n k = None) ->
  requests_get_result env (Ingester.request_url cfg) = Ok response ->
  (400 <=? status_code response) && (status_code response <? 600) = false ->
  xarray_open_dataset env (content response) = Ok ds ->
  fst (Ingester.main env cfg (mkWorld s f c l)) = Ok tt
  /\ s3_store (snd (Ingester.main env cfg (mkWorld s f c l)))
     = <[Ingester.forecast_json_bucket_path_of cfg
           := Text (Ingester.dumps_available (map Ingester.iso_str (ds_time ds)))]>
         (if Ingester.upload cfg
          then band_objects (cog_of ds) base_data_dir (Ingester.bucket_name cfg)
                 (Ingester.bucket_path_below cfg) 0 (ds_time ds)
                 (delete_prefix (Ingester.bucket_path_of cfg) s)
          else delete_prefix (Ingester.bucket_path_of cfg) s)
  /\ files (snd (Ingester.main env cfg (mkWorld s f c l)))
     = <[forecast_json_filename
           := Text (Ingester.dumps_available (map Ingester.iso_str (ds_time ds)))]>
         (band_local_files ds f).
Proof.
  intros Hw Hget Hstatus Hopen.
  assert (exists c' l',
            Ingester.main env cfg (mkWorld s f c l) =
            (Ok tt,
             mkWorld
               (<[Ingester.forecast_json_bucket_path_of cfg
                    := Text (Ingester.dumps_available
                               (map Ingester.iso_str (ds_time ds)))]>
                  (if Ingester.upload cfg
                   then band_objects (cog_of ds) base_data_dir (Ingester.bucket_name cfg)
                          (Ingester.bucket_path_below cfg) 0 (ds_time ds)
                          (delete_prefix (Ingester.bucket_path_of cfg) s)
                   else delete_prefix (Ingester.bucket_path_of cfg) s))
               (<[forecast_json_filename
                    := Text (Ingester.dumps_available
                               (map Ingester.iso_str (ds_time ds)))]>
                  (band_local_files ds f))
               c' l')) as (c' & l' & E);
    [|rewrite E; repeat split].
  unfold Ingester.main, bind at 1, logger at 1. cbn [s3_store files calls log].
  rewrite fetch_any_url, Hget, Hstatus. cbv zeta.
  unfold Ingester.publish, bind at 1. rewrite delete_outdated_forecasts_step.
  unfold bind at 1, lift at 1. rewrite Hopen.
  rewrite stage_step. unfold bind at 1.
  set (w1 := mkWorld (delete_prefix (Ingester.bucket_path_of cfg) s) _ _ _).
  replace (Ingester.transform_cog_to_single_bands_and_upload_to_bucket env cog_filename
             base_data_dir (ds_time ds) (Ingester.bucket_path_of cfg)
             (Ingester.bucket_endpoint cfg) (Ingester.bucket_key cfg)
             (Ingester.bucket_secret cfg) (Ingester.upload cfg) w1)
    with (Ingester.transform_cog_to_single_bands_and_upload_to_bucket env cog_filename
            base_data_dir (ds_time ds)
            (PyStr.fmt (Ingester.bucket_name cfg) +:+ "/"
               +:+ Ingester.bucket_path_below cfg +:+ "/")
            (Ingester.bucket_endpoint cfg) (Ingester.bucket_key cfg)
            (Ingester.bucket_secret cfg) (Ingester.upload cfg) w1)
    by now rewrite <- legacy_bucket_path_form.
  rewrite (legacy_transform_simulation env cog_filename base_data_dir (ds_time ds)
             (Ingester.bucket_name cfg) (Ingester.bucket_path_below cfg)).
  subst w1.
  destruct (transform_accepted env ds (Ingester.bucket_name cfg)
              (Ingester.bucket_path_below cfg) (Ingester.bucket_endpoint cfg)
              (Ingester.bucket_key cfg) (Ingester.bucket_secret cfg) (Ingester.upload cfg)
              (delete_prefix (Ingester.bucket_path_of cfg) s) f
              ((c ++ [CallGet (Ingester.request_url cfg)])
                 ++ [CallRm (Ingester.bucket_path_of cfg)])
              ((((l ++ [(INFO, Msg "Start ingesting DMI data.")])
                   ++ [(INFO, Msg "Request data from DMI API.")])
                  ++ delete_log (Ingester.bucket_path_of cfg) s) ++ convert_log) Hw)
    as (fc & c1 & l1 & E).
  rewrite E. cbn [fst snd].
  unfold bind at 1, write_file at 1. cbn [s3_store files calls log].
  rewrite (upload_to_bucket_step env _ _ _ _ _
             (Text (Ingester.dumps_available (map Ingester.iso_str (ds_time ds)))))
    by apply lookup_insert_eq.
  rewrite Hw. eexists _, _. reflexivity.
Qed.

(** X23.  In the single-parameter pipeline a run that meets no refusal
    uploads a manifest that lists every timestep of the dataset, one entry
    per timestep also for timesteps of one second, whether or not uploading
    is enabled: with uploading disabled the target holds the manifest alone,
    naming forecasts of which no band was uploaded.  The intermediate files
    and the manifest file are left on the local disk. *)
Theorem X23_legacy_manifest_lists_every_timestep
    (env : Env) (cfg : Ingester.Config) (response : Response) (ds : Dataset) (w : World) :
  (forall n k, s3_write_error env n k = None) ->
  requests_get_result env (Ingester.request_url cfg) = Ok response ->
  (400 <=? status_code response) && (status_code response <? 600) = false ->
  xarray_open_dataset env (content response) = Ok ds ->
  fst (Ingester.main env cfg w) = Ok tt
  /\ s3_store (snd (Ingester.main env cfg w)) !! Ingester.forecast_json_bucket_path_of cfg
     = Some (Text (Ingester.dumps_available (map Ingester.iso_str (ds_time ds))))
  /\ length (map Ingester.iso_str (ds_time ds)) = length (ds_time ds)
  /\ (Ingester.upload cfg = false ->
      s3_store (snd (Ingester.main env cfg w))
      = <[Ingester.forecast_json_bucket_path_of cfg
            := Text (Ingester.dumps_available (map Ingester.iso_str (ds_time ds)))]>
          (delete_prefix (Ingester.target_of cfg) (s3_store w)))
  /\ files (snd (Ingester.main env cfg w)) !! nc_filename = Some (NetCDF ds)
  /\ files (snd (Ingester.main env cfg w)) !! cog_filename = Some (cog_of ds)
  /\ files (snd (Ingester.main env cfg w)) !! forecast_json_filename
     = Some (Text (Ingester.dumps_available (map Ingester.iso_str (ds_time ds)))).
Proof.
  intros Hw Hget Hstatus Hopen. destruct w as [s f c l].
  destruct (legacy_main_ok env cfg response ds s f c l Hw Hget Hstatus Hopen)
    as (Hr & Hs & Hf).
  rewrite Hs, Hf. cbn [s3_store]. destruct local_names_differ as (N1 & N2 & N3).
  split; [exact Hr|]. split; [apply lookup_insert_eq|]. split; [apply length_map|].
  split; [|split; [|split]].
  - intros ->. now rewrite legacy_bucket_path, delete_prefix_trailing_slash.
  - rewrite lookup_insert_ne by congruence. apply band_files_intermediate.
  - rewrite lookup_insert_ne by congruence. apply band_files_intermediate.
  - apply lookup_insert_eq.
Qed.

Lemma X23_witness :
  fst (Ingester.main env_ok Ingester.example_cfg stale_world) = Ok tt
  /\ s3_store (snd (Ingester.main env_ok Ingester.example_cfg stale_world))
     = <[Ingester.forecast_json_bucket_path_of Ingester.example_cfg
           := Text (Ingester.dumps_available
                      (map Ingester.iso_str
                         (ds_time (example_dataset example_times "payload"))))]>
         (delete_prefix (Ingester.target_of Ingester.example_cfg) (s3_store stale_world)).
Proof.
  destruct (X23_legacy_manifest_lists_every_timestep env_ok Ingester.example_cfg
              example_response (example_dataset example_times "payload") stale_world)
    as (Hr & _ & _ & Hs & _); try reflexivity.
  split; [exact Hr | apply Hs; reflexivity].
Defined.

(** ** A reprojection that is refused *)

(** X24.  When the fetch for a HARMONIE collection succeeds and the
    reprojection of the decoded dataset is refused, the run ends with that
    error after the prior publication has been deleted: nothing is left at
    or below the target, no local file is written and nothing is uploaded.
    For any other collection a refusal cannot occur, since nothing is
    reprojected. *)
Theorem X24_refused_reprojection_leaves_the_target_empty
    (env : Env) (cfg : Config) (parameter : string) (response : Response)
    (ds0 : Dataset) (e : Exn) (w : World) :
  requests_get_result env (request_url cfg parameter) = Ok response ->
  (400 <=? status_code response) && (status_code response <? 600) = false ->
  xarray_open_dataset env (content response) = Ok ds0 ->
  rio_reproject_error env (rio_write_crs ds0 (CRS_from_wkt LCC_DMI_WKT))
    (CRS_from_user_input "epsg:4326") = Some e ->
  (PyStr.startswith (collection cfg) "harmonie" = true ->
   process_parameter env cfg parameter w = (Raise e, after_delete cfg parameter w)
   /\ (forall k, under (bucket_path_full_of cfg parameter) k = true ->
                 s3_store (after_delete cfg parameter w) !! k = None)
   /\ files (after_delete cfg parameter w) = files w
   /\ calls (after_delete cfg parameter w)
      = calls w ++ [CallGet (request_url cfg parameter);
                    CallRm (bucket_path_full_of cfg parameter)])
  /\ (PyStr.startswith (collection cfg) "harmonie" = false ->
      process_parameter env cfg parameter w
      = convert_and_upload env cfg parameter ds0 (after_delete cfg parameter w)).
Proof.
  intros Hget Hstatus Hopen Herr. split; intros Hh.
  - split; [|split; [|split; reflexivity]].
    + destruct w as [s f c l]. unfold after_delete. cbn [s3_store files calls log].
      apply (process_parameter_unwarped env cfg parameter response ds0); try assumption.
      unfold normalize, reproject_from_lambert, rio_reproject. rewrite Hh.
      cbn [ds_crs rio_write_crs]. fold (rio_write_crs ds0 (CRS_from_wkt LCC_DMI_WKT)).
      now rewrite Herr.
    + intros k Hk. unfold after_delete. cbn [s3_store].
      now apply delete_prefix_lookup_under.
  - destruct w as [s f c l]. unfold after_delete. cbn [s3_store files calls log].
    apply (process_parameter_fetched env cfg parameter response ds0); try assumption.
    unfold normalize. now rewrite Hh.
Qed.

Lemma X24_witness :
  process_parameter env_unwarpable (with_collection example_cfg "harmonie_dini_sf")
    "wind-speed" stale_world
  = (Raise (RuntimeError "OneDimensionalRaster"),
     after_delete (with_collection example_cfg "harmonie_dini_sf") "wind-speed" stale_world).
Proof.
  apply (X24_refused_reprojection_leaves_the_target_empty env_unwarpable
           (with_collection example_cfg "harmonie_dini_sf") "wind-speed" example_response
           (example_dataset example_times "payload") (RuntimeError "OneDimensionalRaster")
           stale_world); reflexivity.
Defined.
